(** * CourseSensei webhook: the query resolution engine of [webhook.py]

    A shallow embedding of the Flask webhook that answers Dialogflow intents
    from an ontology of courses, and the properties of its path resolver,
    entity resolvers, pagination and dispatch table.

    Python strings are modelled as [string]: a sequence of code points below
    256 (the Latin-1 block of Unicode), on which the character classes of the
    [re] module and of [str.lower] / [str.strip] are tabulated below. *)

From Stdlib Require Import String Ascii List Bool Arith ZArith QArith Lia.
From Stdlib Require Import DecimalString.
From Stdlib Require Import Permutation Sorted.
Import ListNotations.

Local Open Scope list_scope.
Local Open Scope string_scope.

#[local] Set Warnings "-register-all".

(** ** Python string primitives *)

Module PyStr.

Definition code (c : ascii) : nat := nat_of_ascii c.

Definition between (lo hi : nat) (c : ascii) : bool :=
  (lo <=? code c)%nat && (code c <=? hi)%nat.

Definition code_is (n : nat) (c : ascii) : bool := (code c =? n)%nat.

(** [\d] *)
Definition is_digit (c : ascii) : bool := between 48 57 c.

(** [\w]: alphanumeric code points and the underscore. *)
Definition is_word (c : ascii) : bool :=
  is_digit c || between 65 90 c || code_is 95 c || between 97 122 c
  || code_is 170 c || between 178 179 c || code_is 181 c || between 185 186 c
  || between 188 190 c || between 192 214 c || between 216 246 c
  || between 248 255 c.

(** [\s], which is also what [str.strip] removes. *)
Definition is_space (c : ascii) : bool :=
  between 9 13 c || between 28 32 c || code_is 133 c || code_is 160 c.

Definition lower_char (c : ascii) : ascii :=
  if between 65 90 c || between 192 214 c || between 216 222 c
  then ascii_of_nat (code c + 32) else c.

(** [s.lower()] *)
Fixpoint lower (s : string) : string :=
  match s with
  | EmptyString => EmptyString
  | String c r => String (lower_char c) (lower r)
  end.

Fixpoint lstrip (s : string) : string :=
  match s with
  | EmptyString => EmptyString
  | String c r => if is_space c then lstrip r else s
  end.

Fixpoint rstrip (s : string) : string :=
  match s with
  | EmptyString => EmptyString
  | String c r =>
      match rstrip r with
      | EmptyString => if is_space c then EmptyString else String c EmptyString
      | r' => String c r'
      end
  end.

(** [s.strip()] *)
Definition strip (s : string) : string := rstrip (lstrip s).

(** [s.split(sep)] for a one-character separator: never the empty list. *)
Fixpoint split (sep : ascii) (s : string) : list string :=
  match s with
  | EmptyString => [EmptyString]
  | String c r =>
      if Ascii.eqb c sep then EmptyString :: split sep r
      else match split sep r with
           | h :: t => String c h :: t
           | [] => [String c EmptyString]
           end
  end.

(** [sep.join(l)] *)
Definition join (sep : string) (l : list string) : string := String.concat sep l.

Fixpoint forallb (p : ascii -> bool) (s : string) : bool :=
  match s with
  | EmptyString => true
  | String c r => p c && forallb p r
  end.

(** [In c s]: the character occurs in the string. *)
Fixpoint occurs (c : ascii) (s : string) : Prop :=
  match s with
  | EmptyString => False
  | String d r => d = c \/ occurs c r
  end.

(** [re.sub(r'\W+', '_', s)]: every maximal run of non-word characters
    becomes one underscore. [in_run] says that the previous character was
    already part of such a run. *)
Fixpoint sub_nonword_runs (in_run : bool) (s : string) : string :=
  match s with
  | EmptyString => EmptyString
  | String c r =>
      if is_word c then String c (sub_nonword_runs false r)
      else if in_run then sub_nonword_runs true r
           else String "_" (sub_nonword_runs true r)
  end.

(** The longest prefix of digits, and what follows it. *)
Fixpoint span_digits (s : string) : string * string :=
  match s with
  | EmptyString => (EmptyString, EmptyString)
  | String c r =>
      if is_digit c then let (d, rest) := span_digits r in (String c d, rest)
      else (EmptyString, s)
  end.

(** Group 1 of [re.search] for the pattern "one or more digits, an optional
    point, any number of digits": the leftmost digit starts the match, which
    greedily takes the digits, one optional point and the digits after it.
    [None] when the string has no digit. *)
Fixpoint search_number (s : string) : option string :=
  match s with
  | EmptyString => None
  | String c r =>
      if is_digit c then
        let (d1, rest) := span_digits s in
        match rest with
        | String c' rest' =>
            if Ascii.eqb c' "." then Some (d1 ++ "." ++ fst (span_digits rest'))
            else Some d1
        | EmptyString => Some d1
        end
      else search_number r
  end.

Fixpoint drop (n : nat) (s : string) : string :=
  match n, s with
  | O, _ => s
  | S k, String _ r => drop k r
  | S _, EmptyString => EmptyString
  end.

(** [s.replace(old, new)] for a non-empty [old]: occurrences are replaced
    from the left and do not overlap. [skip] counts the characters of an
    occurrence that are still to be dropped. *)
Fixpoint replace_from (old new : string) (skip : nat) (s : string) : string :=
  match s with
  | EmptyString => EmptyString
  | String c r =>
      match skip with
      | S k => replace_from old new k r
      | O =>
          if String.prefix old s
          then new ++ replace_from old new (String.length old - 1) r
          else String c (replace_from old new 0 r)
      end
  end.

Definition replace (old new s : string) : string := replace_from old new 0 s.

Definition digit_value (c : ascii) : Z := Z.of_nat (code c - 48).

(** The number written by a string of digits, most significant first. *)
Fixpoint digits_value (acc : Z) (s : string) : Z :=
  match s with
  | EmptyString => acc
  | String c r => digits_value (10 * acc + digit_value c) r
  end.

(** [str(n)] for an integer. *)
Definition of_Z (n : Z) : string := NilZero.string_of_int (Z.to_int n).

(** [str(n)] for a length or an index. *)
Definition of_nat (n : nat) : string := of_Z (Z.of_nat n).

Definition newline : string := String (ascii_of_nat 10) EmptyString.

End PyStr.

(** ** Python floats

    [float(s)] is the binary64 number nearest to the decimal [s] (ties to the
    even mantissa), and [repr] prints the shortest decimal that reads back as
    the same number. Only what the pattern of the assessment resolver can
    match is parsed: digits, then optionally a point and more digits, so no
    sign, no exponent and no NaN arise. *)

Module PyFloat.

Local Open Scope Z_scope.

(** [Finite m e] is [m * 2^e], with [0 <= m < 2^53] and [-1074 <= e]. *)
Inductive t : Type :=
| Finite (m e : Z)
| Infinity.

Definition to_Q (m e : Z) : Q :=
  if 0 <=? e then inject_Z (m * 2 ^ e) else Qmake m (Z.to_pos (2 ^ (- e))).

(** [x > y] *)
Definition gtb (x y : t) : bool :=
  match x, y with
  | Finite m e, Finite m' e' => negb (Qle_bool (to_Q m e) (to_Q m' e'))
  | Infinity, Finite _ _ => true
  | _, Infinity => false
  end.

(** [num / den] rounded to the nearest integer, ties to even ([den > 0]). *)
Definition round_half_even (num den : Z) : Z :=
  let q := num / den in
  match 2 * (num mod den) ?= den with
  | Lt => q
  | Gt => q + 1
  | Eq => if Z.even q then q else q + 1
  end.

(** [(a, b)] with [a / b = (n / d) / 2^e]. *)
Definition scale2 (e n d : Z) : Z * Z :=
  if 0 <=? e then (n, d * 2 ^ e) else (n * 2 ^ (- e), d).

(** The [e] with [2^e <= n / d < 2^(e+1)], for positive [n] and [d]. *)
Definition binade (n d : Z) : Z :=
  let e0 := Z.log2 n - Z.log2 d in
  let (a, b) := scale2 e0 n d in
  if b <=? a then e0 else e0 - 1.

(** The binary64 number nearest to [n / d] ([0 <= n], [0 < d]). *)
Definition of_ratio (n d : Z) : t :=
  if n =? 0 then Finite 0 0
  else
    let e := Z.max (binade n d - 52) (- 1074) in
    let (a, b) := scale2 e n d in
    let m := round_half_even a b in
    if (971 <? e) || ((e =? 971) && (2 ^ 53 <=? m)) then Infinity
    else if m =? 2 ^ 53 then Finite (2 ^ 52) (e + 1)
    else Finite m e.

(** [m * 10^k] as a ratio. *)
Definition scale10 (m k : Z) : Z * Z :=
  if 0 <=? k then (m * 10 ^ k, 1) else (m, 10 ^ (- k)).

(** [float(s)] for [s] made of digits, or digits, a point and digits.
    [None] stands for the [ValueError] of any other string. *)
Definition of_string (s : string) : option t :=
  match PyStr.split "." s with
  | [i] =>
      if PyStr.forallb PyStr.is_digit i && negb (String.eqb i "")
      then Some (of_ratio (PyStr.digits_value 0 i) 1) else None
  | [i; f] =>
      if PyStr.forallb PyStr.is_digit (i ++ f) && negb (String.eqb (i ++ f) "")
      then Some (of_ratio (PyStr.digits_value 0 (i ++ f)) (10 ^ Z.of_nat (String.length f)))
      else None
  | _ => None
  end.

(** *** [repr] *)

(** The [k] with [10^k <= n / d < 10^(k+1)], searched downwards from an upper
    estimate [k0] with at most [fuel] steps. *)
Fixpoint decade_from (fuel : nat) (k0 n d : Z) : Z :=
  match fuel with
  | O => k0
  | S f =>
      let (a, b) := scale10 1 k0 in
      if a * d <=? n * b then k0 else decade_from f (k0 - 1) n d
  end.

Definition decade (n d : Z) : Z :=
  let b := Z.log2 n - Z.log2 d + 1 in
  let k0 := (if 0 <=? b then b * 31 / 100 else b * 30 / 100) + 1 in
  decade_from 400 k0 n d.

(** Among the decimals [D * 10^s] with [p] significant digits, the two that
    enclose [n / d]; the one that reads back as [x] and is nearest to
    [n / d], if any. *)
Definition candidate (x : t) (n d : Z) (k : Z) (p : Z) : option (Z * Z) :=
  let s := k - p + 1 in
  let (a, b) := scale10 1 s in
  let lo := (n * b) / (d * a) in
  let r := (n * b) mod (d * a) in
  let back (D : Z) : bool :=
    let (u, v) := scale10 D s in
    match of_ratio u v, x with
    | Finite m e, Finite m' e' => (m =? m') && (e =? e')
    | _, _ => false
    end in
  let hi := lo + 1 in
  match back lo, back hi with
  | true, true =>
      match 2 * r ?= d * a with
      | Lt => Some (lo, s)
      | Gt => Some (hi, s)
      | Eq => Some (if Z.even lo then lo else hi, s)
      end
  | true, false => Some (lo, s)
  | false, true => Some (hi, s)
  | false, false => None
  end.

Fixpoint shortest_from (fuel : nat) (x : t) (n d k p : Z) : Z * Z :=
  match fuel with
  | O => (0, 0)
  | S f =>
      match candidate x n d k p with
      | Some c => c
      | None => shortest_from f x n d k (p + 1)
      end
  end.

Fixpoint strip_zeros (fuel : nat) (D s : Z) : Z * Z :=
  match fuel with
  | O => (D, s)
  | S f => if (D mod 10 =? 0) && negb (D =? 0) then strip_zeros f (D / 10) (s + 1) else (D, s)
  end.

Fixpoint zeros (n : nat) : string :=
  match n with
  | O => EmptyString
  | S k => String "0" (zeros k)
  end.

(** The digits and the position of the decimal point laid out as Python's
    [repr] does: exponent notation when the point is more than 16 places to
    the right of the first digit or more than 3 places to its left. *)
Definition layout (digits : string) (decpt : Z) : string :=
  let n := Z.of_nat (String.length digits) in
  if (decpt <=? -4) || (16 <? decpt) then
    let mant :=
      match digits with
      | String c EmptyString => String c EmptyString
      | String c r => (String c "." ++ r)%string
      | EmptyString => EmptyString
      end in
    let ex := decpt - 1 in
    let ds := PyStr.of_Z (Z.abs ex) in
    let sign := if ex <? 0 then "-" else "+" in
    let pad := if Z.abs ex <? 10 then "0" else "" in
    (mant ++ "e" ++ sign ++ pad ++ ds)%string
  else if decpt <=? 0 then
    ("0." ++ zeros (Z.to_nat (- decpt)) ++ digits)%string
  else if n <=? decpt then
    (digits ++ zeros (Z.to_nat (decpt - n)) ++ ".0")%string
  else
    (String.substring 0 (Z.to_nat decpt) digits ++ "."
     ++ String.substring (Z.to_nat decpt) (Z.to_nat (n - decpt)) digits)%string.

(** [repr(x)], which is also [str(x)] and what an f-string prints. *)
Definition repr (x : t) : string :=
  match x with
  | Infinity => "inf"
  | Finite m e =>
      if m =? 0 then "0.0"
      else
        let (n, d) := scale2 (- e) m 1 in
        let k := decade n d in
        let (D0, s0) := shortest_from 18 x n d k 1 in
        let (D, s) := strip_zeros 20 D0 s0 in
        let digits := PyStr.of_Z D in
        layout digits (Z.of_nat (String.length digits) + s)
  end.

End PyFloat.

(** ** Python values, exceptions and the state of the process *)

Inductive exn : Type :=
| AttributeError
| TypeError
| ValueError
| KeyError
| IndexError
| RuntimeError.

(** What evaluating an expression or calling a function does: it returns a
    value or it raises. *)
Inductive outcome (A : Type) : Type :=
| Ret (a : A)
| Raise (e : exn).

Arguments Ret {A} a.
Arguments Raise {A} e.

(** A node of the ontology carries its IRI and the relations stored on it. A
    relation maps to [None] when reading it raises something that is not an
    [AttributeError] (a malformed relation). [VObject] stands for any other
    Python object (a bound method, a class, ...). *)
Inductive value : Type :=
| VNone
| VStr (s : string)
| VInt (n : Z)
| VList (xs : list value)
| VNode (iri : string) (relations : list (string * option value))
| VObject (tag : string).

(** A Python [dict] with string keys, in insertion order. *)
Definition dict : Type := list (string * value).

Fixpoint dict_find (d : dict) (k : string) : option value :=
  match d with
  | [] => None
  | (k', v) :: r => if String.eqb k' k then Some v else dict_find r k
  end.

(** [d.get(k, default)] *)
Definition dict_get (d : dict) (k : string) (default : value) : value :=
  match dict_find d k with
  | Some v => v
  | None => default
  end.

(** [d[k] = v]: an existing key keeps its place. *)
Fixpoint dict_set (d : dict) (k : string) (v : value) : dict :=
  match d with
  | [] => [(k, v)]
  | (k', v') :: r => if String.eqb k' k then (k, v) :: r else (k', v') :: dict_set r k v
  end.

(** [k in d] *)
Definition dict_mem (d : dict) (k : string) : bool :=
  match dict_find d k with
  | Some _ => true
  | None => false
  end.

(** A lookup in the ontology, as recorded by the accessor. *)
Inductive graph_query : Type :=
| SearchIri (pattern : string)
| SearchInstructors (name : string).

(** The two memo tables of [functools.lru_cache], most recently used entry
    first, and the log of the lookups made in the ontology so far. *)
Record state : Type := mkState {
  course_cache : list (value * value);
  instructor_cache : list (value * value);
  graph_log : list graph_query
}.

Definition initial_state : state := mkState [] [] [].

(** Code that may raise and that reads and writes the state. *)
Definition M (A : Type) : Type := state -> outcome A * state.

Definition ret {A : Type} (a : A) : M A := fun st => (Ret a, st).

Definition raise {A : Type} (e : exn) : M A := fun st => (Raise e, st).

Definition bind {A B : Type} (m : M A) (k : A -> M B) : M B :=
  fun st =>
    match m st with
    | (Ret a, st') => k a st'
    | (Raise e, st') => (Raise e, st')
    end.

Definition obind {A B : Type} (o : outcome A) (k : A -> outcome B) : outcome B :=
  match o with
  | Ret a => k a
  | Raise e => Raise e
  end.

(** Code that raises but does not touch the state. *)
Definition lift {A : Type} (o : outcome A) : M A := fun st => (o, st).

(** [try: body except Exception: handler] *)
Definition try_except {A : Type} (body : outcome A) (handler : exn -> outcome A) : outcome A :=
  match body with
  | Ret a => Ret a
  | Raise e => handler e
  end.

Declare Scope py_scope.
Delimit Scope py_scope with py.

Notation "x <- m ;; k" := (bind m (fun x => k))
  (at level 100, m at next level, right associativity) : py_scope.
Notation "x <~ o ;; k" := (obind o (fun x => k))
  (at level 100, o at next level, right associativity) : py_scope.

Local Open Scope py_scope.

(** A request handler of the dispatch table. *)
Definition handler : Type := dict -> M string.

(** What the engine takes from its surroundings: the loaded ontology, the
    attributes that Python objects have besides the relations stored on a
    node, how a node or another object prints itself, and the resolvers of
    the source that are not part of this development, by the name of their
    function. *)
Record runtime : Type := mkRuntime {
  onto : list value;
  builtin_getattr : value -> string -> outcome value;
  object_repr : value -> string;
  other_resolver : string -> handler
}.

(** *** Operations of the language *)

(** [bool(v)] *)
Definition truthy (v : value) : bool :=
  match v with
  | VNone => false
  | VStr s => negb (String.eqb s "")
  | VInt n => negb (Z.eqb n 0)
  | VList xs => match xs with [] => false | _ => true end
  | VNode _ _ => true
  | VObject _ => true
  end.

(** [a or b] *)
Definition py_or (a b : value) : value := if truthy a then a else b.

Definition double_quote : ascii := ascii_of_nat 34.

Definition backslash : ascii := ascii_of_nat 92.

(** A backslash escape. *)
Definition esc (s : string) : string := String backslash s.

Definition hex_digit (n : nat) : ascii :=
  if (n <? 10)%nat then ascii_of_nat (48 + n) else ascii_of_nat (87 + n).

Definition hex2 (c : ascii) : string :=
  String (hex_digit (PyStr.code c / 16)) (String (hex_digit (PyStr.code c mod 16)) EmptyString).

Definition printable (c : ascii) : bool :=
  negb (PyStr.between 0 31 c || PyStr.between 127 160 c || PyStr.code_is 173 c).

Fixpoint repr_chars (quote : ascii) (s : string) : string :=
  match s with
  | EmptyString => EmptyString
  | String c r =>
      let rest := repr_chars quote r in
      if Ascii.eqb c quote || Ascii.eqb c backslash then esc (String c rest)
      else if PyStr.code_is 10 c then esc "n" ++ rest
      else if PyStr.code_is 13 c then esc "r" ++ rest
      else if PyStr.code_is 9 c then esc "t" ++ rest
      else if printable c then String c rest
      else esc "x" ++ hex2 c ++ rest
  end.

Fixpoint has_char (c : ascii) (s : string) : bool :=
  match s with
  | EmptyString => false
  | String d r => Ascii.eqb d c || has_char c r
  end.

(** [repr(s)] of a string: single quotes, unless the string has a single
    quote and no double quote. *)
Definition repr_string (s : string) : string :=
  let quote : ascii :=
    if has_char "'"%char s && negb (has_char double_quote s) then double_quote else "'"%char in
  String quote (repr_chars quote s ++ String quote EmptyString).

(** [repr(v)]; the ontology library and the other objects print themselves. *)
Fixpoint py_repr (R : runtime) (v : value) : string :=
  match v with
  | VNone => "None"
  | VStr s => repr_string s
  | VInt n => PyStr.of_Z n
  | VList xs => "[" ++ PyStr.join ", " (map (py_repr R) xs) ++ "]"
  | _ => object_repr R v
  end.

(** [str(v)], which is also what an f-string and [str.format] print. *)
Definition py_str (R : runtime) (v : value) : string :=
  match v with
  | VStr s => s
  | _ => py_repr R v
  end.

Fixpoint json_chars (s : string) : string :=
  match s with
  | EmptyString => EmptyString
  | String c r =>
      let rest := json_chars r in
      if Ascii.eqb c double_quote || Ascii.eqb c backslash then esc (String c rest)
      else if PyStr.code_is 10 c then esc "n" ++ rest
      else if PyStr.code_is 13 c then esc "r" ++ rest
      else if PyStr.code_is 9 c then esc "t" ++ rest
      else if PyStr.code_is 8 c then esc "b" ++ rest
      else if PyStr.code_is 12 c then esc "f" ++ rest
      else if PyStr.between 32 126 c then String c rest
      else esc "u00" ++ hex2 c ++ rest
  end.

Definition json_string (s : string) : string :=
  String double_quote (json_chars s ++ String double_quote EmptyString).

(** [json.dumps(v)], which raises on what JSON cannot hold. *)
Fixpoint json_value (v : value) : outcome string :=
  match v with
  | VNone => Ret "null"
  | VStr s => Ret (json_string s)
  | VInt n => Ret (PyStr.of_Z n)
  | VList xs =>
      l <~ (fix items (l : list value) : outcome (list string) :=
              match l with
              | [] => Ret []
              | x :: r => a <~ json_value x ;; b <~ items r ;; Ret (a :: b)
              end) xs ;;
      Ret ("[" ++ PyStr.join ", " l ++ "]")
  | _ => Raise TypeError
  end.

Fixpoint json_members (d : dict) : outcome (list string) :=
  match d with
  | [] => Ret []
  | (k, v) :: r =>
      a <~ json_value v ;;
      b <~ json_members r ;;
      Ret ((json_string k ++ ": " ++ a) :: b)
  end.

(** [json.dumps(d)] of a dictionary. *)
Definition json_dumps (d : dict) : outcome string :=
  l <~ json_members d ;; Ret ("{" ++ PyStr.join ", " l ++ "}").

Fixpoint relation_find (rels : list (string * option value)) (name : string)
  : option (option value) :=
  match rels with
  | [] => None
  | (k, v) :: r => if String.eqb k name then Some v else relation_find r name
  end.

(** [getattr(obj, name)] *)
Definition py_getattr (R : runtime) (obj : value) (name : string) : outcome value :=
  match obj with
  | VNode _ rels =>
      match relation_find rels name with
      | Some (Some v) => Ret v
      | Some None => Raise RuntimeError
      | None => builtin_getattr R obj name
      end
  | _ => builtin_getattr R obj name
  end.

(** [hasattr(obj, name)]: only an [AttributeError] means no. *)
Definition py_hasattr (R : runtime) (obj : value) (name : string) : outcome bool :=
  match py_getattr R obj name with
  | Ret _ => Ret true
  | Raise AttributeError => Ret false
  | Raise e => Raise e
  end.

(** [getattr(obj, name, default)] *)
Definition py_getattr_default (R : runtime) (obj : value) (name : string) (default : value)
  : outcome value :=
  match py_getattr R obj name with
  | Raise AttributeError => Ret default
  | o => o
  end.

(** [for x in v]: the elements of a list, the characters of a string. *)
Definition py_iter (v : value) : outcome (list value) :=
  match v with
  | VList xs => Ret xs
  | VStr s => Ret (map (fun c => VStr (String c EmptyString)) (list_ascii_of_string s))
  | _ => Raise TypeError
  end.

(** [v.lower()] *)
Definition py_lower (R : runtime) (v : value) : outcome string :=
  match v with
  | VStr s => Ret (PyStr.lower s)
  | _ => _ <~ py_getattr R v "lower" ;; Raise TypeError
  end.

(** [len(v)] *)
Definition py_len (v : value) : outcome nat :=
  match v with
  | VStr s => Ret (String.length s)
  | VList xs => Ret (List.length xs)
  | _ => Raise TypeError
  end.

(** [int(s)] for a string: surrounding whitespace, an optional sign, digits
    that single underscores may separate. *)
Fixpoint int_digits (prev_digit : bool) (acc : Z) (s : string) : option Z :=
  match s with
  | EmptyString => if prev_digit then Some acc else None
  | String c r =>
      if PyStr.is_digit c then int_digits true (10 * acc + PyStr.digit_value c)%Z r
      else if Ascii.eqb c "_" && prev_digit then
             match r with
             | String d _ => if PyStr.is_digit d then int_digits false acc r else None
             | EmptyString => None
             end
           else None
  end.

Definition int_of_string (s : string) : option Z :=
  match PyStr.strip s with
  | String "-" r => option_map Z.opp (int_digits false 0%Z r)
  | String "+" r => int_digits false 0%Z r
  | r => int_digits false 0%Z r
  end.

(** [int(v)] *)
Definition py_int (v : value) : outcome Z :=
  match v with
  | VInt n => Ret n
  | VStr s => match int_of_string s with Some n => Ret n | None => Raise ValueError end
  | _ => Raise TypeError
  end.

(** [sep.join(l)]: every item must be a string. *)
Fixpoint strings_of (l : list value) : outcome (list string) :=
  match l with
  | [] => Ret []
  | VStr s :: r => r' <~ strings_of r ;; Ret (s :: r')
  | _ :: _ => Raise TypeError
  end.

Definition py_join (sep : string) (l : list value) : outcome string :=
  l' <~ strings_of l ;; Ret (PyStr.join sep l').

(** [template.format] with keyword arguments [kw], for templates with named
    fields only. [field] is
    the name read so far when the scan is inside braces. *)
Fixpoint format_from (template : string) (field : option string) (kw : list (string * string))
  : outcome string :=
  match template with
  | EmptyString => match field with None => Ret EmptyString | Some _ => Raise ValueError end
  | String c r =>
      match field with
      | None =>
          if Ascii.eqb c "{" then format_from r (Some EmptyString) kw
          else rest <~ format_from r None kw ;; Ret (String c rest)
      | Some name =>
          if Ascii.eqb c "}" then
            match find (fun p => String.eqb (fst p) name) kw with
            | Some (_, v) => rest <~ format_from r None kw ;; Ret (v ++ rest)
            | None => Raise KeyError
            end
          else format_from r (Some (name ++ String c EmptyString)) kw
      end
  end.

Definition format (template : string) (kw : list (string * string)) : outcome string :=
  format_from template None kw.

(** ** Configuration *)

Definition ERROR_TEMPLATES : list (string * string) :=
  [ ("invalid_input", "Please provide a valid {entity} (3-50 characters).");
    ("not_found", "I couldn't find {entity} '{name}'.");
    ("no_data", "No {data_type} available for {entity} '{name}'.");
    ("pagination",
     PyStr.newline ++ PyStr.newline
     ++ "(Page {current}/{total} - Say 'next page' or 'previous page')") ].

Definition PAGE_SIZE : nat := 3.

Definition MAX_INPUT_LENGTH : nat := 50.

(** [ERROR_TEMPLATES[key].format(...)] *)
Definition error_template (key : string) (kw : list (string * string)) : outcome string :=
  match find (fun p => String.eqb (fst p) key) ERROR_TEMPLATES with
  | Some (_, template) => format template kw
  | None => Raise KeyError
  end.

(** ** Helper functions *)

(** Convert names to valid ontology IDs. *)
Definition sanitize_id (name : string) : string :=
  PyStr.sub_nonword_runs false (PyStr.lower (PyStr.strip name)).

(** The set of the pattern of [validate_input]: word characters, whitespace
    and the hyphen. *)
Definition input_char (c : ascii) : bool :=
  PyStr.is_word c || PyStr.is_space c || Ascii.eqb c "-".

(** Validate user-provided parameters. *)
Definition validate_input (v : value) : outcome bool :=
  if negb (truthy v) then Ret false
  else
    n <~ py_len v ;;
    if (MAX_INPUT_LENGTH <? n)%nat then Ret false
    else
      match v with
      | VStr s => Ret (PyStr.forallb input_char s)
      | _ => Raise TypeError
      end.

(** The loop and the final test of [get_nested_property], from the current
    object and the properties still to follow. *)
Fixpoint follow_properties (R : runtime) (obj : value) (properties : list string)
  : outcome value :=
  match properties with
  | prop :: rest =>
      match obj with
      | VList [] => Ret VNone
      | _ =>
          let obj := match obj with VList (x :: _) => x | _ => obj end in
          has <~ py_hasattr R obj prop ;;
          if negb has then Ret VNone
          else
            obj <~ py_getattr R obj prop ;;
            follow_properties R obj rest
      end
  | [] =>
      match obj with
      | VList [] => Ret VNone
      | VList (x :: _) => Ret x
      | VNone => Ret VNone
      | VStr s => if String.eqb s "NA" then Ret VNone else Ret obj
      | _ => Ret obj
      end
  end.

(** Safely navigate nested ontology properties given a dot-separated property
    path. *)
Definition get_nested_property (R : runtime) (obj : value) (property_path : string)
  : outcome value :=
  try_except
    (follow_properties R obj (PyStr.split "." property_path))
    (fun _ => Ret VNone).

(** [range(0, n, step)], with [fuel] bounding the number of elements. *)
Fixpoint range_from (fuel i n step : nat) : list nat :=
  match fuel with
  | O => []
  | S f => if (i <? n)%nat then i :: range_from f (i + step) n step else []
  end.

Definition range_step (n step : nat) : list nat := range_from n 0 n step.

(** [items[i:j]] *)
Definition slice {A : Type} (items : list A) (i j : nat) : list A :=
  firstn (j - i) (skipn i items).

(** Split a list of items into pages. *)
Definition paginate_items {A : Type} (items : list A) (page_size : nat) : list (list A) :=
  map (fun i => slice items i (i + page_size)) (range_step (List.length items) page_size).

(** ** The ontology accessor *)

Definition is_suffix (suffix s : string) : bool :=
  (String.length suffix <=? String.length s)%nat
  && String.eqb (PyStr.drop (String.length s - String.length suffix) s) suffix.

(** The ontology library is outside the repository. Its search by IRI is an
    exact-suffix match, as the specification describes the accessor: a
    pattern is a star followed by the suffix that the IRI must end with. *)
Definition iri_matches (pattern : string) (v : value) : bool :=
  match pattern, v with
  | String "*" suffix, VNode iri _ => is_suffix suffix iri
  | _, VNode iri _ => String.eqb pattern iri
  | _, _ => false
  end.

(** [onto.search(iri=pattern)] *)
Definition search_iri (R : runtime) (pattern : string) : M (list value) :=
  fun st =>
    (Ret (filter (iri_matches pattern) (onto R)),
     mkState (course_cache st) (instructor_cache st) (graph_log st ++ [SearchIri pattern])%list).

(** Its search by attribute finds the nodes whose named attribute equals the
    value, as a scalar or as one of the values of a multi-valued relation. *)
Definition has_string (s : string) (v : value) : bool :=
  match v with
  | VStr s' => String.eqb s' s
  | _ => false
  end.

Definition attribute_equals (name s : string) (v : value) : bool :=
  match v with
  | VNode _ rels =>
      match relation_find rels name with
      | Some (Some (VList xs)) => existsb (has_string s) xs
      | Some (Some x) => has_string s x
      | _ => false
      end
  | _ => false
  end.

(** [onto.search(Instructors=name)] *)
Definition search_instructors (R : runtime) (name : string) : M (list value) :=
  fun st =>
    (Ret (filter (attribute_equals "Instructors" name) (onto R)),
     mkState (course_cache st) (instructor_cache st)
             (graph_log st ++ [SearchInstructors name])%list).

(** [next(iter(l), None)] *)
Definition first_or_none (l : list value) : value :=
  match l with
  | x :: _ => x
  | [] => VNone
  end.

(** ** Cached data access *)

(** Equality of the keys a memo table can hold. A node is never stored as a
    key: the resolvers raise on it, and a call that raises is not cached. *)
Definition key_eqb (a b : value) : bool :=
  match a, b with
  | VNone, VNone => true
  | VStr s, VStr s' => String.eqb s s'
  | VInt n, VInt n' => Z.eqb n n'
  | _, _ => false
  end.

Definition hashable (v : value) : bool :=
  match v with
  | VList _ => false
  | _ => true
  end.

Fixpoint cache_find (k : value) (c : list (value * value)) : option value :=
  match c with
  | [] => None
  | (k', v) :: r => if key_eqb k' k then Some v else cache_find k r
  end.

Fixpoint cache_remove (k : value) (c : list (value * value)) : list (value * value) :=
  match c with
  | [] => []
  | (k', v) :: r => if key_eqb k' k then r else (k', v) :: cache_remove k r
  end.

(** [functools.lru_cache(maxsize)] around a function of one argument: a hit
    returns the stored result and makes the entry the most recent one; a miss
    calls the function, stores what it returns and evicts the least recently
    used entries beyond [maxsize]. *)
Definition lru_cache (maxsize : nat)
    (get : state -> list (value * value))
    (set : list (value * value) -> state -> state)
    (f : value -> M value) (arg : value) : M value :=
  fun st =>
    if negb (hashable arg) then (Raise TypeError, st)
    else
      match cache_find arg (get st) with
      | Some v => (Ret v, set ((arg, v) :: cache_remove arg (get st)) st)
      | None =>
          match f arg st with
          | (Ret v, st') => (Ret v, set (firstn maxsize ((arg, v) :: get st')) st')
          | (Raise e, st') => (Raise e, st')
          end
      end.

Definition set_course_cache (c : list (value * value)) (st : state) : state :=
  mkState c (instructor_cache st) (graph_log st).

Definition set_instructor_cache (c : list (value * value)) (st : state) : state :=
  mkState (course_cache st) c (graph_log st).

(** The body of [get_course]. Only a string passes [validate_input]; the
    last branch is what [strip] would do on anything else. *)
Definition get_course_uncached (R : runtime) (course_name : value) : M value :=
  ok <- lift (validate_input course_name) ;;
  if negb ok then ret VNone
  else
    match course_name with
    | VStr name =>
        let course_id := sanitize_id name in
        found <- search_iri R ("*#" ++ course_id) ;;
        ret (first_or_none found)
    | _ => raise AttributeError
    end.

(** Return the course individual from the ontology. *)
Definition get_course (R : runtime) : value -> M value :=
  lru_cache 100 course_cache set_course_cache (get_course_uncached R).

(** The body of [get_instructor]. *)
Definition get_instructor_uncached (R : runtime) (instructor_name : value) : M value :=
  ok <- lift (validate_input instructor_name) ;;
  if negb ok then ret VNone
  else
    match instructor_name with
    | VStr name =>
        found <- search_instructors R (PyStr.strip name) ;;
        ret (first_or_none found)
    | _ => raise AttributeError
    end.

(** Return the instructor individual from the ontology. *)
Definition get_instructor (R : runtime) : value -> M value :=
  lru_cache 50 instructor_cache set_instructor_cache (get_instructor_uncached R).

(** [v[0]] *)
Definition py_first (v : value) : outcome value :=
  match v with
  | VList (x :: _) => Ret x
  | VList [] => Raise IndexError
  | VStr (String c _) => Ret (VStr (String c EmptyString))
  | VStr EmptyString => Raise IndexError
  | _ => Raise TypeError
  end.

(** Return the CourseMetadata individual for a course. *)
Definition get_course_metadata (R : runtime) (course : value) : outcome value :=
  try_except
    (metadata <~ py_getattr R course "hasCourseMetadata" ;; py_first metadata)
    (fun e =>
       match e with
       | AttributeError | IndexError => Ret VNone
       | _ => Raise e
       end).

(** ** Generic handlers *)

Definition not_found (R : runtime) (entity : string) (name : value) : outcome string :=
  error_template "not_found" [("entity", entity); ("name", py_str R name)].

Definition no_data (R : runtime) (data_type entity : string) (name : value) : outcome string :=
  error_template "no_data"
    [("data_type", data_type); ("entity", entity); ("name", py_str R name)].

Definition handle_standard_query (R : runtime) (params : dict)
    (property_path data_type entity_name : string) : M string :=
  course <- get_course R (dict_get params "courseName" (VStr "")) ;;
  if negb (truthy course) then
    lift (not_found R entity_name (dict_get params "courseName" VNone))
  else
    value <- lift (get_nested_property R course property_path) ;;
    if negb (truthy value) then
      lift (no_data R data_type entity_name (dict_get params "courseName" VNone))
    else ret (py_str R value).

(** The items of a list query whose path has more than one segment. *)
Fixpoint nested_items (R : runtime) (nested_path : string)
    (format_func : option (value -> outcome value)) (results : list value)
  : outcome (list value) :=
  match results with
  | [] => Ret []
  | item :: rest =>
      value <~ get_nested_property R item nested_path ;;
      if truthy value then
        x <~ match format_func with Some f => f value | None => Ret value end ;;
        items <~ nested_items R nested_path format_func rest ;;
        Ret (x :: items)
      else nested_items R nested_path format_func rest
  end.

(** The items of a list query on a single relation. *)
Fixpoint direct_items (format_func : option (value -> outcome value)) (results : list value)
  : outcome (list value) :=
  match results with
  | [] => Ret []
  | item :: rest =>
      if truthy item then
        x <~ match format_func with Some f => f item | None => Ret item end ;;
        items <~ direct_items format_func rest ;;
        Ret (x :: items)
      else direct_items format_func rest
  end.

(** The end of [handle_list_query]: the page of [items] that [params] asks
    for, with the footer when there is more than one page. *)
Definition render_page (R : runtime) (params : dict) (items_name : string) (items : list value)
  : outcome string :=
  page <~ py_int (dict_get params "page" (VInt 0)) ;;
  let pages := paginate_items items PAGE_SIZE in
  match pages with
  | [] => no_data R items_name "course" (dict_get params "courseName" VNone)
  | _ =>
      let page := Z.to_nat (Z.max 0 (Z.min page (Z.of_nat (List.length pages) - 1))) in
      response <~ py_join PyStr.newline (nth page pages []) ;;
      if (1 <? List.length pages)%nat then
        footer <~ error_template "pagination"
                    [("current", PyStr.of_nat (page + 1));
                     ("total", PyStr.of_nat (List.length pages))] ;;
        Ret (response ++ footer)
      else Ret response
  end.

(** The start of [handle_list_query]: the items read from the course. *)
Definition list_items (R : runtime) (course : value) (property_path : string)
    (format_func : option (value -> outcome value)) : outcome (list value) :=
  match PyStr.split "." property_path with
  | [] => Raise ValueError
  | first_prop :: rest =>
      results <~ py_getattr_default R course first_prop (VList []) ;;
      results <~ py_iter results ;;
      match rest with
      | _ :: _ => nested_items R (PyStr.join "." rest) format_func results
      | [] => direct_items format_func results
      end
  end.

Definition handle_list_query (R : runtime) (params : dict)
    (property_path items_name : string) (format_func : option (value -> outcome value))
  : M string :=
  course <- get_course R (dict_get params "courseName" (VStr "")) ;;
  if negb (truthy course) then
    lift (not_found R "course" (dict_get params "courseName" VNone))
  else
    items <- lift (list_items R course property_path format_func) ;;
    lift (render_page R params items_name items).

(** ** Bespoke resolvers *)

(** The test of the loop of [query_assessment_percentage]: the assessment has
    a tool, and it is [tool_name] when both are put in lower case. *)
Definition matches_tool (R : runtime) (tool_name assessment : value) : outcome bool :=
  tool <~ py_getattr R assessment "AssessmentTool" ;;
  if truthy tool then
    a <~ (tool <~ py_getattr R assessment "AssessmentTool" ;; py_lower R tool) ;;
    b <~ py_lower R tool_name ;;
    Ret (String.eqb a b)
  else Ret false.

(** The loop of [query_assessment_percentage] over the assessments that are
    left, and the [not_found] that follows it. *)
Fixpoint scan_percentage (R : runtime) (params : dict) (tool_name : value)
    (assessments : list value) : outcome string :=
  match assessments with
  | [] => not_found R "assessment tool" tool_name
  | assessment :: rest =>
      same <~ matches_tool R tool_name assessment ;;
      if same then
        percentage <~ py_getattr R assessment "Percentage" ;;
        if truthy percentage then
          percentage <~ py_getattr R assessment "Percentage" ;;
          Ret (py_str R percentage ++ "%")
        else no_data R "assessment percentage" "course" (dict_get params "courseName" VNone)
      else scan_percentage R params tool_name rest
  end.

(** What is the percentage of the assessment tool in the course? *)
Definition query_assessment_percentage (R : runtime) (params : dict) : M string :=
  course <- get_course R (dict_get params "courseName" (VStr "")) ;;
  let tool_name := dict_get params "assessmentTool" (VStr "") in
  lift (has <~ (if truthy course then
                  a <~ py_getattr R course "hasAssessment" ;; Ret (truthy a)
                else Ret false) ;;
        if has then
          assessments <~ (a <~ py_getattr R course "hasAssessment" ;; py_iter a) ;;
          scan_percentage R params tool_name assessments
        else not_found R "course" (dict_get params "courseName" VNone)).

(** How many credits is the course worth? The dispatch table does not use
    this resolver. *)
Definition query_course_credits (R : runtime) (params : dict) : M string :=
  course <- get_course R (dict_get params "courseName" (VStr "")) ;;
  lift (meta <~ get_course_metadata R course ;;
        has <~ (if truthy meta then
                  credit <~ py_getattr R meta "CourseCredit" ;; Ret (truthy credit)
                else Ret false) ;;
        if has then
          credit <~ py_getattr R meta "CourseCredit" ;;
          Ret (py_str R credit ++ " credits.")
        else Ret "Credit info unavailable.").

(** The first session plan whose [Session], as a string, is [session_num]. *)
Fixpoint find_session (R : runtime) (session_num : string) (plans : list value)
  : outcome value :=
  match plans with
  | [] => Ret VNone
  | s :: rest =>
      n <~ py_getattr R s "Session" ;;
      if String.eqb (py_str R n) session_num then Ret s
      else find_session R session_num rest
  end.

(** Session info of the course. *)
Definition query_session_info (R : runtime) (params : dict) : M string :=
  course <- get_course R (dict_get params "courseName" (VStr "")) ;;
  let session_num := py_str R (dict_get params "sessionNumber" (VStr "")) in
  lift (found <~ (if truthy course then
                    plans <~ (p <~ py_getattr R course "hasSessionPlan" ;; py_iter p) ;;
                    find_session R session_num plans
                  else Ret VNone) ;;
        if truthy found then
          module <~ py_getattr R found "Module" ;;
          topic <~ py_getattr R found "Topic" ;;
          material <~ py_getattr R found "ReadingMaterial" ;;
          let details :=
            "Module: " ++ py_str R module ++ ", Topic: " ++ py_str R topic
            ++ ", Materials: " ++ py_str R material in
          Ret (PyStr.replace "NA" "" (PyStr.replace "NA, " "" details))
        else Ret "Session information not found.").

(** [re.search] on a value: only a string can be searched. *)
Definition py_search_number (v : value) : outcome (option string) :=
  match v with
  | VStr s => Ret (PyStr.search_number s)
  | _ => Raise TypeError
  end.

(** The number that [query_highest_assessment_tool] extracts from the
    percentage of an assessment; [None] when the loop skips the assessment. *)
Definition percentage_number (R : runtime) (a : value) : outcome (option PyFloat.t) :=
  percentage <~ py_getattr R a "Percentage" ;;
  let percentage_str := py_or percentage (VStr EmptyString) in
  found <~ py_search_number percentage_str ;;
  match found with
  | None => Ret None
  | Some group =>
      match PyFloat.of_string group with
      | Some perc => Ret (Some perc)
      | None => Raise ValueError
      end
  end.

(** The loop of [query_highest_assessment_tool]: [highest] is the pair kept so
    far. *)
Fixpoint scan_highest (R : runtime) (highest : option (PyFloat.t * value))
    (assessments : list value) : outcome (option (PyFloat.t * value)) :=
  match assessments with
  | [] => Ret highest
  | a :: rest =>
      number <~ percentage_number R a ;;
      match number with
      | None => scan_highest R highest rest
      | Some perc =>
          let better :=
            match highest with
            | None => true
            | Some (best, _) => PyFloat.gtb perc best
            end in
          if better then
            tool <~ py_getattr R a "AssessmentTool" ;;
            scan_highest R (Some (perc, tool)) rest
          else scan_highest R highest rest
      end
  end.

(** Which assessment tool has the highest percentage weight in the course? *)
Definition query_highest_assessment_tool (R : runtime) (params : dict) : M string :=
  course <- get_course R (dict_get params "courseName" (VStr "")) ;;
  lift (has <~ (if truthy course then
                  a <~ py_getattr R course "hasAssessment" ;; Ret (truthy a)
                else Ret false) ;;
        highest <~ (if has then
                      assessments <~ (a <~ py_getattr R course "hasAssessment" ;; py_iter a) ;;
                      scan_highest R None assessments
                    else Ret None) ;;
        match highest with
        | Some (perc, tool) =>
            Ret ("Highest weighted assessment tool: " ++ py_str R tool
                 ++ " (" ++ PyFloat.repr perc ++ "%).")
        | None => no_data R "assessment tool" "course" (dict_get params "courseName" VNone)
        end).

(** ** Dispatch dictionary for intents *)

(** The formatter of [GetCourseTopics]. *)
Definition topic_line (R : runtime) (s : value) : outcome value :=
  session <~ py_getattr R s "Session" ;;
  module <~ py_getattr R s "Module" ;;
  topic <~ py_getattr R s "Topic" ;;
  Ret (VStr ("Session " ++ py_str R session ++ ": " ++ py_str R module
             ++ " - " ++ py_str R topic)).

Definition query_year_batch (R : runtime) (params : dict) : M string :=
  handle_standard_query R params "hasCourseMetadata.YearBatch" "year/batch" "course".

Definition query_sections (R : runtime) (params : dict) : M string :=
  handle_standard_query R params "hasCourseMetadata.Sections" "sections" "course".

Definition INTENT_HANDLERS (R : runtime) : list (string * handler) :=
  let standard path label : handler := fun p => handle_standard_query R p path label "course" in
  [ (* Course metadata *)
    ("GetCourseCredits", standard "hasCourseMetadata.CourseCredit" "credit information");
    ("GetCourseType", standard "hasCourseMetadata.CourseType" "course type");
    ("GetPrerequisites", standard "hasCourseMetadata.Prerequisites" "prerequisites");
    ("GetSessionDuration", standard "hasCourseMetadata.SessionDuration" "session duration");
    ("GetTotalSessions", standard "hasCourseMetadata.TotalSessions" "total sessions");
    (* Basic info *)
    ("GetCourseOverview", standard "hasBasicInfo.Introduction" "course overview");
    ("GetLearningOutcomes", standard "hasBasicInfo.LearningOutcomes" "learning outcomes");
    ("GetPedagogy", standard "hasBasicInfo.PedagogyUsed" "pedagogy information");
    (* Instructor info *)
    ("GetInstructorForCourse",
     fun p => handle_list_query R p "hasInstructorDetails" "instructors"
                (Some (fun i => get_nested_property R i "Instructors")));
    ("GetInstructorContact", standard "hasInstructorDetails.ContactDetails" "contact details");
    ("GetContactInstructor", other_resolver R "query_contact_instructor");
    ("GetCoursesByInstructor", other_resolver R "query_courses_by_instructor");
    (* Sessions and topics *)
    ("GetCourseTopics",
     fun p => handle_list_query R p "hasSessionPlan" "topics" (Some (topic_line R)));
    ("GetSessionInfo",
     fun p => handle_standard_query R p
                ("hasSessionPlan." ++ py_str R (dict_get p "sessionNumber" VNone))
                "session info" "course");
    ("GetFullSessionPlan", other_resolver R "query_full_session_plan");
    (* Assessments *)
    ("GetAssessmentTools",
     fun p => handle_list_query R p "hasAssessment" "assessment tools"
                (Some (fun a => py_getattr R a "AssessmentTool")));
    ("GetAssessmentPercentage", query_assessment_percentage R);
    ("GetAssessmentDetails", other_resolver R "query_assessment_details_full");
    ("GetHighestAssessmentTool", query_highest_assessment_tool R);
    (* Additional course metadata queries *)
    ("GetYearBatch", query_year_batch R);
    ("GetSections", query_sections R);
    (* Program and term related queries *)
    ("GetProgramForCourse", other_resolver R "query_program_for_course");
    ("GetTermForCourseProgram", other_resolver R "query_term_for_course_program");
    ("GetCoursesInProgramTerm", other_resolver R "query_courses_in_program_term");
    ("GetInstructorsInProgramTerm", other_resolver R "query_instructors_in_program_term");
    (* Instructor additional queries *)
    ("GetInstructorOffice", other_resolver R "query_instructor_office");
    ("GetCoursesByInstructorInProgram",
     other_resolver R "query_courses_by_instructor_in_program");
    ("GetConsultationContact", other_resolver R "query_consultation_contact") ].

(** [INTENT_HANDLERS.get(intent)] *)
Fixpoint handlers_get (table : list (string * handler)) (intent : string) : option handler :=
  match table with
  | [] => None
  | (name, h) :: rest => if String.eqb name intent then Some h else handlers_get rest intent
  end.

(** ** Webhook endpoint *)

(** An entry of [outputContexts] in the request. *)
Record context : Type := mkContext {
  context_name : string;
  context_parameters : option dict
}.

(** The [queryResult] of the request body; [None] is an absent key. *)
Record request : Type := mkRequest {
  intent_displayName : option string;
  parameters : option dict;
  outputContexts : option (list context)
}.

(** The pagination context of the response. *)
Record output_context : Type := mkOutputContext {
  name : string;
  lifespanCount : Z;
  page : value;
  original_query : string
}.

(** The JSON object of the response; [None] is an absent key. *)
Record response : Type := mkResponse {
  fulfillmentText : string;
  response_contexts : option (list output_context)
}.

Definition has_page (c : context) : bool :=
  match context_parameters c with
  | Some d => dict_mem d "page"
  | None => false
  end.

Definition webhook (R : runtime) (req : request) : state -> response * state :=
  fun st =>
    let intent := match intent_displayName req with Some i => i | None => EmptyString end in
    let params := match parameters req with Some p => p | None => [] end in
    let contexts := match outputContexts req with Some c => c | None => [] end in
    (* Handle pagination context if exists *)
    let page :=
      match find has_page contexts with
      | Some c =>
          match context_parameters c with
          | Some d => dict_get d "page" (VInt 0)
          | None => VInt 0
          end
      | None => VInt 0
      end in
    let params := dict_set params "page" page in
    match handlers_get (INTENT_HANDLERS R) intent with
    | None => (mkResponse "This query type is not supported yet." None, st)
    | Some handler =>
        let run : M response :=
          response_text <- handler params ;;
          (* Prepare pagination context output if applicable *)
          output_contexts <-
            (if dict_mem params "page" then
               query <- lift (json_dumps params) ;;
               ret [ mkOutputContext
                       "projects/${projectId}/agent/sessions/${sessionId}/contexts/pagination"
                       5 (dict_get params "page" (VInt 0)) query ]
             else ret []) ;;
          ret (mkResponse response_text (Some output_contexts)) in
        match run st with
        | (Ret r, st') => (r, st')
        | (Raise _, st') =>
            (mkResponse "Sorry, I encountered an error processing your request." None, st')
        end
    end.

(** ** A small ontology for the examples *)

Module Example.

Definition base : string := "http://example.org/university_courses.owl#".

Definition assessment (id tool : string) (percentage : value) : value :=
  VNode (base ++ id)
    [ ("AssessmentTool", Some (VStr tool));
      ("Percentage", Some percentage);
      ("AssessmentDescription", Some (VStr "NA")) ].

Definition session (id number module topic material : string) : value :=
  VNode (base ++ id)
    [ ("Session", Some (VStr number));
      ("Module", Some (VStr module));
      ("Topic", Some (VStr topic));
      ("ReadingMaterial", Some (VStr material)) ].

Definition metadata : value :=
  VNode (base ++ "databases_101_metadata")
    [ ("CourseCredit", Some (VStr "4"));
      ("CourseType", Some (VStr "NA"));
      ("Prerequisites", Some (VList [VStr "NA"]));
      ("TotalSessions", Some (VStr "20"));
      ("CourseCodeTitle", Some (VStr "DB101 Databases 101")) ].

Definition quiz : value := assessment "db_quiz" "Quiz" (VStr "20%").
Definition project : value := assessment "db_project" "Project" (VStr "30%").
Definition viva : value := assessment "db_viva" "Viva" (VStr "abc").
Definition final_exam : value := assessment "db_final" "Final Exam" (VStr "50.5%").

Definition session_1 : value :=
  session "db_session_1" "1" "Foundations" "Relational model" "Chapter 1".
Definition session_2 : value :=
  session "db_session_2" "2" "Foundations" "Relational algebra" "NA".

Definition databases_101 : value :=
  VNode (base ++ "databases_101")
    [ ("hasCourseMetadata", Some (VList [metadata]));
      ("hasSessionPlan", Some (VList [session_1; session_2]));
      ("hasAssessment", Some (VList [quiz; project; viva; final_exam]));
      ("hasInstructorDetails", None) ].

Definition intro_to_ai : value :=
  VNode (base ++ "intro_to_ai") [ ("hasCourseMetadata", Some (VList [])) ].

Definition a_b : value := VNode (base ++ "a_b") [].

Definition ada : value :=
  VNode (base ++ "instructor_1")
    [ ("Instructors", Some (VStr "Ada_Lovelace")); ("ContactDetails", Some (VStr "ada@example.org")) ].

(** A course with two assessments of the same weight. *)
Definition algorithms : value :=
  VNode (base ++ "algorithms")
    [ ("hasAssessment",
       Some (VList [assessment "algo_midterm" "Midterm" (VStr "30%");
                    assessment "algo_final" "Final" (VStr "30%")])) ].

(** In the examples an object has no attribute besides its stored
    relations, a node prints as its IRI, and no request reaches a resolver
    that is outside this development. *)
Definition R : runtime :=
  mkRuntime
    [databases_101; intro_to_ai; a_b; ada; algorithms]
    (fun _ _ => Raise AttributeError)
    (fun v => match v with VNode iri _ => iri | VObject tag => tag | _ => EmptyString end)
    (fun _ _ => raise RuntimeError).

(** The percentage and the tool stored on a node. *)
Definition percentage_of (a : value) : option string :=
  match py_getattr R a "Percentage" with
  | Ret (VStr s) => Some s
  | _ => None
  end.

Definition tool_of (a : value) : value :=
  match py_getattr R a "AssessmentTool" with
  | Ret t => t
  | Raise _ => VNone
  end.

Definition ask (intent : string) (params : dict) : request :=
  mkRequest (Some intent) (Some params) None.

(** The text of the answer of a fresh process. *)
Definition answer (intent : string) (params : dict) : string :=
  fulfillmentText (fst (webhook R (ask intent params) initial_state)).

End Example.

(** ** What the resolvers compute *)

(** The answer of [validate_input] on a string. *)
Definition valid_name (s : string) : bool :=
  negb (String.eqb s EmptyString)
  && (String.length s <=? MAX_INPUT_LENGTH)%nat
  && PyStr.forallb input_char s.

(** The node that a course name stands for in the ontology. *)
Definition course_of (R : runtime) (name : string) : value :=
  if valid_name name
  then first_or_none (filter (iri_matches ("*#" ++ sanitize_id name)) (onto R))
  else VNone.

(** The node that an instructor name stands for in the ontology. *)
Definition instructor_of (R : runtime) (name : string) : value :=
  if valid_name name
  then first_or_none (filter (attribute_equals "Instructors" (PyStr.strip name)) (onto R))
  else VNone.

(** The states of a process: it starts with empty memo tables and an empty
    log, and its state changes only through calls of the two resolvers. *)
Inductive reachable (R : runtime) : state -> Prop :=
| reach_initial : reachable R initial_state
| reach_course : forall st v, reachable R st -> reachable R (snd (get_course R v st))
| reach_instructor : forall st v, reachable R st -> reachable R (snd (get_instructor R v st)).

(** Every entry of a memo table holds what the function returns on its key. *)
Definition coherent (R : runtime) (st : state) : Prop :=
  (forall s v, In (VStr s, v) (course_cache st) -> v = course_of R s)
  /\ (forall s v, In (VStr s, v) (instructor_cache st) -> v = instructor_of R s).

(** The number that the resolver of the highest weight reads in a percentage
    string, if any. *)
Definition extracted_number (s : string) : option PyFloat.t :=
  match PyStr.search_number s with
  | Some group => PyFloat.of_string group
  | None => None
  end.

(** The assessment is a node on which [Percentage] reads as the string, or as
    [None] when there is none, and [AssessmentTool] reads as [tool]. *)
Definition assessment_reads (R : runtime) (a : value) (percentage : option string)
    (tool : value) : Prop :=
  py_getattr R a "Percentage"
  = Ret (match percentage with Some s => VStr s | None => VNone end)
  /\ py_getattr R a "AssessmentTool" = Ret tool.

(** The letters and digits of the specification: the word characters other
    than the underscore. *)
Definition letter_or_digit (c : ascii) : bool :=
  PyStr.is_word c && negb (Ascii.eqb c "_").

(** The clamp of the page index in [handle_list_query]. *)
Definition clamp_page (p : Z) (page_count : nat) : nat :=
  Z.to_nat (Z.max 0 (Z.min p (Z.of_nat page_count - 1))).

(** The footer of a page. *)
Definition pagination_footer (current total : nat) : string :=
  PyStr.newline ++ PyStr.newline ++ "(Page " ++ PyStr.of_nat current ++ "/"
  ++ PyStr.of_nat total ++ " - Say 'next page' or 'previous page')".

(** The pages of three items, by recursion on the list. *)
Fixpoint chunks3 {A : Type} (items : list A) : list (list A) :=
  match items with
  | [] => []
  | a :: b :: c :: rest => [a; b; c] :: chunks3 rest
  | short => [short]
  end.

(** The number read on an assessment whose percentage is [percentage a]. *)
Definition number (percentage : value -> option string) (a : value) : option PyFloat.t :=
  match percentage a with
  | Some s => extracted_number s
  | None => None
  end.

(** Replace a closed term by its value. *)
Ltac evaluate t := let v := eval vm_compute in t in change t with v.

(** ** More of the source: accessors and resolvers beside the dispatch table *)

(** Return the BasicInfo individual for a course. *)
Definition get_basic_info (R : runtime) (course : value) : outcome value :=
  try_except
    (info <~ py_getattr R course "hasBasicInfo" ;; py_first info)
    (fun e =>
       match e with
       | AttributeError | IndexError => Ret VNone
       | _ => Raise e
       end).

(** [v != "NA"] *)
Definition is_not_sentinel (v : value) : bool :=
  match v with
  | VStr s => negb (String.eqb s "NA")
  | _ => true
  end.

(** The list comprehension of [query_reading_materials]: the condition reads
    the material, twice when it is truthy, and the kept element reads it
    again. *)
Fixpoint reading_materials (R : runtime) (plans : list value) : outcome (list value) :=
  match plans with
  | [] => Ret []
  | s :: rest =>
      material <~ py_getattr R s "ReadingMaterial" ;;
      keep <~ (if truthy material then
                 material <~ py_getattr R s "ReadingMaterial" ;;
                 Ret (is_not_sentinel material)
               else Ret false) ;;
      if keep then
        material <~ py_getattr R s "ReadingMaterial" ;;
        materials <~ reading_materials R rest ;;
        Ret (material :: materials)
      else reading_materials R rest
  end.

(** What reading materials are required for the course? *)
Definition query_reading_materials (R : runtime) (params : dict) : M string :=
  course <- get_course R (dict_get params "courseName" (VStr "")) ;;
  lift (if truthy course then
          materials <~ (plans <~ (p <~ py_getattr R course "hasSessionPlan" ;; py_iter p) ;;
                        reading_materials R plans) ;;
          if truthy (VList materials) then
            text <~ py_join PyStr.newline (firstn 5 materials) ;;
            Ret ("Required readings:" ++ PyStr.newline ++ text)
          else Ret "No reading materials listed."
        else not_found R "course" (dict_get params "courseName" VNone)).

(** How do I contact the instructor? *)
Definition query_contact_instructor (R : runtime) (params : dict) : M string :=
  let instructor_name := dict_get params "instructorName" (VStr "") in
  inst <- get_instructor R instructor_name ;;
  lift (has <~ (if truthy inst then
                  contact <~ py_getattr R inst "ContactDetails" ;; Ret (truthy contact)
                else Ret false) ;;
        if has then
          contact <~ py_getattr R inst "ContactDetails" ;;
          hours <~ py_getattr R inst "ConsultationHours" ;;
          Ret ("Contact: " ++ py_str R contact ++ ", Consultation Hours: " ++ py_str R hours)
        else not_found R "instructor" instructor_name).

(** The key of the sort of [query_full_session_plan]: [int(x.Session)]. *)
Definition session_key (R : runtime) (x : value) : outcome Z :=
  n <~ py_getattr R x "Session" ;; py_int n.

(** The keys of all the items, computed before the sort starts. *)
Fixpoint keyed (R : runtime) (l : list value) : outcome (list (Z * value)) :=
  match l with
  | [] => Ret []
  | x :: rest =>
      k <~ session_key R x ;;
      r <~ keyed R rest ;;
      Ret ((k, x) :: r)
  end.

(** [sorted] is stable: an item goes before the first item whose key is not
    smaller than its own, when it came before it in the input. *)
Fixpoint insert_keyed (e : Z * value) (l : list (Z * value)) : list (Z * value) :=
  match l with
  | [] => [e]
  | y :: r => if (fst e <=? fst y)%Z then e :: l else y :: insert_keyed e r
  end.

Fixpoint sort_keyed (l : list (Z * value)) : list (Z * value) :=
  match l with
  | [] => []
  | e :: r => insert_keyed e (sort_keyed r)
  end.

(** The session plans in the order in which [query_full_session_plan] goes
    through them: sorted by the number of the session, or as stored when the
    sort raises. *)
Definition ordered_sessions (R : runtime) (course : value) : outcome (list value) :=
  try_except
    (plans <~ (p <~ py_getattr R course "hasSessionPlan" ;; py_iter p) ;;
     keys <~ keyed R plans ;;
     Ret (map snd (sort_keyed keys)))
    (fun _ => p <~ py_getattr R course "hasSessionPlan" ;; py_iter p).

(** The lines of [query_full_session_plan]: one for each session with a topic
    that is not the sentinel. *)
Fixpoint topic_lines (R : runtime) (sessions : list value) : outcome (list value) :=
  match sessions with
  | [] => Ret []
  | s :: rest =>
      topic <~ py_getattr R s "Topic" ;;
      keep <~ (if truthy topic then
                 topic <~ py_getattr R s "Topic" ;; Ret (is_not_sentinel topic)
               else Ret false) ;;
      if keep then
        session <~ py_getattr R s "Session" ;;
        module <~ py_getattr R s "Module" ;;
        topic <~ py_getattr R s "Topic" ;;
        material <~ py_getattr R s "ReadingMaterial" ;;
        lines <~ topic_lines R rest ;;
        Ret (VStr ("Session " ++ py_str R session ++ ": " ++ py_str R module ++ " - "
                   ++ py_str R topic ++ " (Materials: " ++ py_str R material ++ ")")
             :: lines)
      else topic_lines R rest
  end.

(** What topics are taught in the course? (Full session plan) *)
Definition query_full_session_plan (R : runtime) (params : dict) : M string :=
  course <- get_course R (dict_get params "courseName" (VStr "")) ;;
  lift (has <~ (if truthy course then
                  p <~ py_getattr R course "hasSessionPlan" ;; Ret (truthy p)
                else Ret false) ;;
        topics <~ (if has then
                     sessions <~ ordered_sessions R course ;;
                     topic_lines R sessions
                   else Ret []) ;;
        if truthy (VList topics) then
          text <~ py_join PyStr.newline topics ;;
          Ret ("Course topics:" ++ PyStr.newline ++ text)
        else no_data R "session plan" "course" (dict_get params "courseName" VNone)).

(** The pages of [page_size] items, by recursion on the number of pages still
    possible. *)
Fixpoint chunks_of {A : Type} (fuel page_size : nat) (items : list A) : list (list A) :=
  match fuel with
  | O => []
  | S f =>
      match items with
      | [] => []
      | _ => firstn page_size items :: chunks_of f page_size (skipn page_size items)
      end
  end.

(** The page that the webhook reads in the contexts of a request. *)
Definition request_page (contexts : list context) : value :=
  match find has_page contexts with
  | Some c =>
      match context_parameters c with
      | Some d => dict_get d "page" (VInt 0)
      | None => VInt 0
      end
  | None => VInt 0
  end.

(** A relation of a session plan as it is stored: a string, or [None] when
    there is none. *)
Definition stored (m : option string) : value :=
  match m with
  | Some s => VStr s
  | None => VNone
  end.

(** The stored strings that are neither empty nor the sentinel. *)
Definition listed (ms : list (option string)) : list string :=
  flat_map (fun m =>
              match m with
              | Some s => if String.eqb s "" || String.eqb s "NA" then [] else [s]
              | None => []
              end) ms.



(** The topic of a session that [query_full_session_plan] does not list. *)
Definition no_topic (R : runtime) (s : value) : Prop :=
  exists topic, py_getattr R s "Topic" = Ret topic
                /\ (truthy topic = false \/ topic = VStr "NA").

(** The keys of a memo table are values on which the validation returns. *)
Definition keys_return (c : list (value * value)) : Prop :=
  forall k v, In (k, v) c -> exists b, validate_input k = Ret b.

(** The values that JSON can hold: what the parameters of a request are made
    of. *)
Fixpoint json_ok (v : value) : bool :=
  match v with
  | VNone | VStr _ | VInt _ => true
  | VList xs => forallb json_ok xs
  | _ => false
  end.

Fixpoint value_size (v : value) : nat :=
  match v with
  | VList xs => S (list_sum (map value_size xs))
  | _ => 1
  end.

(** A second ontology for the examples: a course whose sessions are stored
    out of order, and instructors with and without contact details. *)
Module Campus.

Definition base : string := "http://example.org/campus.owl#".

Definition plan (id : string) (number : value) (topic material : value) : value :=
  VNode (base ++ id)
    [ ("Session", Some number);
      ("Module", Some (VStr "Core"));
      ("Topic", Some topic);
      ("ReadingMaterial", Some material) ].

Definition plan_10 : value := plan "s10" (VStr "10") (VStr "Sorting") (VStr "Chapter 8").
Definition plan_9 : value := plan "s9" (VStr "9") (VStr "Hashing") (VStr "NA").
Definition plan_2 : value := plan "s2" (VInt 2) (VStr "Lists") VNone.
Definition plan_x : value := plan "sx" (VStr "ten") (VStr "Graphs") (VStr "Chapter 9").

Definition algorithms : value :=
  VNode (base ++ "algorithms")
    [ ("hasSessionPlan", Some (VList [plan_10; plan_9; plan_2]));
      ("hasCourseMetadata", Some (VList []));
      ("hasInstructorDetails",
       Some (VList [VNode (base ++ "detail_1") [("Instructors", Some (VStr "NA"))]])) ].

Definition graphs : value :=
  VNode (base ++ "graphs") [ ("hasSessionPlan", Some (VList [plan_10; plan_x; plan_2])) ].

Definition turing : value :=
  VNode (base ++ "instructor_turing")
    [ ("Instructors", Some (VStr "Alan Turing"));
      ("ContactDetails", Some (VStr "NA"));
      ("ConsultationHours", Some VNone) ].

Definition hopper : value :=
  VNode (base ++ "instructor_hopper")
    [ ("Instructors", Some (VList [VStr "Grace Hopper"]));
      ("ContactDetails", Some VNone);
      ("ConsultationHours", Some (VStr "Mon 10-12")) ].

(** A course whose sessions have no topic, and whose second assessment
    stores its weight as a number. *)
Definition compilers : value :=
  VNode (base ++ "compilers")
    [ ("hasSessionPlan",
       Some (VList [plan "c2" (VStr "2") (VStr "NA") (VStr "Chapter 2");
                    plan "c1" (VStr "1") VNone (VStr "Chapter 1")]));
      ("hasAssessment",
       Some (VList [VNode (base ++ "c_quiz")
                      [("AssessmentTool", Some (VStr "Quiz")); ("Percentage", Some (VStr "20%"))];
                    VNode (base ++ "c_lab")
                      [("AssessmentTool", Some (VStr "Lab")); ("Percentage", Some (VInt 30))]])) ].

Definition R : runtime :=
  mkRuntime
    [algorithms; graphs; turing; hopper; compilers]
    (fun _ _ => Raise AttributeError)
    (fun v => match v with VNode iri _ => iri | VObject tag => tag | _ => EmptyString end)
    (fun _ _ => raise RuntimeError).

End Campus.

(** * Properties *)

(** ** Python strings *)

Example lower_example : PyStr.lower "Intro to AI" = "intro to ai".
Proof. reflexivity. Qed.

Example strip_example : PyStr.strip "  a b  " = "a b".
Proof. reflexivity. Qed.

Example split_example :
  PyStr.split "." "hasCourseMetadata.CourseCredit" = ["hasCourseMetadata"; "CourseCredit"].
Proof. reflexivity. Qed.

Example split_empty_example : PyStr.split "." "" = [""].
Proof. reflexivity. Qed.

Example search_number_example :
  map PyStr.search_number ["20%"; "abc"; "50.5%"; "5."; "w1.2.3"]
  = [Some "20"; None; Some "50.5"; Some "5."; Some "1.2"].
Proof. reflexivity. Qed.

Example replace_example :
  PyStr.replace "NA" "" (PyStr.replace "NA, " "" "Module: NA, Topic: T, Materials: NA")
  = "Module: Topic: T, Materials: ".
Proof. reflexivity. Qed.

Example of_Z_example : map PyStr.of_Z [0; 12; -7]%Z = ["0"; "12"; "-7"].
Proof. reflexivity. Qed.


(** ** The resolvers and their memo tables *)

Lemma validate_input_string (s : string) : validate_input (VStr s) = Ret (valid_name s).
Proof.
  unfold validate_input, valid_name; simpl.
  destruct (String.eqb s EmptyString); simpl; [reflexivity|].
  rewrite Nat.leb_antisym.
  destruct (MAX_INPUT_LENGTH <? String.length s)%nat; reflexivity.
Qed.

Lemma get_course_uncached_string (R : runtime) (s : string) (st : state) :
  get_course_uncached R (VStr s) st
  = (Ret (course_of R s),
     if valid_name s
     then mkState (course_cache st) (instructor_cache st)
            (graph_log st ++ [SearchIri ("*#" ++ sanitize_id s)])%list
     else st).
Proof.
  unfold get_course_uncached, course_of, bind, lift.
  rewrite validate_input_string.
  destruct (valid_name s); reflexivity.
Qed.

Lemma get_instructor_uncached_string (R : runtime) (s : string) (st : state) :
  get_instructor_uncached R (VStr s) st
  = (Ret (instructor_of R s),
     if valid_name s
     then mkState (course_cache st) (instructor_cache st)
            (graph_log st ++ [SearchInstructors (PyStr.strip s)])%list
     else st).
Proof.
  unfold get_instructor_uncached, instructor_of, bind, lift.
  rewrite validate_input_string.
  destruct (valid_name s); reflexivity.
Qed.

Lemma key_eqb_string (k : value) (s : string) : key_eqb k (VStr s) = true -> k = VStr s.
Proof.
  destruct k; simpl; try discriminate.
  intros H; apply String.eqb_eq in H; congruence.
Qed.

Lemma cache_find_In (k v : value) (c : list (value * value)) :
  cache_find k c = Some v -> exists k', key_eqb k' k = true /\ In (k', v) c.
Proof.
  induction c as [|[k' v'] c IH]; simpl; [discriminate|].
  destruct (key_eqb k' k) eqn:E.
  - intros [= ->]. exists k'. auto.
  - intros H. destruct (IH H) as (k'' & ? & ?). exists k''. auto.
Qed.

Lemma cache_remove_In (k : value) (e : value * value) (c : list (value * value)) :
  In e (cache_remove k c) -> In e c.
Proof.
  induction c as [|[k' v'] c IH]; simpl; [tauto|].
  destruct (key_eqb k' k); simpl; intuition.
Qed.

Lemma firstn_In {A : Type} (n : nat) (x : A) (l : list A) : In x (firstn n l) -> In x l.
Proof.
  revert l; induction n as [|n IH]; intros [|y l]; simpl; try tauto.
  intros [H|H]; auto.
Qed.

(** On anything but a string the bodies of the resolvers return [None] or
    raise, and leave the state as it is. *)
Lemma validate_input_other (v : value) :
  (exists s, v = VStr s) \/ validate_input v = Ret false \/ exists e, validate_input v = Raise e.
Proof.
  destruct v as [|s|n|xs|iri rels|tag]; simpl; eauto.
  - right. unfold validate_input; simpl. destruct (Z.eqb n 0); simpl; eauto.
  - right. unfold validate_input; simpl. destruct xs; simpl; eauto.
    destruct (MAX_INPUT_LENGTH <? S (List.length xs))%nat; eauto.
  - right. unfold validate_input; simpl. eauto.
  - right. unfold validate_input; simpl. eauto.
Qed.

Lemma get_course_uncached_other (R : runtime) (v : value) (st : state) :
  (exists s, v = VStr s)
  \/ get_course_uncached R v st = (Ret VNone, st)
  \/ exists e, get_course_uncached R v st = (Raise e, st).
Proof.
  destruct (validate_input_other v) as [H|[H|[e H]]]; auto; right;
    unfold get_course_uncached, bind, lift; rewrite H; simpl; eauto.
Qed.

Lemma get_instructor_uncached_other (R : runtime) (v : value) (st : state) :
  (exists s, v = VStr s)
  \/ get_instructor_uncached R v st = (Ret VNone, st)
  \/ exists e, get_instructor_uncached R v st = (Raise e, st).
Proof.
  destruct (validate_input_other v) as [H|[H|[e H]]]; auto; right;
    unfold get_instructor_uncached, bind, lift; rewrite H; simpl; eauto.
Qed.

#[local] Opaque firstn.

Lemma coherent_initial (R : runtime) : coherent R initial_state.
Proof. split; intros s v []. Qed.

Lemma get_course_coherent (R : runtime) (v : value) (st : state) :
  coherent R st -> coherent R (snd (get_course R v st)).
Proof.
  intros [Hc Hi]. unfold get_course, lru_cache.
  destruct (hashable v); simpl; [|split; assumption].
  destruct (cache_find v (course_cache st)) as [x|] eqn:Hfind; simpl.
  - split; [|exact Hi]. intros s y [Heq|Hin].
    + injection Heq as -> ->.
      apply cache_find_In in Hfind. destruct Hfind as (k' & Hk & Hin).
      apply key_eqb_string in Hk. subst k'. auto.
    + apply cache_remove_In in Hin. auto.
  - destruct (get_course_uncached_other R v st) as [[s ->]|[H|[e H]]].
    + rewrite get_course_uncached_string. simpl.
      split.
      * intros s' y Hin. apply firstn_In in Hin. destruct Hin as [Heq|Hin].
        -- injection Heq as -> ->. reflexivity.
        -- destruct (valid_name s); simpl in Hin; auto.
      * destruct (valid_name s); simpl; exact Hi.
    + rewrite H. simpl. split; [|exact Hi].
      intros s' y Hin. apply firstn_In in Hin. destruct Hin as [Heq|Hin]; auto.
      injection Heq as -> <-. rewrite get_course_uncached_string in H.
      injection H as H _. symmetry. exact H.
    + rewrite H. simpl. split; assumption.
Qed.

Lemma get_instructor_coherent (R : runtime) (v : value) (st : state) :
  coherent R st -> coherent R (snd (get_instructor R v st)).
Proof.
  intros [Hc Hi]. unfold get_instructor, lru_cache.
  destruct (hashable v); simpl; [|split; assumption].
  destruct (cache_find v (instructor_cache st)) as [x|] eqn:Hfind; simpl.
  - split; [exact Hc|]. intros s y [Heq|Hin].
    + injection Heq as -> ->.
      apply cache_find_In in Hfind. destruct Hfind as (k' & Hk & Hin).
      apply key_eqb_string in Hk. subst k'. auto.
    + apply cache_remove_In in Hin. auto.
  - destruct (get_instructor_uncached_other R v st) as [[s ->]|[H|[e H]]].
    + rewrite get_instructor_uncached_string. simpl.
      split.
      * destruct (valid_name s); simpl; exact Hc.
      * intros s' y Hin. apply firstn_In in Hin. destruct Hin as [Heq|Hin].
        -- injection Heq as -> ->. reflexivity.
        -- destruct (valid_name s); simpl in Hin; auto.
    + rewrite H. simpl. split; [exact Hc|].
      intros s' y Hin. apply firstn_In in Hin. destruct Hin as [Heq|Hin]; auto.
      injection Heq as -> <-. rewrite get_instructor_uncached_string in H.
      injection H as H _. symmetry. exact H.
    + rewrite H. simpl. split; assumption.
Qed.

Lemma reachable_coherent (R : runtime) (st : state) : reachable R st -> coherent R st.
Proof.
  induction 1 as [|st v _ IH|st v _ IH].
  - apply coherent_initial.
  - apply get_course_coherent, IH.
  - apply get_instructor_coherent, IH.
Qed.

(** A call of [get_course] on a string returns the node of the name, and
    looks into the ontology only on a miss with a name that passes the
    validation. *)
Lemma get_course_string (R : runtime) (s : string) (st : state) :
  reachable R st ->
  exists st',
    get_course R (VStr s) st = (Ret (course_of R s), st')
    /\ reachable R st'
    /\ (graph_log st' = graph_log st
        \/ (valid_name s = true
            /\ graph_log st' = (graph_log st ++ [SearchIri ("*#" ++ sanitize_id s)])%list)).
Proof.
  intros Hr. exists (snd (get_course R (VStr s) st)).
  split; [|split; [apply reach_course, Hr|]].
  - destruct (reachable_coherent R st Hr) as [Hc _].
    unfold get_course, lru_cache; simpl.
    destruct (cache_find (VStr s) (course_cache st)) as [x|] eqn:Hfind; simpl.
    + apply cache_find_In in Hfind. destruct Hfind as (k' & Hk & Hin).
      apply key_eqb_string in Hk. subst k'. rewrite (Hc _ _ Hin). reflexivity.
    + rewrite get_course_uncached_string. reflexivity.
  - unfold get_course, lru_cache; simpl.
    destruct (cache_find (VStr s) (course_cache st)) as [x|]; simpl; auto.
    rewrite get_course_uncached_string. simpl.
    destruct (valid_name s); simpl; auto.
Qed.

Lemma get_instructor_string (R : runtime) (s : string) (st : state) :
  reachable R st ->
  exists st',
    get_instructor R (VStr s) st = (Ret (instructor_of R s), st')
    /\ reachable R st'
    /\ (graph_log st' = graph_log st
        \/ (valid_name s = true
            /\ graph_log st' = (graph_log st ++ [SearchInstructors (PyStr.strip s)])%list)).
Proof.
  intros Hr. exists (snd (get_instructor R (VStr s) st)).
  split; [|split; [apply reach_instructor, Hr|]].
  - destruct (reachable_coherent R st Hr) as [_ Hi].
    unfold get_instructor, lru_cache; simpl.
    destruct (cache_find (VStr s) (instructor_cache st)) as [x|] eqn:Hfind; simpl.
    + apply cache_find_In in Hfind. destruct Hfind as (k' & Hk & Hin).
      apply key_eqb_string in Hk. subst k'. rewrite (Hi _ _ Hin). reflexivity.
    + rewrite get_instructor_uncached_string. reflexivity.
  - unfold get_instructor, lru_cache; simpl.
    destruct (cache_find (VStr s) (instructor_cache st)) as [x|]; simpl; auto.
    rewrite get_instructor_uncached_string. simpl.
    destruct (valid_name s); simpl; auto.
Qed.

#[local] Transparent firstn.

Lemma occurs_forallb (p : ascii -> bool) (c : ascii) (s : string) :
  PyStr.occurs c s -> p c = false -> PyStr.forallb p s = false.
Proof.
  induction s as [|d s IH]; simpl; [tauto|].
  intros [->|H] Hp.
  - rewrite Hp. reflexivity.
  - rewrite (IH H Hp). apply andb_false_r.
Qed.

Lemma invalid_name (s : string) :
  s = EmptyString
  \/ (MAX_INPUT_LENGTH < String.length s)%nat
  \/ (exists c, PyStr.occurs c s /\ input_char c = false) ->
  valid_name s = false.
Proof.
  unfold valid_name. intros [->|[H|(c & Hc & Hp)]].
  - reflexivity.
  - apply Nat.leb_gt in H. rewrite H. rewrite andb_false_r. reflexivity.
  - rewrite (occurs_forallb _ _ _ Hc Hp). apply andb_false_r.
Qed.

Lemma course_of_invalid (R : runtime) (s : string) : valid_name s = false -> course_of R s = VNone.
Proof. unfold course_of. intros ->. reflexivity. Qed.

Lemma instructor_of_invalid (R : runtime) (s : string) :
  valid_name s = false -> instructor_of R s = VNone.
Proof. unfold instructor_of. intros ->. reflexivity. Qed.

Lemma first_of_filter (p : value -> bool) (l : list value) (x : value) :
  first_or_none (filter p l) = x -> x = VNone \/ (In x l /\ p x = true).
Proof.
  destruct (filter p l) as [|y r] eqn:E; simpl; intros <-; [auto|].
  right. apply filter_In. rewrite E. left. reflexivity.
Qed.

(** A name resolves to [None] or to a node of the ontology whose IRI ends with
    the identifier of the name. *)
Lemma course_of_cases (R : runtime) (s : string) :
  course_of R s = VNone
  \/ exists iri rels,
       course_of R s = VNode iri rels
       /\ In (VNode iri rels) (onto R)
       /\ is_suffix ("#" ++ sanitize_id s) iri = true.
Proof.
  unfold course_of. destruct (valid_name s); [|auto].
  destruct (first_of_filter (iri_matches ("*#" ++ sanitize_id s)) (onto R) _ eq_refl)
    as [H|[Hin Hp]]; [left; exact H|].
  right.
  destruct (first_or_none (filter _ (onto R))) as [| | | |iri rels|]; try discriminate.
  exists iri, rels. auto.
Qed.

(** C7 (as amended). For every input string that is empty, or longer than 50
    characters, or that contains a character outside the word characters
    (letters, digits and the underscore), whitespace and the hyphen, both
    [get_course] and [get_instructor] return [None], and the log of the
    lookups made in the ontology is left as it was. *)
Theorem invalid_input_resolves_to_none (R : runtime) (st : state) (s : string) :
  reachable R st ->
  s = EmptyString
  \/ (50 < String.length s)%nat
  \/ (exists c, PyStr.occurs c s /\ input_char c = false) ->
  (exists st', get_course R (VStr s) st = (Ret VNone, st') /\ graph_log st' = graph_log st)
  /\ (exists st', get_instructor R (VStr s) st = (Ret VNone, st')
                  /\ graph_log st' = graph_log st).
Proof.
  intros Hr Hs. apply invalid_name in Hs.
  split.
  - destruct (get_course_string R s st Hr) as (st' & Hcall & _ & Hlog).
    exists st'. rewrite Hcall, (course_of_invalid R s Hs). split; [reflexivity|].
    destruct Hlog as [H|[H _]]; [exact H|congruence].
  - destruct (get_instructor_string R s st Hr) as (st' & Hcall & _ & Hlog).
    exists st'. rewrite Hcall, (instructor_of_invalid R s Hs). split; [reflexivity|].
    destruct Hlog as [H|[H _]]; [exact H|congruence].
Qed.

Lemma invalid_input_resolves_to_none_witness :
  reachable Example.R initial_state
  /\ (exists c, PyStr.occurs c "C++ basics" /\ input_char c = false)
  /\ (exists st', get_course Example.R (VStr "C++ basics") initial_state = (Ret VNone, st')
                  /\ graph_log st' = graph_log initial_state)
  /\ (exists st', get_instructor Example.R (VStr "C++ basics") initial_state = (Ret VNone, st')
                  /\ graph_log st' = graph_log initial_state).
Proof.
  assert (Hc : exists c, PyStr.occurs c "C++ basics" /\ input_char c = false).
  { exists "+"%char. split; [simpl; auto|reflexivity]. }
  split; [apply reach_initial|]. split; [exact Hc|].
  apply (invalid_input_resolves_to_none Example.R initial_state "C++ basics").
  - apply reach_initial.
  - right; right; exact Hc.
Defined.

(** C7, counterexample. The underscore is not a letter, a digit, whitespace or
    the hyphen, yet a name with an underscore passes the validation: the
    resolvers look into the ontology and return the node they find. *)
Lemma underscore_passes_validation :
  (exists c, PyStr.occurs c "a_b"
             /\ letter_or_digit c = false /\ PyStr.is_space c = false /\ c <> "-"%char)
  /\ String.length "a_b" = 3%nat
  /\ get_course Example.R (VStr "a_b") initial_state
     = (Ret Example.a_b, mkState [(VStr "a_b", Example.a_b)] [] [SearchIri "*#a_b"])
  /\ get_instructor Example.R (VStr "Ada_Lovelace") initial_state
     = (Ret Example.ada,
        mkState [] [(VStr "Ada_Lovelace", Example.ada)] [SearchInstructors "Ada_Lovelace"]).
Proof.
  split; [|split; [reflexivity|split; reflexivity]].
  exists "_"%char. repeat split; [simpl; auto|discriminate].
Qed.

(** C8 (as amended). [get_course] is deterministic and idempotent: on every
    raw string a call returns the node of the name, and so does a repeated
    call; a node that it returns has an IRI that ends with the identifier of
    the raw string; and two raw strings that both pass the validation and
    normalize to the same identifier resolve to the same node, whatever the
    memo table holds. *)
Theorem get_course_idempotent (R : runtime) (st : state) (s : string) :
  reachable R st ->
  let first := get_course R (VStr s) st in
  let second := get_course R (VStr s) (snd first) in
  fst first = Ret (course_of R s)
  /\ fst second = fst first
  /\ (forall iri rels,
        fst first = Ret (VNode iri rels) -> is_suffix ("#" ++ sanitize_id s) iri = true)
  /\ (forall s' st',
        reachable R st' ->
        valid_name s = true -> valid_name s' = true -> sanitize_id s = sanitize_id s' ->
        fst (get_course R (VStr s') st') = fst first).
Proof.
  intros Hr first second.
  destruct (get_course_string R s st Hr) as (st1 & Hcall & Hr1 & _).
  assert (Hfirst : fst first = Ret (course_of R s)) by (unfold first; rewrite Hcall; reflexivity).
  split; [exact Hfirst|]. split; [|split].
  - unfold second, first. rewrite Hcall. simpl.
    destruct (get_course_string R s st1 Hr1) as (st2 & Hcall2 & _). rewrite Hcall2. reflexivity.
  - intros iri rels. rewrite Hfirst. intros [= H].
    destruct (course_of_cases R s) as [H0|(iri' & rels' & H1 & _ & Hs)]; [congruence|].
    rewrite H in H1. injection H1 as -> _. exact Hs.
  - intros s' st' Hr' Hv Hv' Hid.
    destruct (get_course_string R s' st' Hr') as (st2 & Hcall' & _).
    rewrite Hcall', Hfirst. simpl. unfold course_of. rewrite Hv, Hv', Hid. reflexivity.
Qed.

Lemma get_course_idempotent_witness :
  reachable Example.R initial_state
  /\ fst (get_course Example.R (VStr "intro-to-ai") initial_state)
     = fst (get_course Example.R (VStr "Intro to AI") initial_state)
  /\ sanitize_id "Intro to AI" = "intro_to_ai".
Proof.
  split; [apply reach_initial|]. split; [|reflexivity].
  destruct (get_course_idempotent Example.R initial_state "Intro to AI" (reach_initial _))
    as (_ & _ & _ & H).
  apply H; [apply reach_initial|reflexivity|reflexivity|reflexivity].
Defined.

(** C8, counterexample. Two raw strings with the same identifier, of which
    only one passes the validation, do not resolve to the same node. *)
Lemma same_identifier_different_node :
  sanitize_id "Intro to AI" = sanitize_id "intro.to.ai"
  /\ fst (get_course Example.R (VStr "Intro to AI") initial_state) = Ret Example.intro_to_ai
  /\ fst (get_course Example.R (VStr "intro.to.ai") initial_state) = Ret VNone.
Proof. repeat split. Qed.

(** ** The path resolver *)

(** C4. For every object (a node of any shape, a list, a scalar, any other
    object) and every dotted path, of one to three segments or more,
    [get_nested_property] returns: either [None] or a value that is not
    [None]. It never raises: when following the path raises, whatever the
    exception, the answer is [None]. *)
Theorem get_nested_property_never_raises (R : runtime) (obj : value) (path : string) :
  (get_nested_property R obj path = Ret VNone
   \/ exists v, v <> VNone /\ get_nested_property R obj path = Ret v)
  /\ (forall e,
        follow_properties R obj (PyStr.split "." path) = Raise e ->
        get_nested_property R obj path = Ret VNone)
  /\ (forall v,
        follow_properties R obj (PyStr.split "." path) = Ret v ->
        get_nested_property R obj path = Ret v).
Proof.
  unfold get_nested_property, try_except.
  destruct (follow_properties R obj (PyStr.split "." path)) as [v|e].
  - split; [|split; [discriminate|auto]].
    destruct v; [left; reflexivity|right; eexists; split; [|reflexivity]; discriminate ..].
  - split; [left; reflexivity|]. split; [reflexivity|discriminate].
Qed.

(** A malformed relation on the way: the walk raises, the resolver answers
    [None]. *)
Example malformed_relation_is_missing :
  follow_properties Example.R Example.databases_101 ["hasInstructorDetails"; "Office"]
  = Raise RuntimeError
  /\ get_nested_property Example.R Example.databases_101 "hasInstructorDetails.Office"
     = Ret VNone.
Proof. split; reflexivity. Qed.

(** A scalar sentinel at the end of the path is missing. *)
Lemma scalar_sentinel_is_missing (R : runtime) (iri : string) rels (prop : string) :
  relation_find rels prop = Some (Some (VStr "NA")) ->
  follow_properties R (VNode iri rels) [prop] = Ret VNone.
Proof.
  intros H. simpl. unfold py_hasattr, py_getattr. rewrite H. reflexivity.
Qed.

(** A sentinel that is the first element of a list at the end of the path is
    returned as the value. *)
Lemma list_sentinel_is_returned (R : runtime) (iri : string) rels (prop : string)
    (rest : list value) :
  relation_find rels prop = Some (Some (VList (VStr "NA" :: rest))) ->
  follow_properties R (VNode iri rels) [prop] = Ret (VStr "NA").
Proof.
  intros H. simpl. unfold py_hasattr, py_getattr. rewrite H. reflexivity.
Qed.

(** C2, at the failing input. The prerequisites of the course are stored as
    the list with the one element NA: the resolver returns that element as
    the value, and the answer to [GetPrerequisites] is the sentinel itself. *)
Theorem sentinel_in_list_is_returned :
  get_nested_property Example.R Example.metadata "Prerequisites" = Ret (VStr "NA")
  /\ get_nested_property Example.R Example.databases_101 "hasCourseMetadata.Prerequisites"
     = Ret (VStr "NA")
  /\ Example.answer "GetPrerequisites" [("courseName", VStr "Databases 101")] = "NA".
Proof. repeat split. Qed.

(** ** The standard query *)

Lemma not_found_text (R : runtime) (entity name : string) :
  not_found R entity (VStr name) = Ret ("I couldn't find " ++ entity ++ " '" ++ name ++ "'.").
Proof. reflexivity. Qed.

Lemma no_data_text (R : runtime) (data_type entity name : string) :
  no_data R data_type entity (VStr name)
  = Ret ("No " ++ data_type ++ " available for " ++ entity ++ " '" ++ name ++ "'.").
Proof. reflexivity. Qed.

Lemma dict_get_found (d : dict) (k : string) (v default : value) :
  dict_find d k = Some v -> dict_get d k default = v.
Proof. unfold dict_get. intros ->. reflexivity. Qed.

(** What the standard query answers for a course name that is a string. *)
Lemma handle_standard_query_string (R : runtime) (st : state) (params : dict)
    (name path label entity : string) :
  reachable R st ->
  dict_find params "courseName" = Some (VStr name) ->
  fst (handle_standard_query R params path label entity st)
  = if truthy (course_of R name)
    then value <~ get_nested_property R (course_of R name) path ;;
         if truthy value then Ret (py_str R value)
         else Ret ("No " ++ label ++ " available for " ++ entity ++ " '" ++ name ++ "'.")
    else Ret ("I couldn't find " ++ entity ++ " '" ++ name ++ "'.").
Proof.
  intros Hr Hp. unfold handle_standard_query, bind.
  rewrite !(dict_get_found _ _ _ _ Hp).
  destruct (get_course_string R name st Hr) as (st' & -> & _).
  destruct (truthy (course_of R name)); simpl.
  - unfold lift. destruct (get_nested_property R (course_of R name) path) as [v|e]; simpl;
      [|reflexivity].
    destruct (truthy v); reflexivity.
  - reflexivity.
Qed.

(** C1 (as amended). For the intent [GetCourseCredits], which the dispatch
    table sends through the standard query: for every course whose
    [CourseCredit] resolves to the string 4 the text of the answer is that
    string, "4"; and for every course name that does not resolve to a node
    the answer is the [not_found] template with the entity "course" and the
    given name. *)
Theorem GetCourseCredits_answer (R : runtime) (st : state) (params : dict) (name : string)
    (h : handler) :
  reachable R st ->
  handlers_get (INTENT_HANDLERS R) "GetCourseCredits" = Some h ->
  dict_find params "courseName" = Some (VStr name) ->
  (forall iri rels,
      course_of R name = VNode iri rels ->
      get_nested_property R (VNode iri rels) "hasCourseMetadata.CourseCredit" = Ret (VStr "4") ->
      fst (h params st) = Ret "4")
  /\ (course_of R name = VNone ->
      fst (h params st) = Ret ("I couldn't find course '" ++ name ++ "'.")).
Proof.
  intros Hr Hh Hp. injection Hh as <-.
  rewrite (handle_standard_query_string R st params name _ _ _ Hr Hp).
  split.
  - intros iri rels -> ->. reflexivity.
  - intros ->. reflexivity.
Qed.

Lemma GetCourseCredits_answer_witness :
  reachable Example.R initial_state
  /\ course_of Example.R "Databases 101" = Example.databases_101
  /\ course_of Example.R "Unknown Course" = VNone
  /\ fst (handle_standard_query Example.R [("courseName", VStr "Databases 101")]
            "hasCourseMetadata.CourseCredit" "credit information" "course" initial_state)
     = Ret "4"
  /\ fst (handle_standard_query Example.R [("courseName", VStr "Unknown Course")]
            "hasCourseMetadata.CourseCredit" "credit information" "course" initial_state)
     = Ret "I couldn't find course 'Unknown Course'.".
Proof.
  split; [apply reach_initial|]. split; [reflexivity|]. split; [reflexivity|]. split.
  - refine (proj1 (GetCourseCredits_answer Example.R initial_state
                     [("courseName", VStr "Databases 101")] "Databases 101" _
                     (reach_initial _) eq_refl eq_refl) _ _ eq_refl eq_refl).
  - refine (proj2 (GetCourseCredits_answer Example.R initial_state
                     [("courseName", VStr "Unknown Course")] "Unknown Course" _
                     (reach_initial _) eq_refl eq_refl) eq_refl).
Defined.

(** The resolver that appends the unit is not in the dispatch table. *)
Example undispatched_credits_resolver :
  fst (query_course_credits Example.R [("courseName", VStr "Databases 101")] initial_state)
  = Ret "4 credits.".
Proof. reflexivity. Qed.

(** C1, counterexample. The credit of the course is the string 4, and the
    answer to [GetCourseCredits] is "4": the standard query adds no unit. *)
Lemma credits_answer_has_no_unit :
  get_nested_property Example.R Example.databases_101 "hasCourseMetadata.CourseCredit"
  = Ret (VStr "4")
  /\ Example.answer "GetCourseCredits" [("courseName", VStr "Databases 101")] = "4"
  /\ Example.answer "GetCourseCredits" [("courseName", VStr "Databases 101")] <> "4 credits.".
Proof. repeat split. discriminate. Qed.

(** ** The dispatch table and the endpoint *)

(** C3, at the failing input. The course has a session plan whose [Session]
    is 1, with a module, a topic and a reading material. [query_session_info]
    finds it by its number and gives the three fields; the webhook does not
    call it: the dispatch table sends [GetSessionInfo] through the standard
    query with the session number as the last segment of the path, which
    names no relation of a session plan, and the answer is [no_data]. *)
Theorem GetSessionInfo_does_not_scan :
  let params := [("courseName", VStr "Databases 101"); ("sessionNumber", VStr "1")] in
  fst (query_session_info Example.R params initial_state)
  = Ret "Module: Foundations, Topic: Relational model, Materials: Chapter 1"
  /\ Example.answer "GetSessionInfo" params
     = "No session info available for course 'Databases 101'.".
Proof. split; reflexivity. Qed.

(** The undispatched resolver removes the sentinel and the separator after
    it; the label of the field stays. *)
Example session_info_strips_the_sentinel :
  fst (query_session_info Example.R
         [("courseName", VStr "Databases 101"); ("sessionNumber", VInt 2)] initial_state)
  = Ret "Module: Foundations, Topic: Relational algebra, Materials: ".
Proof. reflexivity. Qed.

(** Whatever the request, the session number is read as the name of a
    relation of the first session plan. *)
Lemma GetSessionInfo_path (R : runtime) (h : handler) (params : dict) :
  handlers_get (INTENT_HANDLERS R) "GetSessionInfo" = Some h ->
  h params
  = handle_standard_query R params
      ("hasSessionPlan." ++ py_str R (dict_get params "sessionNumber" VNone))
      "session info" "course".
Proof. intros [= <-]. reflexivity. Qed.

Lemma handlers_get_absent (table : list (string * handler)) (intent : string) :
  ~ In intent (map fst table) -> handlers_get table intent = None.
Proof.
  induction table as [|[name h] table IH]; simpl; [reflexivity|].
  intros H. destruct (String.eqb_spec name intent) as [->|_].
  - exfalso. apply H. left. reflexivity.
  - apply IH. intros Hin. apply H. right. exact Hin.
Qed.

(** C9. For every intent name that is not a key of the dispatch table, the
    webhook answers with the fixed message "This query type is not supported
    yet." and the response carries no output context, whatever the
    parameters and the contexts of the request; the state of the process is
    left as it was. *)
Theorem unknown_intent_is_not_supported (R : runtime) (st : state) (intent : string)
    (params : option dict) (contexts : option (list context)) :
  ~ In intent (map fst (INTENT_HANDLERS R)) ->
  webhook R (mkRequest (Some intent) params contexts) st
  = (mkResponse "This query type is not supported yet." None, st).
Proof.
  intros H. unfold webhook. cbn [intent_displayName].
  rewrite (handlers_get_absent _ _ H). reflexivity.
Qed.

Lemma unknown_intent_is_not_supported_witness :
  ~ In "OrderPizza" (map fst (INTENT_HANDLERS Example.R))
  /\ webhook Example.R
       (mkRequest (Some "OrderPizza") (Some [("courseName", VStr "Databases 101")])
          (Some [mkContext "pagination" (Some [("page", VInt 2)])]))
       initial_state
     = (mkResponse "This query type is not supported yet." None, initial_state).
Proof.
  assert (H : ~ In "OrderPizza" (map fst (INTENT_HANDLERS Example.R))).
  { simpl. intros H. repeat (destruct H as [H|H]; [discriminate H|]). exact H. }
  split; [exact H|].
  apply (unknown_intent_is_not_supported Example.R initial_state "OrderPizza" _ _ H).
Defined.

(** A request without an intent name is looked up under the empty name, which
    is not a key of the table either. *)
Lemma missing_intent_is_not_supported (R : runtime) (st : state)
    (params : option dict) (contexts : option (list context)) :
  webhook R (mkRequest None params contexts) st
  = (mkResponse "This query type is not supported yet." None, st).
Proof. reflexivity. Qed.

(** ** The percentage of an assessment tool *)

Lemma matches_tool_string (R : runtime) (tool : string) (x : value) (tx : string) :
  py_getattr R x "AssessmentTool" = Ret (VStr tx) ->
  matches_tool R (VStr tool) x
  = Ret (negb (String.eqb tx EmptyString) && String.eqb (PyStr.lower tx) (PyStr.lower tool)).
Proof.
  intros H. unfold matches_tool. rewrite H. simpl.
  destruct (String.eqb tx EmptyString); reflexivity.
Qed.

Lemma scan_percentage_match (R : runtime) (params : dict) (tool : value)
    (pre post : list value) (a : value) (p : string) :
  Forall (fun x => matches_tool R tool x = Ret false) pre ->
  matches_tool R tool a = Ret true ->
  py_getattr R a "Percentage" = Ret (VStr p) ->
  p <> EmptyString ->
  scan_percentage R params tool (pre ++ a :: post) = Ret (p ++ "%").
Proof.
  intros Hpre Ha Hp Hne.
  induction Hpre as [|x pre Hx _ IH]; simpl.
  - rewrite Ha. simpl. rewrite Hp. simpl.
    destruct (String.eqb_spec p EmptyString) as [E|_]; [contradiction|reflexivity].
  - rewrite Hx. simpl. exact IH.
Qed.

Lemma truthy_middle (pre post : list value) (a : value) : truthy (VList (pre ++ a :: post)) = true.
Proof. destruct pre; reflexivity. Qed.

(** C10. In [query_assessment_percentage] the requested tool name is matched
    against the [AssessmentTool] of each assessment after both are put in
    lower case; and when the first assessment that matches has a non-empty
    [Percentage], the answer is the stored percentage with one percent sign
    appended, so that a stored "20%" is answered as "20%%". *)
Theorem assessment_percentage_appends_percent (R : runtime) (st : state) (params : dict)
    (name tool iri : string) (rels : list (string * option value))
    (pre post : list value) (a : value) (ta p : string) :
  reachable R st ->
  dict_find params "courseName" = Some (VStr name) ->
  dict_find params "assessmentTool" = Some (VStr tool) ->
  course_of R name = VNode iri rels ->
  py_getattr R (VNode iri rels) "hasAssessment" = Ret (VList (pre ++ a :: post)) ->
  Forall (fun x => matches_tool R (VStr tool) x = Ret false) pre ->
  py_getattr R a "AssessmentTool" = Ret (VStr ta) ->
  ta <> EmptyString ->
  PyStr.lower ta = PyStr.lower tool ->
  py_getattr R a "Percentage" = Ret (VStr p) ->
  p <> EmptyString ->
  (forall x tx,
      py_getattr R x "AssessmentTool" = Ret (VStr tx) ->
      matches_tool R (VStr tool) x
      = Ret (negb (String.eqb tx EmptyString)
             && String.eqb (PyStr.lower tx) (PyStr.lower tool)))
  /\ fst (query_assessment_percentage R params st) = Ret (p ++ "%")
  /\ (p = "20%" -> fst (query_assessment_percentage R params st) = Ret "20%%").
Proof.
  intros Hr Hname Htool Hcourse Hlist Hpre Hta Hne Hlow Hp Hpne.
  split; [intros x tx; apply matches_tool_string|].
  assert (H : fst (query_assessment_percentage R params st) = Ret (p ++ "%")).
  { unfold query_assessment_percentage, bind.
    rewrite !(dict_get_found _ _ _ _ Hname), (dict_get_found _ _ _ _ Htool).
    destruct (get_course_string R name st Hr) as (st' & -> & _).
    rewrite Hcourse. unfold lift. cbn [fst truthy obind].
    rewrite Hlist. cbn [obind]. rewrite truthy_middle. cbn [obind py_iter].
    apply scan_percentage_match; auto.
    rewrite (matches_tool_string R tool a ta Hta), Hlow, String.eqb_refl.
    destruct (String.eqb_spec ta EmptyString) as [E|_]; [contradiction|reflexivity]. }
  split; [exact H|]. intros ->. exact H.
Qed.

Lemma assessment_percentage_appends_percent_witness :
  reachable Example.R initial_state
  /\ course_of Example.R "Databases 101" = Example.databases_101
  /\ py_getattr Example.R Example.quiz "Percentage" = Ret (VStr "20%")
  /\ fst (query_assessment_percentage Example.R
            [("courseName", VStr "Databases 101"); ("assessmentTool", VStr "QUIZ")]
            initial_state)
     = Ret "20%%".
Proof.
  split; [apply reach_initial|]. split; [reflexivity|]. split; [reflexivity|].
  refine (proj2 (proj2 (assessment_percentage_appends_percent Example.R initial_state
            [("courseName", VStr "Databases 101"); ("assessmentTool", VStr "QUIZ")]
            "Databases 101" "QUIZ" _ _ [] [Example.project; Example.viva; Example.final_exam]
            Example.quiz "Quiz" "20%"
            (reach_initial _) eq_refl eq_refl eq_refl eq_refl (Forall_nil _) eq_refl
            _ eq_refl eq_refl _)) eq_refl); discriminate.
Defined.

(** The match is on the first assessment of the tool, wherever it stands. *)
Example percentage_of_a_later_tool :
  Example.answer "GetAssessmentPercentage"
    [("courseName", VStr "Databases 101"); ("assessmentTool", VStr "final exam")]
  = "50.5%%".
Proof. reflexivity. Qed.

(** ** Pagination *)

Section Chunks.

Context {A : Type}.

Lemma range_from_done (fuel i n step : nat) : (n <= i)%nat -> range_from fuel i n step = [].
Proof.
  intros H. destruct fuel; simpl; [reflexivity|].
  apply Nat.ltb_ge in H. rewrite H. reflexivity.
Qed.

Lemma skipn_prefix (prefix items : list A) : skipn (List.length prefix) (prefix ++ items)%list = items.
Proof. induction prefix; simpl; auto. Qed.

Lemma slice_after_prefix (prefix items : list A) (k : nat) :
  slice (prefix ++ items)%list (List.length prefix) (List.length prefix + k) = firstn k items.
Proof.
  unfold slice. rewrite skipn_prefix.
  replace (List.length prefix + k - List.length prefix)%nat with k by lia. reflexivity.
Qed.

Lemma paginate_from_prefix (fuel : nat) :
  forall prefix items : list A,
    (List.length items <= fuel)%nat ->
    map (fun i => slice (prefix ++ items)%list i (i + 3))
        (range_from fuel (List.length prefix) (List.length (prefix ++ items)%list) 3)
    = chunks3 items.
Proof.
  induction fuel as [|fuel IH]; intros prefix items Hlen.
  - destruct items; [reflexivity|simpl in Hlen; lia].
  - cbn [range_from].
    destruct items as [|a [|b [|c rest]]].
    + rewrite app_nil_r, Nat.ltb_irrefl. reflexivity.
    + rewrite (proj2 (Nat.ltb_lt _ _)) by (rewrite length_app; simpl; lia).
      cbn [map].
      rewrite slice_after_prefix, range_from_done by (rewrite length_app; simpl; lia).
      reflexivity.
    + rewrite (proj2 (Nat.ltb_lt _ _)) by (rewrite length_app; simpl; lia).
      cbn [map].
      rewrite slice_after_prefix, range_from_done by (rewrite length_app; simpl; lia).
      reflexivity.
    + rewrite (proj2 (Nat.ltb_lt _ _)) by (rewrite length_app; simpl; lia).
      cbn [map]. rewrite slice_after_prefix. cbn [firstn chunks3]. f_equal.
      replace (prefix ++ a :: b :: c :: rest)%list with ((prefix ++ [a; b; c]) ++ rest)%list
        by (rewrite <- app_assoc; reflexivity).
      replace (List.length prefix + 3)%nat with (List.length (prefix ++ [a; b; c])%list)
        by (rewrite length_app; reflexivity).
      apply IH. simpl in Hlen. lia.
Qed.

Lemma paginate_items_chunks (items : list A) : paginate_items items 3 = chunks3 items.
Proof.
  unfold paginate_items, range_step.
  apply (paginate_from_prefix (List.length items) [] items). lia.
Qed.

(** Induction on a list three items at a time. *)
Lemma chunks3_ind (P : list A -> Prop) :
  P [] ->
  (forall a, P [a]) ->
  (forall a b, P [a; b]) ->
  (forall a b c rest, P rest -> P (a :: b :: c :: rest)) ->
  forall items, P items.
Proof.
  intros H0 H1 H2 H3 items.
  assert (H : forall n l, (List.length l <= n)%nat -> P l).
  { induction n as [|n IH]; intros l Hl.
    - destruct l; [exact H0|simpl in Hl; lia].
    - destruct l as [|a [|b [|c rest]]]; auto.
      apply H3, IH. simpl in Hl. lia. }
  apply (H (List.length items)). lia.
Qed.

Lemma chunks3_length (items : list A) :
  List.length (chunks3 items) = ((List.length items + 2) / 3)%nat.
Proof.
  induction items as [|a|a b|a b c rest IH] using chunks3_ind; try reflexivity.
  cbn [chunks3 List.length]. rewrite IH.
  replace (S (S (S (List.length rest))) + 2)%nat with (List.length rest + 2 + 1 * 3)%nat by lia.
  rewrite Nat.div_add by lia. lia.
Qed.

Lemma chunks3_concat (items : list A) : concat (chunks3 items) = items.
Proof.
  induction items as [|a|a b|a b c rest IH] using chunks3_ind; try reflexivity.
  cbn [chunks3 concat]. rewrite IH. reflexivity.
Qed.

Lemma chunks3_sizes (items : list A) (i : nat) :
  (i < List.length (chunks3 items))%nat ->
  (1 <= List.length (nth i (chunks3 items) []) <= 3)%nat
  /\ ((i + 1 < List.length (chunks3 items))%nat ->
      List.length (nth i (chunks3 items) []) = 3%nat).
Proof.
  revert i.
  induction items as [|a|a b|a b c rest IH] using chunks3_ind; intros i Hi.
  - simpl in Hi. lia.
  - destruct i; simpl in *; lia.
  - destruct i; simpl in *; lia.
  - cbn [chunks3 List.length] in *. destruct i as [|i].
    + simpl. lia.
    + cbn [nth]. destruct (IH i) as [H1 H2]; [lia|]. split; [exact H1|].
      intros H. apply H2. lia.
Qed.

Lemma chunks3_nonempty (items : list A) : items <> [] -> chunks3 items <> [].
Proof. destruct items as [|a [|b [|c rest]]]; simpl; congruence. Qed.

End Chunks.

Lemma chunks3_map {A B : Type} (f : A -> B) (items : list A) :
  chunks3 (map f items) = map (map f) (chunks3 items).
Proof.
  induction items as [|a|a b|a b c rest IH] using chunks3_ind; try reflexivity.
  cbn [map chunks3]. rewrite IH. reflexivity.
Qed.

Lemma append_empty_r (s : string) : s ++ EmptyString = s.
Proof. induction s as [|c s IH]; simpl; [reflexivity|]. rewrite IH. reflexivity. Qed.

Lemma strings_of_strings (l : list string) : strings_of (map VStr l) = Ret l.
Proof. induction l as [|s l IH]; simpl; [reflexivity|]. rewrite IH. reflexivity. Qed.

Lemma pagination_text (current total : string) :
  error_template "pagination" [("current", current); ("total", total)]
  = Ret (PyStr.newline ++ PyStr.newline ++ "(Page " ++ current ++ "/" ++ total
         ++ " - Say 'next page' or 'previous page')").
Proof. reflexivity. Qed.

(** The page that [render_page] gives for a list of strings. *)
Lemma render_page_strings (R : runtime) (params : dict) (items_name name : string)
    (strs : list string) (p : Z) :
  dict_find params "courseName" = Some (VStr name) ->
  dict_get params "page" (VInt 0) = VInt p ->
  render_page R params items_name (map VStr strs)
  = match strs with
    | [] => Ret ("No " ++ items_name ++ " available for course '" ++ name ++ "'.")
    | _ =>
        let pages := paginate_items strs PAGE_SIZE in
        let page := clamp_page p (List.length pages) in
        Ret (PyStr.join PyStr.newline (nth page pages [])
             ++ if (1 <? List.length pages)%nat
                then pagination_footer (page + 1) (List.length pages)
                else EmptyString)
    end.
Proof.
  intros Hname Hpage. unfold render_page. rewrite Hpage. cbn [py_int obind].
  unfold PAGE_SIZE. rewrite !paginate_items_chunks, chunks3_map.
  destruct strs as [|s strs]; [cbn [chunks3 map]; rewrite (dict_get_found _ _ _ _ Hname); reflexivity|].
  pose proof (chunks3_nonempty (s :: strs)) as Hne.
  destruct (chunks3 (s :: strs)) as [|pg pages] eqn:E; [exfalso; apply Hne; congruence|].
  cbn [map]. rewrite <- (map_cons (map VStr)), length_map.
  fold (clamp_page p (List.length (pg :: pages))).
  change (@nil value) with (map VStr []) at 1. rewrite map_nth.
  unfold py_join. rewrite strings_of_strings. cbn [obind].
  destruct (1 <? List.length (pg :: pages))%nat.
  - rewrite pagination_text. reflexivity.
  - rewrite append_empty_r. reflexivity.
Qed.

Lemma clamp_page_cases (p : Z) (n : nat) :
  (0 < n)%nat ->
  (clamp_page p n <= n - 1)%nat
  /\ ((p < 0)%Z -> clamp_page p n = 0%nat)
  /\ ((0 <= p < Z.of_nat n)%Z -> clamp_page p n = Z.to_nat p)
  /\ ((Z.of_nat n <= p)%Z -> clamp_page p n = (n - 1)%nat).
Proof. unfold clamp_page. intros Hn. repeat split; intros; lia. Qed.

(** C6. For a course whose list query collects the strings [strs]: the pages
    are the consecutive chunks of [strs], there are as many as the length
    divided by 3 and rounded up, each has 3 items except possibly the last,
    which has 1 to 3; for a non-empty [strs] every page index, negative and
    too large ones included, is clamped between 0 and the number of pages
    minus 1, the answer is the page at that index, and the footer follows it
    exactly when there is more than one page, with the number of the page and
    the number of pages; for an empty [strs] the answer is [no_data]. *)
Theorem list_query_pagination (R : runtime) (st : state) (params : dict)
    (name path items_name iri : string) (rels : list (string * option value))
    (format_func : option (value -> outcome value)) (strs : list string) (p : Z) :
  reachable R st ->
  dict_find params "courseName" = Some (VStr name) ->
  dict_get params "page" (VInt 0) = VInt p ->
  course_of R name = VNode iri rels ->
  list_items R (VNode iri rels) path format_func = Ret (map VStr strs) ->
  let pages := paginate_items strs PAGE_SIZE in
  let page := clamp_page p (List.length pages) in
  let answer := fst (handle_list_query R params path items_name format_func st) in
  List.length pages = ((List.length strs + 2) / 3)%nat
  /\ concat pages = strs
  /\ (forall i, (i + 1 < List.length pages)%nat -> List.length (nth i pages []) = 3%nat)
  /\ (forall i, (i < List.length pages)%nat -> (1 <= List.length (nth i pages []) <= 3)%nat)
  /\ (strs <> [] ->
      (page <= List.length pages - 1)%nat
      /\ ((p < 0)%Z -> page = 0%nat)
      /\ ((0 <= p < Z.of_nat (List.length pages))%Z -> page = Z.to_nat p)
      /\ ((Z.of_nat (List.length pages) <= p)%Z -> page = (List.length pages - 1)%nat)
      /\ answer
         = Ret (PyStr.join PyStr.newline (nth page pages [])
                ++ if (1 <? List.length pages)%nat
                   then pagination_footer (page + 1) (List.length pages)
                   else EmptyString))
  /\ (strs = [] ->
      answer = Ret ("No " ++ items_name ++ " available for course '" ++ name ++ "'.")).
Proof.
  intros Hr Hname Hpage Hcourse Hitems. cbv zeta.
  assert (Hanswer : fst (handle_list_query R params path items_name format_func st)
                    = render_page R params items_name (map VStr strs)).
  { unfold handle_list_query, bind.
    rewrite !(dict_get_found _ _ _ _ Hname).
    destruct (get_course_string R name st Hr) as (st' & -> & _).
    rewrite Hcourse. cbn [truthy negb]. unfold lift. rewrite Hitems. reflexivity. }
  rewrite (render_page_strings R params items_name name strs p Hname Hpage) in Hanswer.
  rewrite Hanswer. clear Hanswer.
  unfold PAGE_SIZE. rewrite !paginate_items_chunks.
  split; [apply chunks3_length|]. split; [apply chunks3_concat|].
  split; [intros i Hi; apply chunks3_sizes; [lia|exact Hi]|].
  split; [intros i Hi; apply chunks3_sizes; exact Hi|].
  split.
  - intros Hne.
    assert (Hpos : (0 < List.length (chunks3 strs))%nat).
    { pose proof (chunks3_nonempty strs Hne). destruct (chunks3 strs); [congruence|simpl; lia]. }
    destruct (clamp_page_cases p _ Hpos) as (H1 & H2 & H3 & H4).
    repeat (split; [assumption|]).
    destruct strs; [congruence|]. reflexivity.
  - intros ->. reflexivity.
Qed.

Lemma list_query_pagination_witness :
  reachable Example.R initial_state
  /\ list_items Example.R Example.databases_101 "hasAssessment"
       (Some (fun a => py_getattr Example.R a "AssessmentTool"))
     = Ret (map VStr ["Quiz"; "Project"; "Viva"; "Final Exam"])
  /\ paginate_items ["Quiz"; "Project"; "Viva"; "Final Exam"] PAGE_SIZE
     = [["Quiz"; "Project"; "Viva"]; ["Final Exam"]]
  /\ fst (handle_list_query Example.R
            [("courseName", VStr "Databases 101"); ("page", VInt 7)]
            "hasAssessment" "assessment tools"
            (Some (fun a => py_getattr Example.R a "AssessmentTool")) initial_state)
     = Ret ("Final Exam" ++ pagination_footer 2 2).
Proof.
  split; [apply reach_initial|]. split; [reflexivity|]. split; [reflexivity|].
  refine (proj2 (proj2 (proj2 (proj2 (proj1 (proj2 (proj2 (proj2 (proj2
            (list_query_pagination Example.R initial_state
               [("courseName", VStr "Databases 101"); ("page", VInt 7)]
               "Databases 101" "hasAssessment" "assessment tools" _ _
               (Some (fun a => py_getattr Example.R a "AssessmentTool"))
               ["Quiz"; "Project"; "Viva"; "Final Exam"] 7
               (reach_initial _) eq_refl eq_refl eq_refl eq_refl))))) _))))).
  discriminate.
Defined.

(** ** The assessment tool of the highest weight *)

Module FloatOrder.

Import PyFloat.

Lemma gtb_finite (m e m' e' : Z) :
  gtb (Finite m e) (Finite m' e') = true <-> (to_Q m' e' < to_Q m e)%Q.
Proof.
  simpl. rewrite negb_true_iff. split.
  - intros H. apply Qnot_le_lt. intros Hle. apply Qle_bool_iff in Hle. congruence.
  - intros H. destruct (Qle_bool (to_Q m e) (to_Q m' e')) eqn:E; [|reflexivity].
    apply Qle_bool_iff in E. exfalso. exact (Qlt_not_le _ _ H E).
Qed.

Lemma not_gtb_finite (m e m' e' : Z) :
  gtb (Finite m e) (Finite m' e') = false <-> (to_Q m e <= to_Q m' e')%Q.
Proof.
  simpl. rewrite negb_false_iff. apply Qle_bool_iff.
Qed.

(** [x > h] and [h > g] give [x > g]. *)
Lemma gtb_trans (x h g : t) : gtb x h = true -> gtb h g = true -> gtb x g = true.
Proof.
  destruct x as [mx ex|], h as [mh eh|], g as [mg eg|];
    try discriminate; try reflexivity.
  rewrite !gtb_finite. intros H1 H2. exact (Qlt_trans _ _ _ H2 H1).
Qed.

(** [y <= h] and [x > h] give [x > y]. *)
Lemma gtb_above (x h y : t) : gtb y h = false -> gtb x h = true -> gtb x y = true.
Proof.
  destruct x as [mx ex|], h as [mh eh|], y as [my ey|];
    try discriminate; try reflexivity.
  rewrite not_gtb_finite, !gtb_finite. intros H1 H2. exact (Qle_lt_trans _ _ _ H1 H2).
Qed.

End FloatOrder.

Lemma digit_is_not_point (c : ascii) : PyStr.is_digit c = true -> Ascii.eqb c "." = false.
Proof.
  intros H. destruct (Ascii.eqb_spec c ".") as [->|_]; [|reflexivity].
  vm_compute in H. discriminate.
Qed.

Lemma forallb_append (p : ascii -> bool) (a b : string) :
  PyStr.forallb p (a ++ b) = PyStr.forallb p a && PyStr.forallb p b.
Proof.
  induction a as [|c a IH]; simpl; [reflexivity|]. rewrite IH. apply andb_assoc.
Qed.

Lemma span_digits_digits (s : string) :
  PyStr.forallb PyStr.is_digit (fst (PyStr.span_digits s)) = true.
Proof.
  induction s as [|c s IH]; simpl; [reflexivity|].
  destruct (PyStr.is_digit c) eqn:E; [|reflexivity].
  destruct (PyStr.span_digits s) as [d rest]. simpl in *. rewrite E. exact IH.
Qed.

Lemma split_digits (d : string) :
  PyStr.forallb PyStr.is_digit d = true -> PyStr.split "." d = [d].
Proof.
  induction d as [|c d IH]; simpl; [reflexivity|].
  intros H. apply andb_true_iff in H. destruct H as [Hc Hd].
  rewrite (digit_is_not_point c Hc), (IH Hd). reflexivity.
Qed.

Lemma split_digits_point (d1 d2 : string) :
  PyStr.forallb PyStr.is_digit d1 = true ->
  PyStr.split "." (d1 ++ String "." d2) = d1 :: PyStr.split "." d2.
Proof.
  induction d1 as [|c d1 IH]; simpl; [reflexivity|].
  intros H. apply andb_true_iff in H. destruct H as [Hc Hd].
  rewrite (digit_is_not_point c Hc), (IH Hd). reflexivity.
Qed.

(** [float] reads every string that the pattern matches. *)
Lemma search_number_is_float (s group : string) :
  PyStr.search_number s = Some group -> exists x, PyFloat.of_string group = Some x.
Proof.
  induction s as [|c s IH]; simpl; [discriminate|].
  destruct (PyStr.is_digit c) eqn:Hc; [|exact IH]. clear IH.
  pose proof (span_digits_digits s) as Hd.
  destruct (PyStr.span_digits s) as [d rest]. simpl in Hd.
  assert (H1 : forall x, Some (String c d) = Some x ->
                         exists y, PyFloat.of_string x = Some y).
  { intros x [= <-]. unfold PyFloat.of_string.
    rewrite split_digits by (simpl; rewrite Hc; exact Hd).
    simpl. rewrite Hc, Hd. simpl. eauto. }
  destruct rest as [|c' rest']; [apply H1|].
  destruct (Ascii.eqb_spec c' ".") as [->|_]; [|apply H1].
  intros [= <-]. unfold PyFloat.of_string.
  pose proof (span_digits_digits rest') as Hd2.
  change (String c (d ++ String "." (fst (PyStr.span_digits rest'))))
    with (String c d ++ String "." (fst (PyStr.span_digits rest'))).
  rewrite split_digits_point by (simpl; rewrite Hc; exact Hd).
  rewrite (split_digits _ Hd2).
  rewrite forallb_append. simpl. rewrite Hc, Hd, Hd2. simpl. eauto.
Qed.

Section Highest.

Variable R : runtime.
Variable percentage : value -> option string.
Variable tool : value -> value.

Lemma percentage_number_reads (a : value) :
  assessment_reads R a (percentage a) (tool a) ->
  percentage_number R a = Ret (number percentage a).
Proof.
  intros [Hp _]. unfold percentage_number, number, extracted_number. rewrite Hp. simpl.
  destruct (percentage a) as [s|]; [|reflexivity].
  assert (E : py_or (VStr s) (VStr EmptyString) = VStr s
              \/ (s = EmptyString /\ py_or (VStr s) (VStr EmptyString) = VStr EmptyString)).
  { unfold py_or; simpl. destruct (String.eqb_spec s EmptyString); auto. }
  destruct E as [->|[-> ->]]; [|reflexivity].
  simpl. destruct (PyStr.search_number s) as [group|] eqn:E; [|reflexivity].
  destruct (search_number_is_float s group E) as [x ->]. reflexivity.
Qed.

(** The loop keeps the first assessment whose number is above the number
    kept so far and above all the numbers before it, and not below any
    number after it; or it keeps what it had. *)
Lemma scan_highest_keeps_first_maximum (l : list value) :
  Forall (fun a => assessment_reads R a (percentage a) (tool a)) l ->
  forall h,
  exists r,
    scan_highest R h l = Ret r
    /\ ((r = h
         /\ forall b y, In b l -> number percentage b = Some y ->
                        exists hx ht, h = Some (hx, ht) /\ PyFloat.gtb y hx = false)
        \/ exists pre a post x,
             l = (pre ++ a :: post)%list
             /\ number percentage a = Some x
             /\ r = Some (x, tool a)
             /\ (forall hx ht, h = Some (hx, ht) -> PyFloat.gtb x hx = true)
             /\ (forall b y, In b pre -> number percentage b = Some y -> PyFloat.gtb x y = true)
             /\ (forall b y, In b post -> number percentage b = Some y -> PyFloat.gtb y x = false)).
Proof.
  induction 1 as [|a l Ha _ IH]; intros h.
  - exists h. split; [reflexivity|]. left. split; [reflexivity|]. intros b y [].
  - cbn [scan_highest]. rewrite (percentage_number_reads a Ha). cbn [obind].
    destruct (number percentage a) as [y|] eqn:Hy.
    + assert (Hcase : (match h with None => true | Some (best, _) => PyFloat.gtb y best end
                       = true /\ forall hx ht, h = Some (hx, ht) -> PyFloat.gtb y hx = true)
                      \/ exists hx ht, h = Some (hx, ht) /\ PyFloat.gtb y hx = false).
      { destruct h as [[hx ht]|]; [|left; split; [reflexivity|discriminate]].
        destruct (PyFloat.gtb y hx) eqn:E.
        - left. split; [reflexivity|]. intros ? ? [= <- <-]. exact E.
        - right. eauto. }
      destruct Hcase as [[-> Hh]|(hx & ht & -> & Hle)].
      * destruct Ha as [_ Ht]. rewrite Ht. cbn [obind].
        destruct (IH (Some (y, tool a))) as (r & Hr & Hcases).
        exists r. split; [exact Hr|]. right. destruct Hcases as [[-> Hall]|Hex].
        -- exists [], a, l, y.
           split; [reflexivity|]. split; [exact Hy|]. split; [reflexivity|].
           split; [exact Hh|]. split; [intros b z []|].
           intros b z Hb Hz. destruct (Hall b z Hb Hz) as (? & ? & [= <- <-] & E). exact E.
        -- destruct Hex as (pre & a' & post & x & -> & Hx & -> & Hup & Hpre & Hpost).
           exists (a :: pre), a', post, x.
           split; [reflexivity|]. split; [exact Hx|]. split; [reflexivity|].
           split; [|split; [|exact Hpost]].
           ++ intros hx ht Heq.
              apply (FloatOrder.gtb_trans x y hx); [exact (Hup y (tool a) eq_refl)|].
              exact (Hh hx ht Heq).
           ++ intros b z [<-|Hb] Hz; [|exact (Hpre b z Hb Hz)].
              rewrite Hy in Hz. injection Hz as <-. exact (Hup y (tool a) eq_refl).
      * rewrite Hle.
        destruct (IH (Some (hx, ht))) as (r & Hr & Hcases).
        exists r. split; [exact Hr|]. destruct Hcases as [[-> Hall]|Hex].
        -- left. split; [reflexivity|]. intros b z [<-|Hb] Hz; [|exact (Hall b z Hb Hz)].
           rewrite Hy in Hz. injection Hz as <-. exists hx, ht. split; [reflexivity|exact Hle].
        -- right. destruct Hex as (pre & a' & post & x & -> & Hx & -> & Hup & Hpre & Hpost).
           exists (a :: pre), a', post, x.
           split; [reflexivity|]. split; [exact Hx|]. split; [reflexivity|].
           split; [exact Hup|]. split; [|exact Hpost].
           intros b z [<-|Hb] Hz; [|exact (Hpre b z Hb Hz)].
           rewrite Hy in Hz. injection Hz as <-.
           apply (FloatOrder.gtb_above x hx y); [exact Hle|exact (Hup hx ht eq_refl)].
    + destruct (IH h) as (r & Hr & Hcases).
      exists r. split; [exact Hr|]. destruct Hcases as [[-> Hall]|Hex].
      * left. split; [reflexivity|].
        intros b z [<-|Hb] Hz; [congruence|exact (Hall b z Hb Hz)].
      * right. destruct Hex as (pre & a' & post & x & -> & Hx & -> & Hup & Hpre & Hpost).
        exists (a :: pre), a', post, x.
        split; [reflexivity|]. split; [exact Hx|]. split; [reflexivity|].
        split; [exact Hup|]. split; [|exact Hpost].
        intros b z [<-|Hb] Hz; [congruence|exact (Hpre b z Hb Hz)].
Qed.

End Highest.

Lemma highest_answer (R : runtime) (st : state) (params : dict) (name iri : string)
    (rels : list (string * option value)) (assessments : list value) :
  reachable R st ->
  dict_find params "courseName" = Some (VStr name) ->
  course_of R name = VNode iri rels ->
  py_getattr R (VNode iri rels) "hasAssessment" = Ret (VList assessments) ->
  assessments <> [] ->
  fst (query_highest_assessment_tool R params st)
  = (highest <~ scan_highest R None assessments ;;
     match highest with
     | Some (perc, tool) =>
         Ret ("Highest weighted assessment tool: " ++ py_str R tool
              ++ " (" ++ PyFloat.repr perc ++ "%).")
     | None => Ret ("No assessment tool available for course '" ++ name ++ "'.")
     end).
Proof.
  intros Hr Hname Hcourse Hlist Hne.
  unfold query_highest_assessment_tool, bind.
  rewrite !(dict_get_found _ _ _ _ Hname).
  destruct (get_course_string R name st Hr) as (st' & -> & _).
  rewrite Hcourse. unfold lift. cbn [fst truthy obind]. rewrite Hlist. cbn [obind py_iter].
  destruct assessments as [|a l]; [congruence|]. cbn [truthy obind].
  destruct (scan_highest R None (a :: l)) as [[[perc tool]|]|e]; reflexivity.
Qed.

(** C5. For every course with at least one assessment, each with a percentage
    that is a string or absent and with a tool: the resolver goes through the
    assessments in order, reads in each percentage the first run of digits
    with an optional point and digits, and skips the assessments where there
    is none; when no assessment has a number the answer is [no_data];
    otherwise the answer names the tool of an assessment whose number is above
    the numbers of all the assessments before it and is not below the number
    of any assessment after it, that is, the first assessment of maximal
    number. For the percentages 20%, 30%, abc and 50.5% the fourth tool is
    answered, with the value 50.5. *)
Theorem highest_assessment_tool_is_first_maximum (R : runtime) (st : state) (params : dict)
    (name iri : string) (rels : list (string * option value)) (assessments : list value)
    (percentage : value -> option string) (tool : value -> value) :
  reachable R st ->
  dict_find params "courseName" = Some (VStr name) ->
  course_of R name = VNode iri rels ->
  py_getattr R (VNode iri rels) "hasAssessment" = Ret (VList assessments) ->
  assessments <> [] ->
  Forall (fun a => assessment_reads R a (percentage a) (tool a)) assessments ->
  let answer := fst (query_highest_assessment_tool R params st) in
  ((Forall (fun a => number percentage a = None) assessments
    /\ answer = Ret ("No assessment tool available for course '" ++ name ++ "'."))
   \/ exists pre a post x,
        assessments = (pre ++ a :: post)%list
        /\ number percentage a = Some x
        /\ (forall b y, In b pre -> number percentage b = Some y -> PyFloat.gtb x y = true)
        /\ (forall b y, In b post -> number percentage b = Some y -> PyFloat.gtb y x = false)
        /\ answer = Ret ("Highest weighted assessment tool: " ++ py_str R (tool a)
                         ++ " (" ++ PyFloat.repr x ++ "%)."))
  /\ (map percentage assessments = [Some "20%"; Some "30%"; Some "abc"; Some "50.5%"] ->
      answer = Ret ("Highest weighted assessment tool: "
                    ++ py_str R (tool (nth 3 assessments VNone)) ++ " (50.5%).")).
Proof.
  intros Hr Hname Hcourse Hlist Hne Hreads. cbv zeta.
  rewrite (highest_answer R st params name iri rels assessments Hr Hname Hcourse Hlist Hne).
  split.
  - destruct (scan_highest_keeps_first_maximum R percentage tool assessments Hreads None)
      as (r & -> & Hcases).
    cbn [obind]. destruct Hcases as [[-> Hall]|Hex].
    + left. split; [|reflexivity].
      apply Forall_forall. intros b Hb.
      destruct (number percentage b) as [y|] eqn:E; [|reflexivity].
      destruct (Hall b y Hb E) as (? & ? & ? & _). discriminate.
    + right. destruct Hex as (pre & a & post & x & -> & Hx & -> & _ & Hpre & Hpost).
      exists pre, a, post, x. auto.
  - intros Hmap.
    destruct assessments as [|a1 [|a2 [|a3 [|a4 [|a5 l]]]]]; try discriminate Hmap.
    injection Hmap as H1 H2 H3 H4.
    inversion Hreads as [|? ? R1 Hreads2]; subst.
    inversion Hreads2 as [|? ? R2 Hreads3]; subst.
    inversion Hreads3 as [|? ? R3 Hreads4]; subst.
    inversion Hreads4 as [|? ? R4 _]; subst.
    cbn [scan_highest nth].
    rewrite (percentage_number_reads R percentage tool a1 R1),
            (percentage_number_reads R percentage tool a2 R2),
            (percentage_number_reads R percentage tool a3 R3),
            (percentage_number_reads R percentage tool a4 R4).
    unfold number. rewrite H1, H2, H3, H4.
    destruct R1 as [_ ->], R2 as [_ ->], R4 as [_ ->].
    evaluate (extracted_number "20%"). evaluate (extracted_number "30%").
    evaluate (extracted_number "abc"). evaluate (extracted_number "50.5%").
    cbn [obind].
    match goal with |- context [PyFloat.gtb ?x ?y] => evaluate (PyFloat.gtb x y) end.
    cbn [obind].
    match goal with |- context [PyFloat.gtb ?x ?y] => evaluate (PyFloat.gtb x y) end.
    cbn [obind].
    match goal with |- context [PyFloat.repr ?x] => evaluate (PyFloat.repr x) end.
    reflexivity.
Qed.

Lemma highest_assessment_tool_is_first_maximum_witness :
  reachable Example.R initial_state
  /\ Forall (fun a => assessment_reads Example.R a (Example.percentage_of a) (Example.tool_of a))
       [Example.quiz; Example.project; Example.viva; Example.final_exam]
  /\ map Example.percentage_of [Example.quiz; Example.project; Example.viva; Example.final_exam]
     = [Some "20%"; Some "30%"; Some "abc"; Some "50.5%"]
  /\ fst (query_highest_assessment_tool Example.R [("courseName", VStr "Databases 101")]
            initial_state)
     = Ret "Highest weighted assessment tool: Final Exam (50.5%).".
Proof.
  assert (H : Forall (fun a => assessment_reads Example.R a (Example.percentage_of a)
                                 (Example.tool_of a))
                [Example.quiz; Example.project; Example.viva; Example.final_exam]).
  { repeat constructor. }
  split; [apply reach_initial|]. split; [exact H|]. split; [reflexivity|].
  refine (proj2 (highest_assessment_tool_is_first_maximum Example.R initial_state
                   [("courseName", VStr "Databases 101")] "Databases 101" _ _
                   [Example.quiz; Example.project; Example.viva; Example.final_exam]
                   Example.percentage_of Example.tool_of
                   (reach_initial _) eq_refl eq_refl eq_refl _ H) eq_refl).
  discriminate.
Defined.

(** Two tools of the same weight: the first one is answered. *)
Example highest_tie_keeps_the_first :
  Example.answer "GetHighestAssessmentTool" [("courseName", VStr "Algorithms")]
  = "Highest weighted assessment tool: Midterm (30.0%).".
Proof. reflexivity. Qed.

(** What is read in a percentage string. *)
Example extracted_number_examples :
  map (fun s => option_map PyFloat.repr (extracted_number s))
      ["20%"; "abc"; "50.5%"; "about 7.25 percent"; ""; "5."]
  = [Some "20.0"; None; Some "50.5"; Some "7.25"; None; Some "5.0"].
Proof. vm_compute. reflexivity. Qed.

(** * Further properties of the code *)

(** ** Identifiers *)

Lemma word_is_not_space (c : ascii) : PyStr.is_word c = true -> PyStr.is_space c = false.
Proof. destruct c as [[] [] [] [] [] [] [] []]; vm_compute; congruence. Qed.

Lemma lower_char_idempotent (c : ascii) : PyStr.lower_char (PyStr.lower_char c) = PyStr.lower_char c.
Proof. destruct c as [[] [] [] [] [] [] [] []]; vm_compute; reflexivity. Qed.

Lemma sub_nonword_runs_forallb (p : ascii -> bool) (in_run : bool) (s : string) :
  p "_"%char = true ->
  PyStr.forallb p s = true ->
  PyStr.forallb p (PyStr.sub_nonword_runs in_run s) = true.
Proof.
  intros Hu. revert in_run. induction s as [|c s IH]; intros in_run; simpl; [reflexivity|].
  intros H. apply andb_true_iff in H. destruct H as [Hc Hs].
  destruct (PyStr.is_word c); simpl.
  - rewrite Hc. apply IH, Hs.
  - destruct in_run; simpl; [|rewrite Hu]; apply IH, Hs.
Qed.

Lemma sub_nonword_runs_words (in_run : bool) (s : string) :
  PyStr.forallb PyStr.is_word (PyStr.sub_nonword_runs in_run s) = true.
Proof.
  revert in_run. induction s as [|c s IH]; intros in_run; simpl; [reflexivity|].
  destruct (PyStr.is_word c) eqn:E; simpl.
  - rewrite E. apply IH.
  - destruct in_run; simpl; apply IH.
Qed.

Lemma sub_nonword_runs_of_words (in_run : bool) (s : string) :
  PyStr.forallb PyStr.is_word s = true -> PyStr.sub_nonword_runs in_run s = s.
Proof.
  revert in_run. induction s as [|c s IH]; intros in_run; simpl; [reflexivity|].
  intros H. apply andb_true_iff in H. destruct H as [Hc Hs].
  rewrite Hc, (IH false Hs). reflexivity.
Qed.

Lemma lower_is_lowered (s : string) :
  PyStr.forallb (fun c => Ascii.eqb (PyStr.lower_char c) c) (PyStr.lower s) = true.
Proof.
  induction s as [|c s IH]; simpl; [reflexivity|].
  rewrite lower_char_idempotent, Ascii.eqb_refl. exact IH.
Qed.

Lemma lower_of_lowered (s : string) :
  PyStr.forallb (fun c => Ascii.eqb (PyStr.lower_char c) c) s = true -> PyStr.lower s = s.
Proof.
  induction s as [|c s IH]; simpl; [reflexivity|].
  intros H. apply andb_true_iff in H. destruct H as [Hc Hs].
  apply Ascii.eqb_eq in Hc. rewrite Hc, (IH Hs). reflexivity.
Qed.

Lemma rstrip_of_words (s : string) :
  PyStr.forallb PyStr.is_word s = true -> PyStr.rstrip s = s.
Proof.
  induction s as [|c s IH]; simpl; [reflexivity|].
  intros H. apply andb_true_iff in H. destruct H as [Hc Hs].
  rewrite (IH Hs). destruct s; [|reflexivity].
  rewrite (word_is_not_space c Hc). reflexivity.
Qed.

Lemma strip_of_words (s : string) :
  PyStr.forallb PyStr.is_word s = true -> PyStr.strip s = s.
Proof.
  intros H. unfold PyStr.strip.
  assert (E : PyStr.lstrip s = s).
  { destruct s as [|c s]; [reflexivity|]. simpl in *.
    apply andb_true_iff in H. destruct H as [Hc _].
    rewrite (word_is_not_space c Hc). reflexivity. }
  rewrite E. apply rstrip_of_words, H.
Qed.

(** X1. An identifier made by [sanitize_id] has only word characters
    (letters, digits, underscore), has no upper-case letter left, and is
    its own identifier: sanitizing twice is sanitizing once. *)
Theorem sanitize_id_is_normal (name : string) :
  PyStr.forallb PyStr.is_word (sanitize_id name) = true
  /\ PyStr.lower (sanitize_id name) = sanitize_id name
  /\ sanitize_id (sanitize_id name) = sanitize_id name.
Proof.
  assert (Hw : PyStr.forallb PyStr.is_word (sanitize_id name) = true)
    by apply sub_nonword_runs_words.
  assert (Hl : PyStr.lower (sanitize_id name) = sanitize_id name).
  { apply lower_of_lowered. unfold sanitize_id.
    apply sub_nonword_runs_forallb; [reflexivity|apply lower_is_lowered]. }
  split; [exact Hw|]. split; [exact Hl|].
  unfold sanitize_id at 1. fold (sanitize_id name).
  rewrite (strip_of_words _ Hw), Hl. apply sub_nonword_runs_of_words, Hw.
Qed.

(** ** The memo tables *)

Lemma key_eqb_eq (a b : value) : key_eqb a b = true -> a = b.
Proof.
  destruct a, b; simpl; try discriminate; intros H.
  - reflexivity.
  - apply String.eqb_eq in H. congruence.
  - apply Z.eqb_eq in H. congruence.
Qed.

Lemma cache_find_first (k v : value) (c : list (value * value)) :
  key_eqb k k = true -> cache_find k ((k, v) :: c) = Some v.
Proof. intros H. simpl. rewrite H. reflexivity. Qed.

Lemma cache_remove_length (k v : value) (c : list (value * value)) :
  cache_find k c = Some v -> S (List.length (cache_remove k c)) = List.length c.
Proof.
  induction c as [|[k' v'] c IH]; simpl; [discriminate|].
  destruct (key_eqb k' k); [reflexivity|].
  intros H. simpl. rewrite (IH H). reflexivity.
Qed.

(** What a call of [get_course] on a string does to the state. *)
Lemma get_course_step (R : runtime) (s : string) (st : state) :
  get_course R (VStr s) st
  = match cache_find (VStr s) (course_cache st) with
    | Some v =>
        (Ret v,
         mkState ((VStr s, v) :: cache_remove (VStr s) (course_cache st))
           (instructor_cache st) (graph_log st))
    | None =>
        (Ret (course_of R s),
         mkState (firstn 100 ((VStr s, course_of R s) :: course_cache st))
           (instructor_cache st)
           (if valid_name s
            then (graph_log st ++ [SearchIri ("*#" ++ sanitize_id s)])%list
            else graph_log st))
    end.
Proof.
  unfold get_course, lru_cache. cbn [hashable negb].
  destruct (cache_find (VStr s) (course_cache st)); [reflexivity|].
  rewrite get_course_uncached_string. unfold set_course_cache.
  destruct (valid_name s); reflexivity.
Qed.

Lemma get_instructor_step (R : runtime) (s : string) (st : state) :
  get_instructor R (VStr s) st
  = match cache_find (VStr s) (instructor_cache st) with
    | Some v =>
        (Ret v,
         mkState (course_cache st)
           ((VStr s, v) :: cache_remove (VStr s) (instructor_cache st)) (graph_log st))
    | None =>
        (Ret (instructor_of R s),
         mkState (course_cache st)
           (firstn 50 ((VStr s, instructor_of R s) :: instructor_cache st))
           (if valid_name s
            then (graph_log st ++ [SearchInstructors (PyStr.strip s)])%list
            else graph_log st))
    end.
Proof.
  unfold get_instructor, lru_cache. cbn [hashable negb].
  destruct (cache_find (VStr s) (instructor_cache st)); [reflexivity|].
  rewrite get_instructor_uncached_string. unfold set_instructor_cache.
  destruct (valid_name s); reflexivity.
Qed.

(** X2. Memoization of [get_course]. A call on a name that is in the memo
    table makes no lookup in the ontology; a call on a valid name that is
    not in the table makes exactly one, for the IRIs that end with the
    identifier of the name; and after any call the name is in the table,
    so that the next call on the same name makes no lookup. *)
Theorem get_course_looks_up_once (R : runtime) (st : state) (s : string) :
  let first := get_course R (VStr s) st in
  let second := get_course R (VStr s) (snd first) in
  (forall v, cache_find (VStr s) (course_cache st) = Some v ->
             graph_log (snd first) = graph_log st)
  /\ (cache_find (VStr s) (course_cache st) = None ->
      valid_name s = true ->
      graph_log (snd first)
      = (graph_log st ++ [SearchIri ("*#" ++ sanitize_id s)])%list)
  /\ (exists v, fst first = Ret v /\ cache_find (VStr s) (course_cache (snd first)) = Some v)
  /\ fst second = fst first
  /\ graph_log (snd second) = graph_log (snd first).
Proof.
  cbv zeta.
  assert (Hk : key_eqb (VStr s) (VStr s) = true) by (simpl; apply String.eqb_refl).
  assert (Hin : exists v, fst (get_course R (VStr s) st) = Ret v
                          /\ cache_find (VStr s) (course_cache (snd (get_course R (VStr s) st)))
                             = Some v).
  { rewrite get_course_step.
    destruct (cache_find (VStr s) (course_cache st)) as [v|].
    - exists v. split; [reflexivity|]. apply cache_find_first, Hk.
    - exists (course_of R s). split; [reflexivity|].
      cbn [snd course_cache firstn]. apply cache_find_first, Hk. }
  split; [|split; [|split; [exact Hin|]]].
  - intros v Hv. rewrite get_course_step, Hv. reflexivity.
  - intros Hnone Hvalid. rewrite get_course_step, Hnone, Hvalid. reflexivity.
  - destruct Hin as (v & Hfst & Hfind).
    rewrite (get_course_step R s (snd (get_course R (VStr s) st))), Hfind, Hfst.
    split; reflexivity.
Qed.

Lemma get_course_uncached_returns (R : runtime) (k v : value) (st st' : state) :
  get_course_uncached R k st = (Ret v, st') ->
  (exists b, validate_input k = Ret b)
  /\ course_cache st' = course_cache st /\ instructor_cache st' = instructor_cache st.
Proof.
  unfold get_course_uncached, bind, lift.
  destruct (validate_input k) as [b|e]; [|discriminate].
  intros H. split; [eauto|].
  destruct b; simpl in H.
  - destruct k; try discriminate H. unfold search_iri, ret in H.
    injection H as _ <-. split; reflexivity.
  - unfold ret in H. injection H as _ <-. split; reflexivity.
Qed.

Lemma get_instructor_uncached_returns (R : runtime) (k v : value) (st st' : state) :
  get_instructor_uncached R k st = (Ret v, st') ->
  (exists b, validate_input k = Ret b)
  /\ course_cache st' = course_cache st /\ instructor_cache st' = instructor_cache st.
Proof.
  unfold get_instructor_uncached, bind, lift.
  destruct (validate_input k) as [b|e]; [|discriminate].
  intros H. split; [eauto|].
  destruct b; simpl in H.
  - destruct k; try discriminate H. unfold search_instructors, ret in H.
    injection H as _ <-. split; reflexivity.
  - unfold ret in H. injection H as _ <-. split; reflexivity.
Qed.

Lemma get_course_uncached_raises (R : runtime) (k : value) (e : exn) (st st' : state) :
  get_course_uncached R k st = (Raise e, st') -> st' = st.
Proof.
  destruct (get_course_uncached_other R k st) as [[s ->]|[H|[e' H]]].
  - rewrite get_course_uncached_string. discriminate.
  - rewrite H. discriminate.
  - rewrite H. intros [= _ <-]. reflexivity.
Qed.

Lemma get_instructor_uncached_raises (R : runtime) (k : value) (e : exn) (st st' : state) :
  get_instructor_uncached R k st = (Raise e, st') -> st' = st.
Proof.
  destruct (get_instructor_uncached_other R k st) as [[s ->]|[H|[e' H]]].
  - rewrite get_instructor_uncached_string. discriminate.
  - rewrite H. discriminate.
  - rewrite H. intros [= _ <-]. reflexivity.
Qed.

(** The two invariants of a memo table under [lru_cache]: its size and its
    keys. *)
Lemma lru_cache_table (maxsize : nat) (f : value -> M value)
    (get : state -> list (value * value))
    (set : list (value * value) -> state -> state) (arg : value) (st : state) :
  (forall c s, get (set c s) = c) ->
  (forall v st', f arg st = (Ret v, st') ->
                 (exists b, validate_input arg = Ret b) /\ get st' = get st) ->
  (forall e st', f arg st = (Raise e, st') -> st' = st) ->
  (List.length (get st) <= maxsize)%nat ->
  keys_return (get st) ->
  (List.length (get (snd (lru_cache maxsize get set f arg st))) <= maxsize)%nat
  /\ keys_return (get (snd (lru_cache maxsize get set f arg st))).
Proof.
  intros Hgs Hret Hraise Hlen Hkeys. unfold lru_cache.
  destruct (hashable arg); cbn [negb]; [|split; assumption].
  destruct (cache_find arg (get st)) as [v|] eqn:Hfind.
  - cbn [snd]. rewrite Hgs. split.
    + simpl. rewrite (cache_remove_length arg v _ Hfind). exact Hlen.
    + intros k x [Heq|Hin].
      * injection Heq as <- <-.
        destruct (cache_find_In _ _ _ Hfind) as (k' & Hk & Hin).
        apply key_eqb_eq in Hk. subst k'. exact (Hkeys _ _ Hin).
      * apply cache_remove_In in Hin. exact (Hkeys _ _ Hin).
  - destruct (f arg st) as [[v|e] st'] eqn:Hf; cbn [snd].
    + destruct (Hret v st' eq_refl) as [Hb Hsame]. rewrite Hgs, Hsame. split.
      * rewrite length_firstn. apply Nat.le_min_l.
      * intros k x Hin. apply firstn_In in Hin. destruct Hin as [Heq|Hin].
        -- injection Heq as <- <-. exact Hb.
        -- exact (Hkeys _ _ Hin).
    + rewrite (Hraise e st' eq_refl). split; assumption.
Qed.

Lemma lru_cache_other_table (maxsize : nat) (f : value -> M value)
    (get other : state -> list (value * value))
    (set : list (value * value) -> state -> state) (arg : value) (st : state) :
  (forall c s, other (set c s) = other s) ->
  (forall o st', f arg st = (o, st') -> other st' = other st) ->
  other (snd (lru_cache maxsize get set f arg st)) = other st.
Proof.
  intros Hset Hf. unfold lru_cache.
  destruct (hashable arg); cbn [negb]; [|reflexivity].
  destruct (cache_find arg (get st)); cbn [snd]; [apply Hset|].
  destruct (f arg st) as [[v|e] st'] eqn:E; cbn [snd].
  - rewrite Hset. exact (Hf _ _ eq_refl).
  - exact (Hf _ _ eq_refl).
Qed.

Lemma reachable_tables (R : runtime) (st : state) :
  reachable R st ->
  ((List.length (course_cache st) <= 100)%nat /\ keys_return (course_cache st))
  /\ ((List.length (instructor_cache st) <= 50)%nat /\ keys_return (instructor_cache st)).
Proof.
  induction 1 as [|st v _ [IHc IHi]|st v _ [IHc IHi]].
  - split; (split; [simpl; lia|intros k v []]).
  - split.
    + apply lru_cache_table; try tauto; try reflexivity.
      * intros x st' Hx. destruct (get_course_uncached_returns R v x st st' Hx) as (? & ? & ?).
        auto.
      * intros e st' He. exact (get_course_uncached_raises R v e st st' He).
    + unfold get_course.
      rewrite (lru_cache_other_table 100 (get_course_uncached R) course_cache instructor_cache).
      * exact IHi.
      * reflexivity.
      * intros [x|e] st' Hx.
        -- destruct (get_course_uncached_returns R v x st st' Hx) as (_ & _ & E). exact E.
        -- rewrite (get_course_uncached_raises R v e st st' Hx). reflexivity.
  - split.
    + unfold get_instructor.
      rewrite (lru_cache_other_table 50 (get_instructor_uncached R) instructor_cache course_cache).
      * exact IHc.
      * reflexivity.
      * intros [x|e] st' Hx.
        -- destruct (get_instructor_uncached_returns R v x st st' Hx) as (_ & E & _). exact E.
        -- rewrite (get_instructor_uncached_raises R v e st st' Hx). reflexivity.
    + apply lru_cache_table; try tauto; try reflexivity.
      * intros x st' Hx.
        destruct (get_instructor_uncached_returns R v x st st' Hx) as (? & ? & ?). auto.
      * intros e st' He. exact (get_instructor_uncached_raises R v e st st' He).
Qed.

(** X3. The memo tables stay within their capacity: in every state that the
    process can reach, the table of [get_course] holds at most 100 entries
    and the table of [get_instructor] at most 50. *)
Theorem memo_tables_are_bounded (R : runtime) (st : state) :
  reachable R st ->
  (List.length (course_cache st) <= 100)%nat
  /\ (List.length (instructor_cache st) <= 50)%nat.
Proof.
  intros H. destruct (reachable_tables R st H) as [[Hc _] [Hi _]]. split; assumption.
Qed.

Lemma memo_tables_are_bounded_witness :
  reachable Example.R
    (snd (get_instructor Example.R (VStr "Ada_Lovelace")
            (snd (get_course Example.R (VStr "a_b") initial_state))))
  /\ List.length (course_cache
                    (snd (get_instructor Example.R (VStr "Ada_Lovelace")
                            (snd (get_course Example.R (VStr "a_b") initial_state)))))
     = 1%nat
  /\ (1 <= 100)%nat.
Proof.
  assert (H : reachable Example.R
                (snd (get_instructor Example.R (VStr "Ada_Lovelace")
                        (snd (get_course Example.R (VStr "a_b") initial_state)))))
    by (apply reach_instructor, reach_course, reach_initial).
  split; [exact H|]. split; [reflexivity|].
  exact (proj1 (memo_tables_are_bounded Example.R _ H)).
Defined.

(** X4. [get_instructor] looks an instructor up by the name as it is
    written, with only the surrounding whitespace removed and no
    normalization: the result is [None] or the first node of the ontology, in
    storage order, whose [Instructors] attribute is that string or a list
    that holds it. *)
Theorem get_instructor_matches_exactly (R : runtime) (st : state) (s : string) (v : value) :
  reachable R st ->
  fst (get_instructor R (VStr s) st) = Ret v ->
  v = VNone
  \/ (valid_name s = true
      /\ exists before after,
           onto R = (before ++ v :: after)%list
           /\ attribute_equals "Instructors" (PyStr.strip s) v = true
           /\ Forall (fun n => attribute_equals "Instructors" (PyStr.strip s) n = false) before).
Proof.
  intros Hr Hv.
  destruct (get_instructor_string R s st Hr) as (st' & Hcall & _).
  rewrite Hcall in Hv. injection Hv as <-.
  unfold instructor_of. destruct (valid_name s); [|left; reflexivity].
  generalize (onto R). intros l.
  induction l as [|n l IH]; [left; reflexivity|].
  simpl. destruct (attribute_equals "Instructors" (PyStr.strip s) n) eqn:E.
  - right. split; [reflexivity|]. exists [], l. simpl. auto.
  - destruct IH as [H0|(_ & before & after & Hl & Hm & Hb)].
    + left. exact H0.
    + right. split; [reflexivity|]. exists (n :: before), after.
      split; [simpl; congruence|]. split; [exact Hm|]. constructor; assumption.
Qed.

Lemma get_instructor_matches_exactly_witness :
  reachable Campus.R initial_state
  /\ fst (get_instructor Campus.R (VStr " Grace Hopper ") initial_state) = Ret Campus.hopper
  /\ fst (get_instructor Campus.R (VStr "grace hopper") initial_state) = Ret VNone
  /\ (Campus.hopper = VNone
      \/ (valid_name " Grace Hopper " = true
          /\ exists before after,
               onto Campus.R = (before ++ Campus.hopper :: after)%list
               /\ attribute_equals "Instructors" (PyStr.strip " Grace Hopper ") Campus.hopper
                  = true
               /\ Forall (fun n => attribute_equals "Instructors"
                                     (PyStr.strip " Grace Hopper ") n = false) before)).
Proof.
  split; [apply reach_initial|]. split; [reflexivity|]. split; [reflexivity|].
  apply (get_instructor_matches_exactly Campus.R initial_state " Grace Hopper " Campus.hopper
           (reach_initial _) eq_refl).
Defined.

(** X5. A course name that is a number other than 0: [get_course] raises
    [TypeError] and caches nothing, and so does a query that starts with it,
    such as the standard query. The state of the process is left as it
    was. *)
Theorem numeric_course_name_raises (R : runtime) (st : state) (n : Z) (params : dict)
    (path label entity : string) :
  reachable R st ->
  n <> 0%Z ->
  dict_find params "courseName" = Some (VInt n) ->
  get_course R (VInt n) st = (Raise TypeError, st)
  /\ handle_standard_query R params path label entity st = (Raise TypeError, st).
Proof.
  intros Hr Hn Hp.
  assert (Hv : validate_input (VInt n) = Raise TypeError).
  { unfold validate_input. simpl. destruct (Z.eqb_spec n 0); [contradiction|reflexivity]. }
  assert (Hc : get_course R (VInt n) st = (Raise TypeError, st)).
  { unfold get_course, lru_cache. cbn [hashable negb].
    destruct (cache_find (VInt n) (course_cache st)) as [v|] eqn:Hfind.
    - exfalso. destruct (cache_find_In _ _ _ Hfind) as (k' & Hk & Hin).
      apply key_eqb_eq in Hk. subst k'.
      destruct (reachable_tables R st Hr) as [[_ Hkeys] _].
      destruct (Hkeys _ _ Hin) as [b Hb]. congruence.
    - unfold get_course_uncached, bind, lift. rewrite Hv. reflexivity. }
  split; [exact Hc|].
  unfold handle_standard_query, bind. rewrite (dict_get_found _ _ _ _ Hp), Hc. reflexivity.
Qed.

Lemma numeric_course_name_raises_witness :
  reachable Example.R initial_state
  /\ (101 <> 0)%Z
  /\ get_course Example.R (VInt 101) initial_state = (Raise TypeError, initial_state)
  /\ handle_standard_query Example.R [("courseName", VInt 101)]
       "hasCourseMetadata.CourseCredit" "credit information" "course" initial_state
     = (Raise TypeError, initial_state)
  /\ Example.answer "GetCourseCredits" [("courseName", VInt 101)]
     = "Sorry, I encountered an error processing your request.".
Proof.
  assert (H : (101 <> 0)%Z) by discriminate.
  split; [apply reach_initial|]. split; [exact H|].
  destruct (numeric_course_name_raises Example.R initial_state 101
              [("courseName", VInt 101)] "hasCourseMetadata.CourseCredit"
              "credit information" "course" (reach_initial _) H eq_refl) as [H1 H2].
  split; [exact H1|]. split; [exact H2|]. reflexivity.
Defined.

(** ** The path resolver, further *)

Lemma split_is_not_empty (sep : ascii) (s : string) : PyStr.split sep s <> [].
Proof.
  destruct s as [|c s]; simpl; [discriminate|].
  destruct (Ascii.eqb c sep); [discriminate|].
  destruct (PyStr.split sep s); discriminate.
Qed.

(** X6. Lists collapse to their first element: from a list whose first
    element is not itself a list, [get_nested_property] resolves every path
    as it does from that first element; from the empty list every path is
    missing. *)
Theorem list_resolves_as_its_first_element (R : runtime) (x : value) (rest : list value)
    (path : string) :
  (forall xs, x <> VList xs) ->
  get_nested_property R (VList (x :: rest)) path = get_nested_property R x path
  /\ get_nested_property R (VList []) path = Ret VNone.
Proof.
  intros Hx. unfold get_nested_property.
  destruct (PyStr.split "." path) as [|p ps] eqn:E; [exfalso; exact (split_is_not_empty _ _ E)|].
  split; [|reflexivity].
  cbn [follow_properties].
  destruct x; try reflexivity. exfalso. exact (Hx _ eq_refl).
Qed.

Lemma list_resolves_as_its_first_element_witness :
  (forall xs, Example.metadata <> VList xs)
  /\ get_nested_property Example.R (VList [Example.metadata; VNone]) "CourseCredit"
     = Ret (VStr "4")
  /\ get_nested_property Example.R (VList []) "CourseCredit" = Ret VNone.
Proof.
  assert (H : forall xs, Example.metadata <> VList xs) by (intros xs; discriminate).
  split; [exact H|].
  destruct (list_resolves_as_its_first_element Example.R Example.metadata [VNone]
              "CourseCredit" H) as [H1 H2].
  split; [rewrite H1; reflexivity|exact H2].
Defined.

Lemma split_at_point (a rest : string) :
  PyStr.forallb (fun c => negb (Ascii.eqb c ".")) a = true ->
  PyStr.split "." (a ++ String "." rest) = a :: PyStr.split "." rest.
Proof.
  induction a as [|c a IH]; simpl; [reflexivity|].
  intros H. apply andb_true_iff in H. destruct H as [Hc Ha].
  apply negb_true_iff in Hc. rewrite Hc, (IH Ha). reflexivity.
Qed.

(** X7. A dotted path is resolved one relation at a time: from an object that
    is not a list, when the first segment reads as a value the path resolves
    as the rest of the path does from that value, and when the object has no
    such attribute the path is missing, whatever follows. *)
Theorem path_resolves_segment_by_segment (R : runtime) (obj : value) (first rest : string) :
  (forall xs, obj <> VList xs) ->
  PyStr.forallb (fun c => negb (Ascii.eqb c ".")) first = true ->
  (forall v, py_getattr R obj first = Ret v ->
             get_nested_property R obj (first ++ "." ++ rest) = get_nested_property R v rest)
  /\ (py_getattr R obj first = Raise AttributeError ->
      get_nested_property R obj (first ++ "." ++ rest) = Ret VNone).
Proof.
  intros Hobj Hfirst. unfold get_nested_property.
  change (first ++ "." ++ rest) with (first ++ String "." rest).
  rewrite (split_at_point first rest Hfirst).
  assert (E : forall ps,
             follow_properties R obj (first :: ps)
             = (has <~ py_hasattr R obj first ;;
                if negb has then Ret VNone
                else o <~ py_getattr R obj first ;; follow_properties R o ps)).
  { intros ps. cbn [follow_properties].
    destruct obj; try reflexivity. exfalso. exact (Hobj _ eq_refl). }
  rewrite E. unfold py_hasattr. split.
  - intros v Hv. rewrite Hv. reflexivity.
  - intros Hv. rewrite Hv. reflexivity.
Qed.

Lemma path_resolves_segment_by_segment_witness :
  (forall xs, Example.databases_101 <> VList xs)
  /\ get_nested_property Example.R Example.databases_101 "hasCourseMetadata.CourseCredit"
     = get_nested_property Example.R (VList [Example.metadata]) "CourseCredit"
  /\ get_nested_property Example.R Example.databases_101 "hasBasicInfo.Introduction"
     = Ret VNone.
Proof.
  assert (H : forall xs, Example.databases_101 <> VList xs) by (intros xs; discriminate).
  split; [exact H|]. split.
  - exact (proj1 (path_resolves_segment_by_segment Example.R Example.databases_101
                    "hasCourseMetadata" "CourseCredit" H eq_refl) _ eq_refl).
  - exact (proj2 (path_resolves_segment_by_segment Example.R Example.databases_101
                    "hasBasicInfo" "Introduction" H eq_refl) eq_refl).
Defined.

(** ** The standard query, further *)

Lemma resolver_returns (R : runtime) (obj : value) (path : string) :
  exists v, get_nested_property R obj path = Ret v.
Proof.
  unfold get_nested_property, try_except.
  destruct (follow_properties R obj (PyStr.split "." path)); eauto.
Qed.

(** X8. With a course name that is a string the standard query never raises,
    and it has three answers: [not_found] when the name resolves to no node;
    [no_data] when the path resolves to [None] or to a value that is false
    (the empty string, 0, the empty list); and otherwise the value, printed. *)
Theorem standard_query_always_answers (R : runtime) (st : state) (params : dict)
    (name path label entity : string) :
  reachable R st ->
  dict_find params "courseName" = Some (VStr name) ->
  exists text v,
    fst (handle_standard_query R params path label entity st) = Ret text
    /\ get_nested_property R (course_of R name) path = Ret v
    /\ (course_of R name = VNone ->
        text = "I couldn't find " ++ entity ++ " '" ++ name ++ "'.")
    /\ (course_of R name <> VNone -> truthy v = false ->
        text = "No " ++ label ++ " available for " ++ entity ++ " '" ++ name ++ "'.")
    /\ (course_of R name <> VNone -> truthy v = true -> text = py_str R v).
Proof.
  intros Hr Hp.
  destruct (resolver_returns R (course_of R name) path) as [v Hv].
  pose proof (handle_standard_query_string R st params name path label entity Hr Hp) as Hq.
  rewrite Hv in Hq. cbn [obind] in Hq.
  destruct (course_of_cases R name) as [H0|(iri & rels & H1 & _)].
  - rewrite H0 in Hq. cbn [truthy] in Hq. eexists. exists v.
    split; [exact Hq|]. split; [exact Hv|]. split; [reflexivity|].
    split; intros H; contradiction.
  - rewrite H1 in Hq. cbn [truthy] in Hq.
    destruct (truthy v) eqn:E; eexists; exists v; (split; [exact Hq|]);
      (split; [exact Hv|]); (split; [rewrite H1; discriminate|]); split; intros _ H;
      try congruence; reflexivity.
Qed.

Lemma standard_query_always_answers_witness :
  reachable Example.R initial_state
  /\ fst (handle_standard_query Example.R [("courseName", VStr "Databases 101")]
            "hasCourseMetadata.CourseType" "course type" "course" initial_state)
     = Ret "No course type available for course 'Databases 101'."
  /\ exists text v,
       fst (handle_standard_query Example.R [("courseName", VStr "Databases 101")]
              "hasCourseMetadata.CourseType" "course type" "course" initial_state)
       = Ret text
       /\ get_nested_property Example.R (course_of Example.R "Databases 101")
            "hasCourseMetadata.CourseType" = Ret v
       /\ (course_of Example.R "Databases 101" = VNone ->
           text = "I couldn't find " ++ "course" ++ " '" ++ "Databases 101" ++ "'.")
       /\ (course_of Example.R "Databases 101" <> VNone -> truthy v = false ->
           text = "No " ++ "course type" ++ " available for " ++ "course" ++ " '"
                  ++ "Databases 101" ++ "'.")
       /\ (course_of Example.R "Databases 101" <> VNone -> truthy v = true ->
           text = py_str Example.R v).
Proof.
  split; [apply reach_initial|]. split; [reflexivity|].
  apply (standard_query_always_answers Example.R initial_state
           [("courseName", VStr "Databases 101")] "Databases 101"
           "hasCourseMetadata.CourseType" "course type" "course" (reach_initial _) eq_refl).
Defined.

Lemma dict_get_absent (d : dict) (k : string) (default : value) :
  dict_find d k = None -> dict_get d k default = default.
Proof. unfold dict_get. intros ->. reflexivity. Qed.

(** X9. A request without a course name: the standard query and the list
    query answer that they could not find the course 'None', and make no
    lookup in the ontology. *)
Theorem missing_course_name_is_not_found (R : runtime) (st : state) (params : dict)
    (path label : string) (format_func : option (value -> outcome value)) :
  reachable R st ->
  dict_find params "courseName" = None ->
  (fst (handle_standard_query R params path label "course" st)
   = Ret "I couldn't find course 'None'."
   /\ graph_log (snd (handle_standard_query R params path label "course" st)) = graph_log st)
  /\ (fst (handle_list_query R params path label format_func st)
      = Ret "I couldn't find course 'None'."
      /\ graph_log (snd (handle_list_query R params path label format_func st))
         = graph_log st).
Proof.
  intros Hr Hp.
  destruct (get_course_string R EmptyString st Hr) as (st' & Hcall & _ & Hlog).
  assert (Hsame : graph_log st' = graph_log st)
    by (destruct Hlog as [H|[H _]]; [exact H|discriminate H]).
  unfold handle_standard_query, handle_list_query, bind.
  rewrite !(dict_get_absent _ _ _ Hp), Hcall.
  change (course_of R EmptyString) with VNone. cbn [truthy negb].
  unfold lift. cbn [fst snd]. repeat split; assumption.
Qed.

Lemma missing_course_name_is_not_found_witness :
  reachable Example.R initial_state
  /\ Example.answer "GetPrerequisites" [("course", VStr "Databases 101")]
     = "I couldn't find course 'None'."
  /\ fst (handle_standard_query Example.R [("course", VStr "Databases 101")]
            "hasCourseMetadata.Prerequisites" "prerequisites" "course" initial_state)
     = Ret "I couldn't find course 'None'.".
Proof.
  split; [apply reach_initial|]. split; [reflexivity|].
  exact (proj1 (proj1 (missing_course_name_is_not_found Example.R initial_state
                         [("course", VStr "Databases 101")]
                         "hasCourseMetadata.Prerequisites" "prerequisites" None
                         (reach_initial _) eq_refl))).
Defined.

(** ** The endpoint, further *)

Lemma dict_find_set_same (d : dict) (k : string) (v : value) :
  dict_find (dict_set d k v) k = Some v.
Proof.
  induction d as [|[k' v'] d IH]; simpl.
  - rewrite String.eqb_refl. reflexivity.
  - destruct (String.eqb k' k) eqn:E; simpl.
    + rewrite String.eqb_refl. reflexivity.
    + rewrite E. exact IH.
Qed.

Lemma dict_find_set_other (d : dict) (k k' : string) (v : value) :
  k' <> k -> dict_find (dict_set d k v) k' = dict_find d k'.
Proof.
  intros Hne. induction d as [|[k0 v0] d IH]; simpl.
  - destruct (String.eqb_spec k k'); [congruence|reflexivity].
  - destruct (String.eqb_spec k0 k) as [->|Hk]; simpl.
    + destruct (String.eqb_spec k k'); [congruence|reflexivity].
    + destruct (String.eqb k0 k'); [reflexivity|exact IH].
Qed.

Lemma value_size_in (x : value) (xs : list value) :
  In x xs -> (value_size x < value_size (VList xs))%nat.
Proof.
  intros H. cbn [value_size]. induction xs as [|y xs IH]; [destruct H|].
  simpl. destruct H as [->|H]; [lia|]. specialize (IH H). lia.
Qed.

Lemma json_value_ok_bounded (n : nat) :
  forall v, (value_size v <= n)%nat -> json_ok v = true -> exists s, json_value v = Ret s.
Proof.
  induction n as [|n IH]; intros v Hsize Hok.
  - destruct v; simpl in Hsize; lia.
  - destruct v as [|s|z|xs|iri rels|tag]; try discriminate Hok; try (simpl; eauto; fail).
    assert (Hall : forall x, In x xs -> exists s, json_value x = Ret s).
    { intros x Hx. apply IH.
      - pose proof (value_size_in x xs Hx). lia.
      - cbn [json_ok] in Hok. rewrite forallb_forall in Hok. auto. }
    clear Hsize Hok. cbn [json_value].
    assert (Hitems : exists l,
               (fix items (l : list value) : outcome (list string) :=
                  match l with
                  | [] => Ret []
                  | x :: r => a <~ json_value x ;; b <~ items r ;; Ret (a :: b)
                  end) xs = Ret l).
    { induction xs as [|x xs IHxs]; [eauto|].
      destruct (Hall x (or_introl eq_refl)) as [a Ha].
      destruct IHxs as [b Hb]; [intros y Hy; apply Hall; right; exact Hy|].
      rewrite Ha. cbn [obind]. rewrite Hb. cbn [obind]. eauto. }
    destruct Hitems as [l ->]. cbn [obind]. eauto.
Qed.

(** [json.dumps] returns on the parameters of a request. *)
Lemma json_dumps_ok (d : dict) :
  forallb (fun e => json_ok (snd e)) d = true -> exists s, json_dumps d = Ret s.
Proof.
  intros H. unfold json_dumps.
  assert (Hm : exists l, json_members d = Ret l).
  { induction d as [|[k v] d IH]; [simpl; eauto|].
    simpl in H. apply andb_true_iff in H. destruct H as [Hv Hd].
    destruct (json_value_ok_bounded (value_size v) v (le_n _) Hv) as [a Ha].
    destruct (IH Hd) as [b Hb]. simpl. rewrite Ha. cbn [obind]. rewrite Hb. cbn [obind]. eauto. }
  destruct Hm as [l ->]. cbn [obind]. eauto.
Qed.

Lemma json_ok_set (d : dict) (k : string) (v : value) :
  forallb (fun e => json_ok (snd e)) d = true ->
  json_ok v = true ->
  forallb (fun e => json_ok (snd e)) (dict_set d k v) = true.
Proof.
  intros Hd Hv. induction d as [|[k' v'] d IH]; simpl.
  - rewrite Hv. reflexivity.
  - simpl in Hd. apply andb_true_iff in Hd. destruct Hd as [H1 H2].
    destruct (String.eqb k' k); simpl.
    + rewrite Hv. exact H2.
    + rewrite H1. exact (IH H2).
Qed.

Lemma request_page_ok (contexts : list context) :
  Forall (fun c => match context_parameters c with
                   | Some d => forallb (fun e => json_ok (snd e)) d = true
                   | None => True
                   end) contexts ->
  json_ok (request_page contexts) = true.
Proof.
  intros H. unfold request_page.
  destruct (find has_page contexts) as [c|] eqn:E; [|reflexivity].
  apply find_some in E. destruct E as [Hin _].
  rewrite Forall_forall in H. specialize (H c Hin).
  destruct (context_parameters c) as [d|]; [|reflexivity].
  unfold dict_get. destruct (dict_find d "page") as [v|] eqn:Ef; [|reflexivity].
  clear - H Ef. induction d as [|[k x] d IH]; [discriminate|].
  simpl in *. apply andb_true_iff in H. destruct H as [H1 H2].
  destruct (String.eqb k "page"); [congruence|auto].
Qed.

(** X10. For an intent of the dispatch table and a request made of JSON
    values: the handler is called with the parameters of the request in
    which [page] is set to the page of the first context that has one, and to
    0 when no context has one, whatever [page] the parameters came with; when
    the handler returns, the response carries its text and exactly one output
    context, with a lifespan of 5, that page, and the parameters as the
    handler got them; when the handler raises, the response is the apology
    with no output context. *)
Theorem webhook_threads_the_page (R : runtime) (st : state) (intent : string) (h : handler)
    (params : dict) (contexts : list context) :
  handlers_get (INTENT_HANDLERS R) intent = Some h ->
  forallb (fun e => json_ok (snd e)) params = true ->
  Forall (fun c => match context_parameters c with
                   | Some d => forallb (fun e => json_ok (snd e)) d = true
                   | None => True
                   end) contexts ->
  let page := request_page contexts in
  let given := dict_set params "page" page in
  dict_find given "page" = Some page
  /\ (forall k, k <> "page" -> dict_find given k = dict_find params k)
  /\ (forall c pre post d,
        contexts = (pre ++ c :: post)%list ->
        Forall (fun c' => has_page c' = false) pre ->
        context_parameters c = Some d ->
        forall v, dict_find d "page" = Some v -> page = v)
  /\ (Forall (fun c' => has_page c' = false) contexts -> page = VInt 0)
  /\ (forall text st',
        h given st = (Ret text, st') ->
        exists query,
          json_dumps given = Ret query
          /\ webhook R (mkRequest (Some intent) (Some params) (Some contexts)) st
             = (mkResponse text
                  (Some [mkOutputContext
                           "projects/${projectId}/agent/sessions/${sessionId}/contexts/pagination"
                           5 page query]),
                st'))
  /\ (forall e st',
        h given st = (Raise e, st') ->
        webhook R (mkRequest (Some intent) (Some params) (Some contexts)) st
        = (mkResponse "Sorry, I encountered an error processing your request." None, st')).
Proof.
  intros Hh Hparams Hctx. cbv zeta.
  split; [apply dict_find_set_same|].
  split; [intros k Hk; apply dict_find_set_other, Hk|].
  split; [|split; [|split]].
  - intros c pre post d -> Hpre Hc v Hv. unfold request_page.
    assert (Hfind : find has_page (pre ++ c :: post) = Some c).
    { clear - Hpre Hc Hv. induction Hpre as [|c' pre Hc' _ IH]; simpl.
      - unfold has_page at 1. rewrite Hc. unfold dict_mem. rewrite Hv. reflexivity.
      - rewrite Hc'. exact IH. }
    rewrite Hfind, Hc. apply dict_get_found, Hv.
  - intros Hnone. unfold request_page.
    assert (Hfind : find has_page contexts = None).
    { clear - Hnone.
      induction Hnone as [|c' l Hc' _ IH]; simpl; [reflexivity|]. rewrite Hc'. exact IH. }
    rewrite Hfind. reflexivity.
  - intros text st' Hrun.
    destruct (json_dumps_ok (dict_set params "page" (request_page contexts))) as [query Hq].
    { apply json_ok_set; [exact Hparams|apply request_page_ok, Hctx]. }
    exists query. split; [exact Hq|].
    unfold webhook. cbn [intent_displayName parameters outputContexts].
    fold (request_page contexts). rewrite Hh. unfold bind. rewrite Hrun.
    unfold dict_mem. rewrite dict_find_set_same. unfold lift. rewrite Hq.
    unfold ret. rewrite (dict_get_found _ _ _ _ (dict_find_set_same _ _ _)). reflexivity.
  - intros e st' Hrun.
    unfold webhook. cbn [intent_displayName parameters outputContexts].
    fold (request_page contexts). rewrite Hh. unfold bind. rewrite Hrun. reflexivity.
Qed.

Lemma webhook_threads_the_page_witness :
  let params := [("courseName", VStr "Databases 101"); ("page", VInt 9)] in
  let contexts := [mkContext "other" None; mkContext "pagination" (Some [("page", VInt 1)])] in
  forallb (fun e => json_ok (snd e)) params = true
  /\ request_page contexts = VInt 1
  /\ exists query,
       json_dumps (dict_set params "page" (request_page contexts)) = Ret query
       /\ webhook Example.R (mkRequest (Some "GetAssessmentTools") (Some params) (Some contexts))
            initial_state
          = (mkResponse ("Final Exam" ++ pagination_footer 2 2)
               (Some [mkOutputContext
                        "projects/${projectId}/agent/sessions/${sessionId}/contexts/pagination"
                        5 (request_page contexts) query]),
             mkState [(VStr "Databases 101", Example.databases_101)] []
               [SearchIri "*#databases_101"]).
Proof.
  cbv zeta. split; [reflexivity|]. split; [reflexivity|].
  refine (proj1 (proj2 (proj2 (proj2 (proj2
            (webhook_threads_the_page Example.R initial_state "GetAssessmentTools" _
               [("courseName", VStr "Databases 101"); ("page", VInt 9)]
               [mkContext "other" None; mkContext "pagination" (Some [("page", VInt 1)])]
               eq_refl eq_refl _))))) _ _ eq_refl).
  repeat constructor.
Defined.

(** ** Pagination with any page size *)

Lemma ceiling_step (n k : nat) :
  (0 < k)%nat -> (1 <= n)%nat -> S ((n - k + k - 1) / k) = ((n + k - 1) / k)%nat.
Proof.
  intros Hk Hn.
  replace (n + k - 1)%nat with (n - 1 + 1 * k)%nat by lia.
  rewrite Nat.div_add by lia.
  destruct (Nat.le_gt_cases n k) as [Hshort|Hlong].
  - replace (n - k + k - 1)%nat with (k - 1)%nat by lia.
    rewrite !Nat.div_small by lia. reflexivity.
  - replace (n - k + k - 1)%nat with (n - 1)%nat by lia. lia.
Qed.

Section ChunksOf.

Context {A : Type}.

Lemma chunks_of_nil (fuel k : nat) : chunks_of fuel k (@nil A) = [].
Proof. destruct fuel; reflexivity. Qed.

Lemma paginate_from_prefix_any (k fuel : nat) :
  (0 < k)%nat ->
  forall prefix items : list A,
    (List.length items <= fuel)%nat ->
    map (fun i => slice (prefix ++ items)%list i (i + k))
        (range_from fuel (List.length prefix) (List.length (prefix ++ items)%list) k)
    = chunks_of fuel k items.
Proof.
  intros Hk. induction fuel as [|fuel IH]; intros prefix items Hlen.
  - destruct items; [reflexivity|simpl in Hlen; lia].
  - cbn [range_from chunks_of].
    destruct items as [|a items].
    + rewrite app_nil_r, Nat.ltb_irrefl. reflexivity.
    + rewrite (proj2 (Nat.ltb_lt _ _)) by (rewrite length_app; simpl; lia).
      cbn [map]. rewrite slice_after_prefix. f_equal.
      destruct (Nat.le_gt_cases (List.length (a :: items)) k) as [Hshort|Hlong].
      * rewrite skipn_all2 by exact Hshort. rewrite chunks_of_nil.
        rewrite range_from_done by (rewrite length_app; lia). reflexivity.
      * replace (prefix ++ a :: items)%list
          with ((prefix ++ firstn k (a :: items)) ++ skipn k (a :: items))%list
          by (rewrite <- app_assoc, firstn_skipn; reflexivity).
        replace (List.length prefix + k)%nat
          with (List.length (prefix ++ firstn k (a :: items))%list)
          by (rewrite length_app, length_firstn; lia).
        apply IH. rewrite length_skipn. lia.
Qed.

Lemma paginate_items_chunks_of (k : nat) (items : list A) :
  (0 < k)%nat -> paginate_items items k = chunks_of (List.length items) k items.
Proof.
  intros Hk. unfold paginate_items, range_step.
  apply (paginate_from_prefix_any k (List.length items) Hk [] items). lia.
Qed.

Lemma chunks_of_facts (k fuel : nat) :
  (0 < k)%nat ->
  forall items : list A,
    (List.length items <= fuel)%nat ->
    concat (chunks_of fuel k items) = items
    /\ List.length (chunks_of fuel k items) = ((List.length items + k - 1) / k)%nat
    /\ forall i,
         (i < List.length (chunks_of fuel k items))%nat ->
         (1 <= List.length (nth i (chunks_of fuel k items) []) <= k)%nat
         /\ ((i + 1 < List.length (chunks_of fuel k items))%nat ->
             List.length (nth i (chunks_of fuel k items) []) = k).
Proof.
  intros Hk. induction fuel as [|fuel IH]; intros items Hlen.
  - destruct items; [|simpl in Hlen; lia]. simpl.
    split; [reflexivity|]. split; [|intros i Hi; lia].
    symmetry. apply Nat.div_small. lia.
  - destruct items as [|a items].
    + simpl. split; [reflexivity|]. split; [|intros i Hi; lia].
      symmetry. apply Nat.div_small. lia.
    + cbn [chunks_of].
      destruct (IH (skipn k (a :: items))) as (Hcat & Hnum & Hsizes).
      { rewrite length_skipn. cbn [List.length] in *. lia. }
      split; [|split].
      * cbn [concat]. rewrite Hcat. apply firstn_skipn.
      * change (List.length (firstn k (a :: items) :: chunks_of fuel k (skipn k (a :: items))))
          with (S (List.length (chunks_of fuel k (skipn k (a :: items))))).
        rewrite Hnum, length_skipn. apply ceiling_step; [exact Hk|simpl; lia].
      * intros [|i] Hi.
        -- cbn [nth]. rewrite length_firstn. split; [simpl; lia|].
           intros Hmore. cbn [List.length] in Hmore.
           destruct (Nat.le_gt_cases (List.length (a :: items)) k) as [Hshort|Hlong]; [|lia].
           exfalso. rewrite skipn_all2 in Hmore by exact Hshort.
           rewrite chunks_of_nil in Hmore. simpl in Hmore. lia.
        -- cbn [nth]. cbn [List.length] in Hi.
           destruct (Hsizes i) as [H1 H2]; [lia|]. split; [exact H1|].
           intros Hmore. apply H2. cbn [List.length] in Hmore. lia.
Qed.

End ChunksOf.

(** X11. [paginate_items] with any positive page size: the pages, put end
    to end, are the items; there are as many pages as the number of items
    divided by the page size and rounded up; no page is empty or longer than
    the page size; and every page but the last is full. *)
Theorem paginate_items_partitions {A : Type} (items : list A) (page_size : nat) :
  (0 < page_size)%nat ->
  let pages := paginate_items items page_size in
  concat pages = items
  /\ List.length pages = ((List.length items + page_size - 1) / page_size)%nat
  /\ forall i,
       (i < List.length pages)%nat ->
       (1 <= List.length (nth i pages []) <= page_size)%nat
       /\ ((i + 1 < List.length pages)%nat -> List.length (nth i pages []) = page_size).
Proof.
  intros Hk. cbv zeta. rewrite (paginate_items_chunks_of page_size items Hk).
  apply chunks_of_facts; [exact Hk|lia].
Qed.

Lemma paginate_items_partitions_witness :
  (0 < 4)%nat
  /\ paginate_items [1; 2; 3; 4; 5; 6; 7; 8; 9]%nat 4 = [[1; 2; 3; 4]; [5; 6; 7; 8]; [9]]%nat
  /\ concat (paginate_items [1; 2; 3; 4; 5; 6; 7; 8; 9]%nat 4) = [1; 2; 3; 4; 5; 6; 7; 8; 9]%nat.
Proof.
  assert (H : (0 < 4)%nat) by lia.
  split; [exact H|]. split; [reflexivity|].
  exact (proj1 (paginate_items_partitions [1; 2; 3; 4; 5; 6; 7; 8; 9]%nat 4 H)).
Defined.

(** ** The list query, further *)

(** X12. A course on which the relation of a list query is not defined, or
    is the empty list: the list query answers [no_data] for the items, with
    any integer page. *)
Theorem list_query_without_items (R : runtime) (st : state) (params : dict)
    (name path items_name iri first : string) (rels : list (string * option value))
    (rest : list string) (format_func : option (value -> outcome value)) (p : Z) :
  reachable R st ->
  dict_find params "courseName" = Some (VStr name) ->
  dict_get params "page" (VInt 0) = VInt p ->
  course_of R name = VNode iri rels ->
  PyStr.split "." path = first :: rest ->
  py_getattr R (VNode iri rels) first = Raise AttributeError
  \/ py_getattr R (VNode iri rels) first = Ret (VList []) ->
  fst (handle_list_query R params path items_name format_func st)
  = Ret ("No " ++ items_name ++ " available for course '" ++ name ++ "'.").
Proof.
  intros Hr Hname Hpage Hcourse Hsplit Hrel.
  assert (Hitems : list_items R (VNode iri rels) path format_func = Ret (map VStr [])).
  { unfold list_items. rewrite Hsplit. unfold py_getattr_default.
    destruct Hrel as [-> | ->]; cbn [obind py_iter]; destruct rest; reflexivity. }
  unfold handle_list_query, bind.
  rewrite !(dict_get_found _ _ _ _ Hname).
  destruct (get_course_string R name st Hr) as (st' & -> & _).
  rewrite Hcourse. cbn [truthy negb]. unfold lift. rewrite Hitems. cbn [fst].
  rewrite (render_page_strings R params items_name name [] p Hname Hpage). reflexivity.
Qed.

Lemma list_query_without_items_witness :
  reachable Example.R initial_state
  /\ py_getattr Example.R Example.intro_to_ai "hasSessionPlan" = Raise AttributeError
  /\ fst (handle_list_query Example.R [("courseName", VStr "Intro to AI"); ("page", VInt 0)]
            "hasSessionPlan" "topics" (Some (topic_line Example.R)) initial_state)
     = Ret "No topics available for course 'Intro to AI'.".
Proof.
  split; [apply reach_initial|]. split; [reflexivity|].
  apply (list_query_without_items Example.R initial_state
           [("courseName", VStr "Intro to AI"); ("page", VInt 0)]
           "Intro to AI" "hasSessionPlan" "topics" _ "hasSessionPlan" _ []
           (Some (topic_line Example.R)) 0 (reach_initial _) eq_refl eq_refl eq_refl eq_refl).
  left. reflexivity.
Defined.

(** X13. The list query drops the items that are false before it formats
    them, not after: for [GetInstructorForCourse], a course with one
    instructor detail whose [Instructors] resolves to [None] (the sentinel,
    for one) gives a list with [None] in it, and joining the page raises
    [TypeError]. *)
Theorem instructor_list_with_missing_name_raises (R : runtime) (st : state) (params : dict)
    (name iri : string) (rels : list (string * option value)) (detail : value) (p : Z)
    (h : handler) :
  reachable R st ->
  handlers_get (INTENT_HANDLERS R) "GetInstructorForCourse" = Some h ->
  dict_find params "courseName" = Some (VStr name) ->
  dict_get params "page" (VInt 0) = VInt p ->
  course_of R name = VNode iri rels ->
  py_getattr R (VNode iri rels) "hasInstructorDetails" = Ret (VList [detail]) ->
  truthy detail = true ->
  get_nested_property R detail "Instructors" = Ret VNone ->
  fst (h params st) = Raise TypeError.
Proof.
  intros Hr Hh Hname Hpage Hcourse Hrel Htrue Hnone. injection Hh as <-.
  unfold handle_list_query, bind.
  rewrite !(dict_get_found _ _ _ _ Hname).
  destruct (get_course_string R name st Hr) as (st' & -> & _).
  rewrite Hcourse. cbn [truthy negb]. unfold lift, list_items.
  change (PyStr.split "." "hasInstructorDetails") with ["hasInstructorDetails"].
  unfold py_getattr_default. rewrite Hrel. cbn [obind py_iter direct_items].
  rewrite Htrue, Hnone. cbn [obind fst].
  unfold render_page. rewrite Hpage. cbn [py_int obind].
  change (paginate_items [VNone] PAGE_SIZE) with [[VNone]].
  replace (Z.to_nat (Z.max 0 (Z.min p (Z.of_nat (List.length [[VNone]]) - 1)))) with 0%nat
    by (simpl; lia).
  reflexivity.
Qed.

Lemma instructor_list_with_missing_name_raises_witness :
  reachable Campus.R initial_state
  /\ course_of Campus.R "Algorithms" = Campus.algorithms
  /\ fst (handle_list_query Campus.R [("courseName", VStr "Algorithms"); ("page", VInt 0)]
            "hasInstructorDetails" "instructors"
            (Some (fun i => get_nested_property Campus.R i "Instructors")) initial_state)
     = Raise TypeError.
Proof.
  split; [apply reach_initial|]. split; [reflexivity|].
  apply (instructor_list_with_missing_name_raises Campus.R initial_state
           [("courseName", VStr "Algorithms"); ("page", VInt 0)] "Algorithms" _ _
           (VNode (Campus.base ++ "detail_1") [("Instructors", Some (VStr "NA"))]) 0 _
           (reach_initial _) eq_refl eq_refl eq_refl eq_refl eq_refl eq_refl eq_refl).
Defined.

(** ** The percentage of an assessment tool, further *)

Lemma scan_percentage_no_match (R : runtime) (params : dict) (tool : string)
    (assessments : list value) :
  Forall (fun x => matches_tool R (VStr tool) x = Ret false) assessments ->
  scan_percentage R params (VStr tool) assessments
  = Ret ("I couldn't find assessment tool '" ++ tool ++ "'.").
Proof.
  induction 1 as [|x l Hx _ IH]; simpl; [reflexivity|].
  rewrite Hx. exact IH.
Qed.

Lemma scan_percentage_empty (R : runtime) (params : dict) (tool : value) (name : string)
    (pre post : list value) (a percentage : value) :
  dict_find params "courseName" = Some (VStr name) ->
  Forall (fun x => matches_tool R tool x = Ret false) pre ->
  matches_tool R tool a = Ret true ->
  py_getattr R a "Percentage" = Ret percentage ->
  truthy percentage = false ->
  scan_percentage R params tool (pre ++ a :: post)
  = Ret ("No assessment percentage available for course '" ++ name ++ "'.").
Proof.
  intros Hname Hpre Ha Hp Hfalse.
  induction Hpre as [|x pre Hx _ IH]; simpl.
  - rewrite Ha. cbn [obind]. rewrite Hp. cbn [obind]. rewrite Hfalse.
    rewrite (dict_get_found _ _ _ _ Hname). reflexivity.
  - rewrite Hx. exact IH.
Qed.

(** X14. The negative answers of [query_assessment_percentage], for a course
    that is found: without any assessment the answer is that the course
    could not be found; with assessments none of which is of the requested
    tool, that the assessment tool could not be found; and when the first
    assessment of the tool has no percentage the answer is [no_data],
    whatever the assessments after it hold. *)
Theorem assessment_percentage_negative_answers (R : runtime) (st : state) (params : dict)
    (name tool iri : string) (rels : list (string * option value)) :
  reachable R st ->
  dict_find params "courseName" = Some (VStr name) ->
  dict_find params "assessmentTool" = Some (VStr tool) ->
  course_of R name = VNode iri rels ->
  let answer := fst (query_assessment_percentage R params st) in
  (py_getattr R (VNode iri rels) "hasAssessment" = Ret (VList []) ->
   answer = Ret ("I couldn't find course '" ++ name ++ "'."))
  /\ (forall assessments,
        assessments <> [] ->
        py_getattr R (VNode iri rels) "hasAssessment" = Ret (VList assessments) ->
        Forall (fun x => matches_tool R (VStr tool) x = Ret false) assessments ->
        answer = Ret ("I couldn't find assessment tool '" ++ tool ++ "'."))
  /\ (forall pre a post percentage,
        py_getattr R (VNode iri rels) "hasAssessment" = Ret (VList (pre ++ a :: post)) ->
        Forall (fun x => matches_tool R (VStr tool) x = Ret false) pre ->
        matches_tool R (VStr tool) a = Ret true ->
        py_getattr R a "Percentage" = Ret percentage ->
        truthy percentage = false ->
        answer = Ret ("No assessment percentage available for course '" ++ name ++ "'.")).
Proof.
  intros Hr Hname Htool Hcourse. cbv zeta.
  assert (E : forall l,
             py_getattr R (VNode iri rels) "hasAssessment" = Ret (VList l) ->
             fst (query_assessment_percentage R params st)
             = if truthy (VList l)
               then scan_percentage R params (VStr tool) l
               else Ret ("I couldn't find course '" ++ name ++ "'.")).
  { intros l Hl. unfold query_assessment_percentage, bind.
    rewrite !(dict_get_found _ _ _ _ Hname), (dict_get_found _ _ _ _ Htool).
    destruct (get_course_string R name st Hr) as (st' & -> & _).
    rewrite Hcourse. unfold lift. cbn [fst truthy obind]. rewrite Hl. cbn [obind].
    destruct l; cbn [truthy obind py_iter]; reflexivity. }
  split; [|split].
  - intros Hl. rewrite (E _ Hl). reflexivity.
  - intros l Hne Hl Hall. rewrite (E _ Hl). destruct l; [congruence|].
    cbn [truthy]. apply scan_percentage_no_match, Hall.
  - intros pre a post percentage Hl Hpre Ha Hp Hfalse.
    rewrite (E _ Hl), truthy_middle.
    apply (scan_percentage_empty R params (VStr tool) name pre post a percentage); assumption.
Qed.

Lemma assessment_percentage_negative_answers_witness :
  reachable Example.R initial_state
  /\ course_of Example.R "Databases 101" = Example.databases_101
  /\ fst (query_assessment_percentage Example.R
            [("courseName", VStr "Databases 101"); ("assessmentTool", VStr "Essay")]
            initial_state)
     = Ret "I couldn't find assessment tool 'Essay'.".
Proof.
  split; [apply reach_initial|]. split; [reflexivity|].
  refine (proj1 (proj2 (assessment_percentage_negative_answers Example.R initial_state
            [("courseName", VStr "Databases 101"); ("assessmentTool", VStr "Essay")]
            "Databases 101" "Essay" _ _ (reach_initial _) eq_refl eq_refl eq_refl))
            [Example.quiz; Example.project; Example.viva; Example.final_exam] _ eq_refl _).
  - discriminate.
  - repeat constructor.
Defined.

(** ** The resolvers beside the dispatch table *)

Lemma find_session_none (R : runtime) (num : string) (plans : list value) :
  Forall (fun s => exists n, py_getattr R s "Session" = Ret n /\ py_str R n <> num) plans ->
  find_session R num plans = Ret VNone.
Proof.
  induction 1 as [|s l (n & Hn & Hne) _ IH]; simpl; [reflexivity|].
  rewrite Hn. cbn [obind].
  destruct (String.eqb_spec (py_str R n) num); [contradiction|exact IH].
Qed.

Lemma find_session_first (R : runtime) (num : string) (pre post : list value) (s n : value) :
  Forall (fun s => exists n, py_getattr R s "Session" = Ret n /\ py_str R n <> num) pre ->
  py_getattr R s "Session" = Ret n ->
  py_str R n = num ->
  find_session R num (pre ++ s :: post) = Ret s.
Proof.
  intros Hpre Hn Hnum.
  induction Hpre as [|x l (m & Hm & Hne) _ IH]; simpl.
  - rewrite Hn. cbn [obind]. rewrite Hnum, String.eqb_refl. reflexivity.
  - rewrite Hm. cbn [obind].
    destruct (String.eqb_spec (py_str R m) num); [contradiction|exact IH].
Qed.

(** X15. [query_session_info] goes through the session plans of the course
    in storage order and takes the first whose [Session], printed, is the
    requested number, printed (so the number 2 finds the stored string 2);
    its answer is the line of the module, the topic and the materials of that
    plan, from which the occurrences of "NA, " and then of "NA" are removed;
    when no plan has the number the answer is "Session information not
    found.". *)
Theorem session_info_takes_the_first_match (R : runtime) (st : state) (params : dict)
    (name iri : string) (rels : list (string * option value)) (plans : list value) :
  reachable R st ->
  dict_find params "courseName" = Some (VStr name) ->
  course_of R name = VNode iri rels ->
  py_getattr R (VNode iri rels) "hasSessionPlan" = Ret (VList plans) ->
  let num := py_str R (dict_get params "sessionNumber" (VStr "")) in
  let differs s := exists n, py_getattr R s "Session" = Ret n /\ py_str R n <> num in
  let answer := fst (query_session_info R params st) in
  (Forall differs plans -> answer = Ret "Session information not found.")
  /\ (forall pre s post n module topic material,
        plans = (pre ++ s :: post)%list ->
        Forall differs pre ->
        py_getattr R s "Session" = Ret n ->
        py_str R n = num ->
        truthy s = true ->
        py_getattr R s "Module" = Ret module ->
        py_getattr R s "Topic" = Ret topic ->
        py_getattr R s "ReadingMaterial" = Ret material ->
        answer
        = Ret (PyStr.replace "NA" ""
                 (PyStr.replace "NA, " ""
                    ("Module: " ++ py_str R module ++ ", Topic: " ++ py_str R topic
                     ++ ", Materials: " ++ py_str R material)))).
Proof.
  intros Hr Hname Hcourse Hplans. cbv zeta.
  assert (E : fst (query_session_info R params st)
              = (found <~ find_session R
                            (py_str R (dict_get params "sessionNumber" (VStr ""))) plans ;;
                 if truthy found then
                   module <~ py_getattr R found "Module" ;;
                   topic <~ py_getattr R found "Topic" ;;
                   material <~ py_getattr R found "ReadingMaterial" ;;
                   Ret (PyStr.replace "NA" ""
                          (PyStr.replace "NA, " ""
                             ("Module: " ++ py_str R module ++ ", Topic: " ++ py_str R topic
                              ++ ", Materials: " ++ py_str R material)))
                 else Ret "Session information not found.")).
  { unfold query_session_info, bind.
    rewrite !(dict_get_found _ _ _ _ Hname).
    destruct (get_course_string R name st Hr) as (st' & -> & _).
    rewrite Hcourse. unfold lift. cbn [fst truthy]. rewrite Hplans. reflexivity. }
  rewrite E. split.
  - intros Hall. rewrite (find_session_none R _ plans Hall). reflexivity.
  - intros pre s post n module topic material -> Hpre Hn Hnum Hs Hm Ht Hrm.
    rewrite (find_session_first R _ pre post s n Hpre Hn Hnum). cbn [obind].
    rewrite Hs, Hm, Ht, Hrm. reflexivity.
Qed.

Lemma session_info_takes_the_first_match_witness :
  reachable Example.R initial_state
  /\ course_of Example.R "Databases 101" = Example.databases_101
  /\ fst (query_session_info Example.R
            [("courseName", VStr "Databases 101"); ("sessionNumber", VInt 2)] initial_state)
     = Ret "Module: Foundations, Topic: Relational algebra, Materials: ".
Proof.
  split; [apply reach_initial|]. split; [reflexivity|].
  refine (proj2 (session_info_takes_the_first_match Example.R initial_state
            [("courseName", VStr "Databases 101"); ("sessionNumber", VInt 2)]
            "Databases 101" _ _ [Example.session_1; Example.session_2]
            (reach_initial _) eq_refl eq_refl eq_refl)
            [Example.session_1] Example.session_2 [] (VStr "2")
            (VStr "Foundations") (VStr "Relational algebra") (VStr "NA")
            eq_refl _ eq_refl eq_refl eq_refl eq_refl eq_refl eq_refl).
  constructor; [|constructor]. exists (VStr "1"). split; [reflexivity|discriminate].
Defined.

(** X16. [query_course_credits], the resolver that the dispatch table leaves
    out, never answers [not_found]: for a name that resolves to no node, for
    a course without metadata and for a credit that is false the answer is
    "Credit info unavailable."; otherwise it is the credit followed by
    " credits.". *)
Theorem course_credits_answers (R : runtime) (st : state) (params : dict) (name : string) :
  reachable R st ->
  dict_find params "courseName" = Some (VStr name) ->
  builtin_getattr R VNone "hasCourseMetadata" = Raise AttributeError ->
  let answer := fst (query_course_credits R params st) in
  (course_of R name = VNone -> answer = Ret "Credit info unavailable.")
  /\ (py_getattr R (course_of R name) "hasCourseMetadata" = Ret (VList []) ->
      answer = Ret "Credit info unavailable.")
  /\ (forall meta others credit,
        py_getattr R (course_of R name) "hasCourseMetadata" = Ret (VList (meta :: others)) ->
        truthy meta = true ->
        py_getattr R meta "CourseCredit" = Ret credit ->
        answer = Ret (if truthy credit then py_str R credit ++ " credits."
                      else "Credit info unavailable.")).
Proof.
  intros Hr Hname Hnone. cbv zeta.
  assert (E : fst (query_course_credits R params st)
              = (meta <~ get_course_metadata R (course_of R name) ;;
                 has <~ (if truthy meta then
                           credit <~ py_getattr R meta "CourseCredit" ;; Ret (truthy credit)
                         else Ret false) ;;
                 if has then
                   credit <~ py_getattr R meta "CourseCredit" ;;
                   Ret (py_str R credit ++ " credits.")
                 else Ret "Credit info unavailable.")).
  { unfold query_course_credits, bind.
    rewrite !(dict_get_found _ _ _ _ Hname).
    destruct (get_course_string R name st Hr) as (st' & -> & _). reflexivity. }
  rewrite E. unfold get_course_metadata, try_except. split; [|split].
  - intros ->. cbn [py_getattr]. rewrite Hnone. reflexivity.
  - intros ->. reflexivity.
  - intros meta others credit -> Hmeta Hcredit. cbn [obind py_first].
    rewrite Hmeta, Hcredit. cbn [obind]. destruct (truthy credit); reflexivity.
Qed.

Lemma course_credits_answers_witness :
  reachable Campus.R initial_state
  /\ course_of Campus.R "Unknown Course" = VNone
  /\ fst (query_course_credits Campus.R [("courseName", VStr "Unknown Course")] initial_state)
     = Ret "Credit info unavailable."
  /\ fst (query_course_credits Campus.R [("courseName", VStr "Algorithms")] initial_state)
     = Ret "Credit info unavailable.".
Proof.
  split; [apply reach_initial|]. split; [reflexivity|]. split.
  - exact (proj1 (course_credits_answers Campus.R initial_state
                    [("courseName", VStr "Unknown Course")] "Unknown Course"
                    (reach_initial _) eq_refl eq_refl) eq_refl).
  - exact (proj1 (proj2 (course_credits_answers Campus.R initial_state
                           [("courseName", VStr "Algorithms")] "Algorithms"
                           (reach_initial _) eq_refl eq_refl)) eq_refl).
Defined.

(** X17. [query_contact_instructor] answers [not_found] for the instructor
    both when the name resolves to no node and when the node has no contact
    details (they are [None] or empty): a known instructor without contact
    details is answered as unknown. With contact details the answer gives
    them and the consultation hours as they are stored, [None] included. *)
Theorem contact_instructor_answers (R : runtime) (st : state) (params : dict) (name : string) :
  reachable R st ->
  dict_find params "instructorName" = Some (VStr name) ->
  let answer := fst (query_contact_instructor R params st) in
  (instructor_of R name = VNone ->
   answer = Ret ("I couldn't find instructor '" ++ name ++ "'."))
  /\ (forall contact,
        truthy (instructor_of R name) = true ->
        py_getattr R (instructor_of R name) "ContactDetails" = Ret contact ->
        truthy contact = false ->
        answer = Ret ("I couldn't find instructor '" ++ name ++ "'."))
  /\ (forall contact hours,
        truthy (instructor_of R name) = true ->
        py_getattr R (instructor_of R name) "ContactDetails" = Ret contact ->
        truthy contact = true ->
        py_getattr R (instructor_of R name) "ConsultationHours" = Ret hours ->
        answer = Ret ("Contact: " ++ py_str R contact ++ ", Consultation Hours: "
                      ++ py_str R hours)).
Proof.
  intros Hr Hname. cbv zeta.
  unfold query_contact_instructor, bind.
  rewrite !(dict_get_found _ _ _ _ Hname).
  destruct (get_instructor_string R name st Hr) as (st' & -> & _).
  unfold lift. cbn [fst]. split; [|split].
  - intros ->. reflexivity.
  - intros contact -> Hc Hfalse. rewrite Hc. cbn [obind]. rewrite Hfalse. reflexivity.
  - intros contact hours -> Hc Htrue Hh. rewrite Hc. cbn [obind]. rewrite Htrue.
    cbn [obind]. rewrite Hh. reflexivity.
Qed.

Lemma contact_instructor_answers_witness :
  reachable Campus.R initial_state
  /\ instructor_of Campus.R "Grace Hopper" = Campus.hopper
  /\ fst (query_contact_instructor Campus.R [("instructorName", VStr "Grace Hopper")]
            initial_state)
     = Ret "I couldn't find instructor 'Grace Hopper'."
  /\ fst (query_contact_instructor Campus.R [("instructorName", VStr "Alan Turing")]
            initial_state)
     = Ret "Contact: NA, Consultation Hours: None".
Proof.
  split; [apply reach_initial|]. split; [reflexivity|]. split.
  - exact (proj1 (proj2 (contact_instructor_answers Campus.R initial_state
                           [("instructorName", VStr "Grace Hopper")] "Grace Hopper"
                           (reach_initial _) eq_refl))
             VNone eq_refl eq_refl eq_refl).
  - exact (proj2 (proj2 (contact_instructor_answers Campus.R initial_state
                           [("instructorName", VStr "Alan Turing")] "Alan Turing"
                           (reach_initial _) eq_refl))
             (VStr "NA") VNone eq_refl eq_refl eq_refl eq_refl).
Defined.

(** X18. [query_highest_assessment_tool] never answers [not_found]: for a
    name that resolves to no node and for a course without assessments the
    answer is [no_data] for the assessment tool. *)
Theorem highest_assessment_tool_without_course (R : runtime) (st : state) (params : dict)
    (name : string) :
  reachable R st ->
  dict_find params "courseName" = Some (VStr name) ->
  course_of R name = VNone
  \/ py_getattr R (course_of R name) "hasAssessment" = Ret (VList []) ->
  fst (query_highest_assessment_tool R params st)
  = Ret ("No assessment tool available for course '" ++ name ++ "'.").
Proof.
  intros Hr Hname Hcase.
  unfold query_highest_assessment_tool, bind.
  rewrite !(dict_get_found _ _ _ _ Hname).
  destruct (get_course_string R name st Hr) as (st' & -> & _).
  unfold lift. cbn [fst]. destruct Hcase as [-> | Hempty]; [reflexivity|].
  destruct (truthy (course_of R name)); [|reflexivity].
  rewrite Hempty. reflexivity.
Qed.

Lemma highest_assessment_tool_without_course_witness :
  reachable Example.R initial_state
  /\ course_of Example.R "Unknown Course" = VNone
  /\ fst (query_highest_assessment_tool Example.R [("courseName", VStr "Unknown Course")]
            initial_state)
     = Ret "No assessment tool available for course 'Unknown Course'.".
Proof.
  split; [apply reach_initial|]. split; [reflexivity|].
  apply (highest_assessment_tool_without_course Example.R initial_state
           [("courseName", VStr "Unknown Course")] "Unknown Course" (reach_initial _) eq_refl).
  left. reflexivity.
Defined.

Lemma reading_materials_listed (R : runtime) (plans : list value) (ms : list (option string)) :
  Forall2 (fun s m => py_getattr R s "ReadingMaterial" = Ret (stored m)) plans ms ->
  reading_materials R plans = Ret (map VStr (listed ms)).
Proof.
  induction 1 as [|s m plans ms Hs _ IH]; [reflexivity|].
  cbn [reading_materials]. rewrite Hs. cbn [obind].
  destruct m as [x|]; cbn [stored truthy is_not_sentinel listed flat_map obind].
  - destruct (String.eqb x ""); cbn [negb orb obind]; [exact IH|].
    destruct (String.eqb x "NA"); cbn [negb obind]; [exact IH|].
    rewrite IH. reflexivity.
  - exact IH.
Qed.

(** X19. [query_reading_materials] lists, under the heading "Required
    readings:", one per line and in the order of the session plans, the first
    five reading materials that are neither missing, nor empty, nor the
    sentinel "NA"; when there is no such material it answers "No reading
    materials listed.", and for a name that resolves to no node it answers
    [not_found] for the course. *)
Theorem reading_materials_are_the_first_five (R : runtime) (st : state) (params : dict)
    (name : string) :
  reachable R st ->
  dict_find params "courseName" = Some (VStr name) ->
  let answer := fst (query_reading_materials R params st) in
  (course_of R name = VNone -> answer = Ret ("I couldn't find course '" ++ name ++ "'."))
  /\ (forall plans ms,
        truthy (course_of R name) = true ->
        py_getattr R (course_of R name) "hasSessionPlan" = Ret (VList plans) ->
        Forall2 (fun s m => py_getattr R s "ReadingMaterial" = Ret (stored m)) plans ms ->
        answer
        = Ret (match listed ms with
               | [] => "No reading materials listed."
               | _ :: _ => "Required readings:" ++ PyStr.newline
                           ++ PyStr.join PyStr.newline (firstn 5 (listed ms))
               end)).
Proof.
  intros Hr Hname. cbv zeta.
  unfold query_reading_materials, bind.
  rewrite !(dict_get_found _ _ _ _ Hname).
  destruct (get_course_string R name st Hr) as (st' & -> & _).
  unfold lift. cbn [fst]. split.
  - intros ->. reflexivity.
  - intros plans ms -> Hplans Hms. rewrite Hplans. cbn [obind py_iter].
    rewrite (reading_materials_listed R plans ms Hms). cbn [obind].
    rewrite firstn_map. unfold py_join. rewrite strings_of_strings.
    destruct (listed ms); reflexivity.
Qed.

Lemma reading_materials_are_the_first_five_witness :
  reachable Campus.R initial_state
  /\ fst (query_reading_materials Campus.R [("courseName", VStr "Algorithms")] initial_state)
     = Ret ("Required readings:" ++ PyStr.newline ++ "Chapter 8").
Proof.
  split; [apply reach_initial|].
  refine (proj2 (reading_materials_are_the_first_five Campus.R initial_state
                   [("courseName", VStr "Algorithms")] "Algorithms" (reach_initial _) eq_refl)
            [Campus.plan_10; Campus.plan_9; Campus.plan_2] [Some "Chapter 8"; Some "NA"; None]
            eq_refl eq_refl _).
  repeat constructor.
Defined.

(** ** The order of the full session plan *)



Lemma keyed_snd (R : runtime) (plans : list value) (l : list (Z * value)) :
  keyed R plans = Ret l -> map snd l = plans.
Proof.
  revert l. induction plans as [|s plans IH]; cbn [keyed]; intros l H.
  - injection H as <-. reflexivity.
  - destruct (session_key R s) as [k|e]; cbn [obind] in H; [|discriminate].
    destruct (keyed R plans) as [r|e]; cbn [obind] in H; [|discriminate].
    injection H as <-. cbn [map snd]. rewrite (IH r eq_refl). reflexivity.
Qed.

Lemma insert_keyed_perm (e : Z * value) (l : list (Z * value)) :
  Permutation (e :: l) (insert_keyed e l).
Proof.
  induction l as [|y r IH]; cbn [insert_keyed]; [apply Permutation_refl|].
  destruct (fst e <=? fst y)%Z; [apply Permutation_refl|].
  apply perm_trans with (y :: e :: r); [apply perm_swap|apply perm_skip, IH].
Qed.

Lemma sort_keyed_perm (l : list (Z * value)) : Permutation l (sort_keyed l).
Proof.
  induction l as [|e r IH]; cbn [sort_keyed]; [apply perm_nil|].
  apply perm_trans with (e :: sort_keyed r); [apply perm_skip, IH|apply insert_keyed_perm].
Qed.







Lemma ordered_sessions_cases (R : runtime) (course : value) (plans : list value) :
  py_getattr R course "hasSessionPlan" = Ret (VList plans) ->
  exists sessions, ordered_sessions R course = Ret sessions /\ Permutation plans sessions.
Proof.
  intros Hplans. unfold ordered_sessions. rewrite Hplans. cbn [obind py_iter].
  destruct (keyed R plans) as [l|e] eqn:E; cbn [obind try_except].
  - exists (map snd (sort_keyed l)). split; [reflexivity|].
    rewrite <- (keyed_snd R plans l E). apply Permutation_map, sort_keyed_perm.
  - exists plans. split; [reflexivity|apply Permutation_refl].
Qed.



Lemma topic_lines_none (R : runtime) (sessions : list value) :
  Forall (no_topic R) sessions -> topic_lines R sessions = Ret [].
Proof.
  induction 1 as [|s l (topic & Ht & Hcase) _ IH]; [reflexivity|].
  cbn [topic_lines]. rewrite Ht. cbn [obind].
  destruct Hcase as [Hfalse | ->].
  - rewrite Hfalse. cbn [obind]. exact IH.
  - cbn [truthy String.eqb Ascii.eqb Bool.eqb negb obind is_not_sentinel]. exact IH.
Qed.

(** X21. [query_full_session_plan] answers [no_data] for the session plan,
    never [not_found]: for a name that resolves to no node, and for a course
    none of whose session plans has a topic other than the sentinel "NA"
    (a course without session plans included), whatever the session numbers
    of the plans are. *)
Theorem full_session_plan_without_topics (R : runtime) (st : state) (params : dict)
    (name : string) (plans : list value) :
  reachable R st ->
  dict_find params "courseName" = Some (VStr name) ->
  course_of R name = VNone
  \/ (py_getattr R (course_of R name) "hasSessionPlan" = Ret (VList plans)
      /\ Forall (no_topic R) plans) ->
  fst (query_full_session_plan R params st)
  = Ret ("No session plan available for course '" ++ name ++ "'.").
Proof.
  intros Hr Hname Hcase.
  unfold query_full_session_plan, bind.
  rewrite !(dict_get_found _ _ _ _ Hname).
  destruct (get_course_string R name st Hr) as (st' & -> & _).
  unfold lift. cbn [fst]. destruct Hcase as [-> | [Hplans Hall]]; [reflexivity|].
  destruct (truthy (course_of R name)); [|reflexivity].
  rewrite Hplans. cbn [obind].
  destruct (truthy (VList plans)); cbn [obind]; [|reflexivity].
  destruct (ordered_sessions_cases R _ plans Hplans) as (sessions & -> & Hperm).
  cbn [obind]. rewrite (topic_lines_none R sessions); [reflexivity|].
  exact (Permutation_Forall Hperm Hall).
Qed.

Lemma full_session_plan_without_topics_witness :
  reachable Campus.R initial_state
  /\ course_of Campus.R "Compilers" = Campus.compilers
  /\ fst (query_full_session_plan Campus.R [("courseName", VStr "Compilers")] initial_state)
     = Ret "No session plan available for course 'Compilers'.".
Proof.
  split; [apply reach_initial|]. split; [reflexivity|].
  apply (full_session_plan_without_topics Campus.R initial_state
           [("courseName", VStr "Compilers")] "Compilers"
           [Campus.plan "c2" (VStr "2") (VStr "NA") (VStr "Chapter 2");
            Campus.plan "c1" (VStr "1") VNone (VStr "Chapter 1")]
           (reach_initial _) eq_refl).
  right. split; [reflexivity|].
  constructor; [|constructor; [|constructor]].
  - exists (VStr "NA"). split; [reflexivity|right; reflexivity].
  - exists VNone. split; [reflexivity|left; reflexivity].
Defined.

Lemma scan_highest_raises (R : runtime) (pre post : list value) (a : value) (e : exn) :
  Forall (fun b => (exists x, percentage_number R b = Ret x)
                   /\ exists t, py_getattr R b "AssessmentTool" = Ret t) pre ->
  percentage_number R a = Raise e ->
  forall highest, scan_highest R highest (pre ++ a :: post) = Raise e.
Proof.
  intros Hpre Ha. induction Hpre as [|b l [[x Hx] [t Ht]] _ IH]; intros highest.
  - cbn [app scan_highest]. rewrite Ha. reflexivity.
  - cbn [app scan_highest]. rewrite Hx. cbn [obind].
    destruct x as [perc|]; [|apply IH].
    destruct (match highest with
              | Some (best, _) => PyFloat.gtb perc best
              | None => true
              end); [|apply IH].
    rewrite Ht. cbn [obind]. apply IH.
Qed.

(** X22. [query_highest_assessment_tool] raises [TypeError] when the first
    assessment whose [Percentage] is not a string or absent holds a number
    other than zero: the regular expression is searched in the number itself.
    (A percentage of zero is false, and is read as the empty string.) *)
Theorem numeric_percentage_raises (R : runtime) (st : state) (params : dict)
    (name iri : string) (rels : list (string * option value))
    (pre post : list value) (a : value) (n : Z)
    (percentage : value -> option string) (tool : value -> value) :
  reachable R st ->
  dict_find params "courseName" = Some (VStr name) ->
  course_of R name = VNode iri rels ->
  py_getattr R (VNode iri rels) "hasAssessment" = Ret (VList (pre ++ a :: post)) ->
  Forall (fun b => assessment_reads R b (percentage b) (tool b)) pre ->
  py_getattr R a "Percentage" = Ret (VInt n) ->
  n <> 0%Z ->
  fst (query_highest_assessment_tool R params st) = Raise TypeError.
Proof.
  intros Hr Hname Hcourse Hlist Hpre Ha Hn.
  rewrite (highest_answer R st params name iri rels _ Hr Hname Hcourse Hlist);
    [|destruct pre; discriminate].
  rewrite (scan_highest_raises R pre post a TypeError); [reflexivity| |].
  - apply Forall_forall. intros b Hb.
    pose proof (proj1 (Forall_forall _ _) Hpre b Hb) as Hreads. split.
    + exists (number percentage b). exact (percentage_number_reads R percentage tool b Hreads).
    + exists (tool b). exact (proj2 Hreads).
  - unfold percentage_number. rewrite Ha. cbn [obind]. unfold py_or. cbn [truthy].
    destruct (Z.eqb_spec n 0); [contradiction|]. reflexivity.
Qed.

Lemma numeric_percentage_raises_witness :
  reachable Campus.R initial_state
  /\ course_of Campus.R "Compilers" = Campus.compilers
  /\ fst (query_highest_assessment_tool Campus.R [("courseName", VStr "Compilers")]
            initial_state)
     = Raise TypeError.
Proof.
  split; [apply reach_initial|]. split; [reflexivity|].
  refine (numeric_percentage_raises Campus.R initial_state
            [("courseName", VStr "Compilers")] "Compilers" _ _
            [VNode (Campus.base ++ "c_quiz")
               [("AssessmentTool", Some (VStr "Quiz")); ("Percentage", Some (VStr "20%"))]]
            [] (VNode (Campus.base ++ "c_lab")
                  [("AssessmentTool", Some (VStr "Lab")); ("Percentage", Some (VInt 30))])
            30 (fun _ => Some "20%") (fun _ => VStr "Quiz")
            (reach_initial _) eq_refl eq_refl eq_refl _ eq_refl _).
  - constructor; [|constructor]. split; reflexivity.
  - discriminate.
Defined.
